(** * Registry Central: search, feedback, quarantine and execution keys

    A shallow embedding of the registry services of the automata repository
    (TypeScript over PostgreSQL) and the properties checked against it.

    Conventions of the embedding:
    - a JavaScript [number] is a rational [Q] (integers of the database are
      [Z]); NaN, the infinities and binary rounding are outside the model;
    - a JavaScript string is a [string] of 8-bit code units read as
      U+0000..U+00FF, and it does not hold U+0000, which the database
      refuses;
    - a table is the list of its rows, a query is a filter over that list;
    - a method that only reads the database is a function of it, one that
      writes returns the new database, and one that may also throw is in the
      monad [M]: it returns the database with [Ok] for a value or [Err] for
      a thrown [Error] (statements run one after the other, there is no
      transaction, so what was written before a throw stays written);
    - [NOW()], [CURRENT_TIMESTAMP] and [Date.now()] are an explicit
      argument in milliseconds;
    - a SELECT without ORDER BY returns the rows in an order that
      PostgreSQL chooses: what is stated of the rows of a table after a
      write is stated by key, by membership or up to the order;
    - of the schema, the model has the VARCHAR columns of [agents],
      [callers] and [agent_feedbacks], the INTEGER and NUMERIC columns of
      [agent_stats] and [agent_feedbacks], the primary keys of [agents]
      and [callers], the unique pair of [callers], the CHECK on [rating],
      the foreign keys of [agent_feedbacks], the defaults of [agents] and
      the trigger that stamps [updated_at] on [agents]; the keys of
      [agent_stats] and of [fraud_detection_log], the serial ids, and the
      dates [created_at] and [updated_at] of [agent_stats] and [callers]
      are outside the model;
    - what the repository does not define is a parameter: the [similarity]
      function of pg_trgm, [Math.log], the cipher behind [encryptSecret]
      and [decryptSecret], the SHA-256 digest, the signature and the
      verification of a JSON web token, the URL parser, the JSONB column
      type, the clock and the random bytes. *)

From Stdlib Require Import QArith Qround Qabs ZArith List String Ascii Bool Lia.
From Stdlib Require Import DecimalString Lqa Sorted Permutation.
Import ListNotations.

Local Open Scope string_scope.
Local Open Scope Q_scope.

(** ** JavaScript values *)

Module JS.

(** *** Numbers *)

Definition Qltb (x y : Q) : bool := negb (Qle_bool y x).

Definition Math_max (x y : Q) : Q := if Qle_bool x y then y else x.
Definition Math_min (x y : Q) : Q := if Qle_bool x y then x else y.

(** [Math.round]: the nearest integer, a half going up. *)
Definition Math_round (x : Q) : Q := inject_Z (Qfloor (x + (1 # 2))).

(** [Number(v) || d] on a finite number: zero is falsy. *)
Definition or_default (v d : Q) : Q := if Qeq_bool v 0 then d else v.

Definition digits (z : Z) : string :=
  NilZero.string_of_uint (N.to_uint (Z.to_N z)).

Fixpoint zeros (n : nat) : string :=
  match n with
  | O => ""
  | S n' => String "0" (zeros n')
  end.

Definition padStart0 (width : nat) (s : string) : string :=
  zeros (width - String.length s) ++ s.

(** [x.toFixed(f)]. *)
Definition toFixed (x : Q) (f : nat) : string :=
  let n := Qfloor (Qabs x * inject_Z (10 ^ Z.of_nat f) + (1 # 2)) in
  let ds := padStart0 (S f) (digits n) in
  let cut := (String.length ds - f)%nat in
  (if Qltb x 0 then "-" else "")
    ++ substring 0 cut ds
    ++ (match f with O => "" | _ => "." ++ substring cut f ds end).

(** *** Strings *)

(** The one-character string holding a double quote. *)
Definition dquote : string := String (ascii_of_nat 34) EmptyString.

Definition code (c : ascii) : N := N_of_ascii c.

Definition between (lo hi : N) (c : ascii) : bool :=
  ((lo <=? code c) && (code c <=? hi))%N.

Definition isUpper (c : ascii) : bool :=
  between 65 90 c || (between 192 222 c && negb (code c =? 215)%N).

Definition toLowerCaseChar (c : ascii) : ascii :=
  if isUpper c then ascii_of_N (code c + 32) else c.

Fixpoint toLowerCase (s : string) : string :=
  match s with
  | EmptyString => EmptyString
  | String c s' => String (toLowerCaseChar c) (toLowerCase s')
  end.

(** White space of [trim] and of the regular expression class [\s]. *)
Definition isSpace (c : ascii) : bool :=
  between 9 13 c || (code c =? 32)%N || (code c =? 160)%N.

Fixpoint trimStart (s : string) : string :=
  match s with
  | EmptyString => EmptyString
  | String c s' => if isSpace c then trimStart s' else s
  end.

Fixpoint rev_string (acc s : string) : string :=
  match s with
  | EmptyString => acc
  | String c s' => rev_string (String c acc) s'
  end.

Definition trimEnd (s : string) : string :=
  rev_string "" (trimStart (rev_string "" s)).

Definition trim (s : string) : string := trimEnd (trimStart s).

(** A string is truthy when it is not empty. *)
Definition truthy (s : string) : bool := negb (s =? "").

Definition truthy_opt (o : option string) : bool :=
  match o with
  | Some s => truthy s
  | None => false
  end.

Definition push_char (c : ascii) (parts : list string) : list string :=
  match parts with
  | [] => [String c ""]
  | w :: ws => String c w :: ws
  end.

(** [s.split(/[class]/)]: a cut at every separator. *)
Fixpoint split (sep : ascii -> bool) (s : string) : list string :=
  match s with
  | EmptyString => [""]
  | String c s' =>
      if sep c then "" :: split sep s' else push_char c (split sep s')
  end.

(** [s.split(/[class]+/)]: a cut at every maximal run of separators. *)
Fixpoint split_runs_from (sep : ascii -> bool) (inRun : bool) (s : string)
  : list string :=
  match s with
  | EmptyString => [""]
  | String c s' =>
      if sep c then
        if inRun then split_runs_from sep true s'
        else "" :: split_runs_from sep true s'
      else push_char c (split_runs_from sep false s')
  end.

Definition split_runs (sep : ascii -> bool) (s : string) : list string :=
  split_runs_from sep false s.

(** [s.includes(sub)]. *)
Fixpoint includes (s sub : string) : bool :=
  prefix sub s
  || match s with
     | EmptyString => false
     | String _ s' => includes s' sub
     end.

(** [array.includes(x)] and [set.has(x)]. *)
Definition has (x : string) (l : list string) : bool :=
  existsb (String.eqb x) l.

(** [new Set(array)], in insertion order. *)
Definition add (acc : list string) (x : string) : list string :=
  if has x acc then acc else acc ++ [x].

Definition Set_of (l : list string) : list string := fold_left add l [].

Definition size (l : list string) : Q := inject_Z (Z.of_nat (List.length l)).

(** [array.slice(0, e)]. *)
Definition slice0 {A} (l : list A) (e : Z) : list A :=
  if (0 <=? e)%Z then firstn (Z.to_nat e) l
  else firstn (Z.to_nat (Z.of_nat (List.length l) + e)) l.

End JS.

(** ** Results of fallible calls *)

Inductive result (A : Type) : Type :=
| Ok (a : A)
| Err (message : string).
Arguments Ok {A} a.
Arguments Err {A} message.

(** ** Types (types/agent.types.ts, services/auth.service.ts) *)

Inductive AgentStatus : Type := active | quarantine | banned.

Module Agent.
Record t : Type := {
  id : string;
  name : string;
  endpoint : string;
  description : string;
  intents : list string;
  tasks : list string;
  tags : list string;
  categories : list string;
  location_scope : string;
  languages : list string;
  version : string;
  meta : string;
  input_schema : option string;
  caller_id : option string;
  status : option AgentStatus;
  quarantine_reason : option string;
  quarantine_at : option Z;
  created_at : option Z;
  updated_at : option Z
}.

Definition set_status (st : AgentStatus) (reason : option string)
    (at_ : option Z) (a : t) : t :=
  {| id := id a; name := name a; endpoint := endpoint a;
     description := description a; intents := intents a; tasks := tasks a;
     tags := tags a; categories := categories a;
     location_scope := location_scope a; languages := languages a;
     version := version a; meta := meta a; input_schema := input_schema a;
     caller_id := caller_id a; status := Some st;
     quarantine_reason := reason; quarantine_at := at_;
     created_at := created_at a; updated_at := updated_at a |}.

Definition set_updated_at (at_ : Z) (a : t) : t :=
  {| id := id a; name := name a; endpoint := endpoint a;
     description := description a; intents := intents a; tasks := tasks a;
     tags := tags a; categories := categories a;
     location_scope := location_scope a; languages := languages a;
     version := version a; meta := meta a; input_schema := input_schema a;
     caller_id := caller_id a; status := status a;
     quarantine_reason := quarantine_reason a;
     quarantine_at := quarantine_at a;
     created_at := created_at a; updated_at := Some at_ |}.
End Agent.

Module AgentStats.
Record t : Type := {
  agent_id : string;
  calls_total : Z;
  calls_success : Z;
  avg_latency_ms : Q;
  avg_rating : Q;
  last_feedback_at : option Z
}.
End AgentStats.

Module AgentFeedback.
Record t : Type := {
  agent_id : string;
  consumer_id : string;
  success : bool;
  latency_ms : Q;
  rating : Q;
  created_at : Z
}.
End AgentFeedback.

Inductive FraudType : Type :=
  SELF_RATING | SPAM | RATING_PATTERN | LATENCY_INCONSISTENT.
Inductive FraudSeverity : Type := LOW | MEDIUM | HIGH | CRITICAL.

Module FraudDetection.
Record t : Type := {
  agent_id : string;
  consumer_id : option string;
  fraud_type : FraudType;
  severity : FraudSeverity;
  details : list (string * string);
  detected_at : Z
}.
End FraudDetection.

Inductive CallerType : Type := consumer | provider.

Module Caller.
Record t : Type := {
  caller_id : string;
  type : CallerType;
  identifier : string;
  jwt_token : option string;
  is_active : bool
}.
End Caller.

(** [intent?: string | string[]] *)
Inductive Intent : Type :=
| IntentString (s : string)
| IntentArray (l : list string).

Module SearchAgentRequest.
Record t : Type := {
  intent : option Intent;
  categories : list string;
  tags : option (list string);
  location : option string;
  language : option string;
  description : option string;
  limit : option Z
}.

Definition with_location (loc : option string) (r : t) : t :=
  {| intent := intent r; categories := categories r; tags := tags r;
     location := loc; language := language r;
     description := description r; limit := limit r |}.
End SearchAgentRequest.

Module SearchAgentResponse.
Record t : Type := {
  id : string;
  name : string;
  caller_id : option string;
  endpoint : string;
  description : string;
  tags : list string;
  intents : list string;
  tasks : list string;
  categories : list string;
  location_scope : string;
  score : Q;
  input_schema : option string
}.
End SearchAgentResponse.

Module AgentWithScore.
Record t : Type := {
  agent : Agent.t;
  stats : option AgentStats.t;
  score : Q
}.
End AgentWithScore.

Module FeedbackRequest.
Record t : Type := {
  agent_id : string;
  success : bool;
  latency_ms : Q;
  rating : Q;
  consumer_id : string
}.
End FeedbackRequest.

(** [RegisterAgentRequest & { caller_id: string }] *)
Module RegisterAgentRequest.
Record t : Type := {
  id : string;
  name : string;
  endpoint : string;
  description : string;
  intents : list string;
  tasks : option (list string);
  tags : list string;
  categories : list string;
  location_scope : string;
  languages : list string;
  version : string;
  meta : option string;
  input_schema : option string;
  caller_id : string
}.

Definition with_caller_id (c : string) (r : t) : t :=
  {| id := id r; name := name r; endpoint := endpoint r;
     description := description r; intents := intents r; tasks := tasks r;
     tags := tags r; categories := categories r;
     location_scope := location_scope r; languages := languages r;
     version := version r; meta := meta r; input_schema := input_schema r;
     caller_id := c |}.
End RegisterAgentRequest.


Inductive QuarantineRisk : Type :=
  risk_low | risk_medium | risk_high | risk_critical.

Module Metrics.
Record t : Type := {
  success_rate : Q;
  avg_rating : Q;
  avg_latency_ms : Q;
  total_feedbacks : Z;
  fraud_detected : Q;
  fraud_percentage : Q;
  self_rating_percentage : Q
}.
End Metrics.

Module AgentHealthMetrics.
Record t : Type := {
  agent_id : string;
  status : AgentStatus;
  health_score : Q;
  metrics : Metrics.t;
  warnings : list string;
  quarantine_risk : QuarantineRisk;
  quarantine_reason : option string;
  quarantine_at : option Z
}.
End AgentHealthMetrics.

(** ** The process environment *)

Module Env.
Record t : Type := {
  NODE_ENV : string;
  JWT_SECRET : string
}.

Definition isProductionMode (env : t) : bool := NODE_ENV env =? "production".
End Env.

(** ** Column types of database/schema.sql *)

Module Pg.

(** [NUMERIC(p, s)]: the value is rounded to [s] decimals, a half going away
    from zero, and refused when it needs more than [p] digits. *)
Definition numeric (p s : nat) (x : Q) : option Q :=
  let n := Qfloor (Qabs x * inject_Z (10 ^ Z.of_nat s) + (1 # 2)) in
  if (n <? 10 ^ Z.of_nat p)%Z
  then Some ((if JS.Qltb x 0 then - n else n)%Z # Z.to_pos (10 ^ Z.of_nat s))
  else None.

(** [INTEGER]: 32 bits, signed. *)
Definition integer (z : Z) : option Z :=
  if ((- 2147483648 <=? z) && (z <=? 2147483647))%Z then Some z else None.

Definition hour_ms : Z := 3600000.
Definition minute_ms : Z := 60000.

Fixpoint spaces (s : string) : bool :=
  match s with
  | EmptyString => true
  | String c s' => Ascii.eqb c " " && spaces s'
  end.

(** [VARCHAR(n)]: a value of more than [n] characters is refused, unless
    what exceeds is spaces, which are cut off. *)
Definition varchar (n : nat) (s : string) : option string :=
  if (String.length s <=? n)%nat then Some s
  else if spaces (substring n (String.length s - n) s)
  then Some (substring 0 n s)
  else None.

(** [s LIKE pattern]: [%] stands for any run of characters, [_] for any
    one character, and a backslash takes the character after it as it is
    (a pattern that ends in a lone backslash is an error; the patterns of
    the registry end in [%]). *)
Fixpoint like (pattern s : string) : bool :=
  match pattern with
  | EmptyString => s =? EmptyString
  | String "%" p =>
      (fix any (t : string) : bool :=
         like p t
         || match t with
            | EmptyString => false
            | String _ t' => any t'
            end) s
  | String "_" p =>
      match s with
      | String _ s' => like p s'
      | EmptyString => false
      end
  | String "\" (String c p) =>
      match s with
      | String d s' => Ascii.eqb c d && like p s'
      | EmptyString => false
      end
  | String c p =>
      match s with
      | String d s' => Ascii.eqb c d && like p s'
      | EmptyString => false
      end
  end.


End Pg.

(** ** The database (database/schema.sql) *)

Module Db.
Record t : Type := {
  agents : list Agent.t;
  agent_stats : list AgentStats.t;
  agent_feedbacks : list AgentFeedback.t;
  fraud_detection_log : list FraudDetection.t;
  callers : list Caller.t
}.

Definition with_agents (l : list Agent.t) (db : t) : t :=
  {| agents := l; agent_stats := agent_stats db;
     agent_feedbacks := agent_feedbacks db;
     fraud_detection_log := fraud_detection_log db; callers := callers db |}.

Definition with_agent_stats (l : list AgentStats.t) (db : t) : t :=
  {| agents := agents db; agent_stats := l;
     agent_feedbacks := agent_feedbacks db;
     fraud_detection_log := fraud_detection_log db; callers := callers db |}.

Definition with_agent_feedbacks (l : list AgentFeedback.t) (db : t) : t :=
  {| agents := agents db; agent_stats := agent_stats db;
     agent_feedbacks := l;
     fraud_detection_log := fraud_detection_log db; callers := callers db |}.

Definition with_fraud_detection_log (l : list FraudDetection.t) (db : t) : t :=
  {| agents := agents db; agent_stats := agent_stats db;
     agent_feedbacks := agent_feedbacks db;
     fraud_detection_log := l; callers := callers db |}.
Definition with_callers (l : list Caller.t) (db : t) : t :=
  {| agents := agents db; agent_stats := agent_stats db;
     agent_feedbacks := agent_feedbacks db;
     fraud_detection_log := fraud_detection_log db; callers := l |}.

End Db.

(** ** Calls that read and write the database and may throw *)

Definition M (A : Type) : Type := Db.t -> Db.t * result A.

Definition ret {A} (a : A) : M A := fun db => (db, Ok a).

Definition throw {A} (message : string) : M A := fun db => (db, Err message).

Definition bind {A B} (m : M A) (k : A -> M B) : M B :=
  fun db =>
    match m db with
    | (db', Ok a) => k a db'
    | (db', Err e) => (db', Err e)
    end.

(** A query that only reads. *)
Definition query {A} (f : Db.t -> A) : M A := fun db => (db, Ok (f db)).

Declare Scope db_scope.
Delimit Scope db_scope with db.
Notation "x <- m ;; k" := (bind m (fun x => k))
  (at level 61, m at next level, right associativity) : db_scope.
Notation "m ;;; k" := (bind m (fun _ => k))
  (at level 61, right associativity) : db_scope.

Definition count {A} (p : A -> bool) (l : list A) : Z :=
  Z.of_nat (List.length (filter p l)).

(** [array.sort((a, b) => key(b) - key(a))]: stable, greatest key first. *)
Fixpoint insert_desc {A} (key : A -> Q) (x : A) (l : list A) : list A :=
  match l with
  | [] => [x]
  | y :: ys =>
      if Qle_bool (key y) (key x) then x :: y :: ys
      else y :: insert_desc key x ys
  end.

Definition sort_desc {A} (key : A -> Q) (l : list A) : list A :=
  fold_right (insert_desc key) [] l.

(** [a && b] on [TEXT[]] columns: the arrays share an element. *)
Definition overlap (a b : list string) : bool :=
  existsb (fun x => JS.has x b) a.

(** ** repositories/agent.repository.ts *)

Module AgentRepository.

Definition findById (id : string) (db : Db.t) : option Agent.t :=
  find (fun a => Agent.id a =? id) (Db.agents db).

Definition matches_intent (intent : option Intent) (a : Agent.t) : bool :=
  match intent with
  | None => true
  | Some (IntentArray l) => overlap (Agent.intents a) l
  | Some (IntentString s) =>
      if JS.truthy s then JS.has s (Agent.intents a) else true
  end.

Definition matches_categories (categories : option (list string))
    (a : Agent.t) : bool :=
  match categories with
  | Some (c :: cs) => overlap (Agent.categories a) (c :: cs)
  | _ => true
  end.

Definition matches_language (language : option string) (a : Agent.t) : bool :=
  match language with
  | Some l => if JS.truthy l then JS.has l (Agent.languages a) else true
  | None => true
  end.

Definition search (intent : option Intent) (categories : option (list string))
    (language : option string) (db : Db.t) : list Agent.t :=
  filter (fun a => matches_intent intent a
                   && matches_categories categories a
                   && matches_language language a)
         (Db.agents db).

Section Fuzzy.
(** [similarity(text, text)] of the pg_trgm extension. *)
Variable similarity : string -> string -> Q.

Definition intent_similarity (intent : string) (a : Agent.t) : Q :=
  similarity (String.concat "," (Agent.intents a)) intent.

(** A missing [intent] is bound as NULL, so no row passes the WHERE
    clause; a negative LIMIT is refused by the database. *)
Definition searchByIntentFuzzy (intent : option string) (limit : Z)
    (db : Db.t) : result (list Agent.t) :=
  if (limit <? 0)%Z then Err "LIMIT must not be negative"
  else
    match intent with
    | None => Ok []
    | Some i =>
        Ok (firstn (Z.to_nat limit)
              (sort_desc (intent_similarity i)
                 (filter (fun a => Qle_bool 0.2 (intent_similarity i a))
                         (Db.agents db))))
    end.
End Fuzzy.

(** [SELECT * FROM agents]: the statement has no ORDER BY, so PostgreSQL
    returns the rows in an order of its choice, which an UPDATE may change;
    this is the order in which the table is listed here. *)
Definition findAll (db : Db.t) : list Agent.t := Db.agents db.

(** The table [agents] with [g] applied to the rows of the id [id]. *)
Definition rewrite_where_id (id : string) (g : Agent.t -> Agent.t)
    (db : Db.t) : Db.t :=
  Db.with_agents
    (map (fun a => if Agent.id a =? id then g a else a) (Db.agents db)) db.

(** [UPDATE agents SET ... WHERE id = $1] at the time [now]: the trigger
    update_agents_updated_at stamps every row that is written. *)
Definition update_where_id (now : Z) (id : string) (f : Agent.t -> Agent.t)
    (db : Db.t) : Db.t :=
  rewrite_where_id id (fun a => Agent.set_updated_at now (f a)) db.

Section Writes.
(** What a JSONB column holds for a JSON text, [None] when the text is
    refused. The value of [meta] and of [input_schema] is the text of
    [JSON.stringify]. *)
Variable jsonb : string -> option string.

(** The values of the columns that INSERT and UPDATE write from [agent],
    as the table holds them. *)
Definition columns (agent : Agent.t) : option Agent.t :=
  match Pg.varchar 255 (Agent.name agent),
        Pg.varchar 512 (Agent.endpoint agent),
        Pg.varchar 512 (Agent.location_scope agent),
        Pg.varchar 50 (Agent.version agent),
        jsonb (Agent.meta agent),
        match Agent.input_schema agent with
        | Some schema => option_map Some (jsonb schema)
        | None => Some None
        end,
        match Agent.caller_id agent with
        | Some c =>
            if JS.truthy c then option_map Some (Pg.varchar 255 c)
            else Some None
        | None => Some None
        end with
  | Some name, Some endpoint, Some location_scope, Some version, Some meta,
    Some input_schema, Some caller_id =>
      Some {| Agent.id := Agent.id agent; Agent.name := name;
              Agent.endpoint := endpoint;
              Agent.description := Agent.description agent;
              Agent.intents := Agent.intents agent;
              Agent.tasks := Agent.tasks agent;
              Agent.tags := Agent.tags agent;
              Agent.categories := Agent.categories agent;
              Agent.location_scope := location_scope;
              Agent.languages := Agent.languages agent;
              Agent.version := version; Agent.meta := meta;
              Agent.input_schema := input_schema;
              Agent.caller_id := caller_id;
              Agent.status := Agent.status agent;
              Agent.quarantine_reason := Agent.quarantine_reason agent;
              Agent.quarantine_at := Agent.quarantine_at agent;
              Agent.created_at := Agent.created_at agent;
              Agent.updated_at := Agent.updated_at agent |}
  | _, _, _, _, _, _, _ => None
  end.

(** The row [row] with the written columns taken from [values]: its id,
    its status, its quarantine columns and its two dates stay. *)
Definition set_columns (values row : Agent.t) : Agent.t :=
  {| Agent.id := Agent.id row; Agent.name := Agent.name values;
     Agent.endpoint := Agent.endpoint values;
     Agent.description := Agent.description values;
     Agent.intents := Agent.intents values;
     Agent.tasks := Agent.tasks values;
     Agent.tags := Agent.tags values;
     Agent.categories := Agent.categories values;
     Agent.location_scope := Agent.location_scope values;
     Agent.languages := Agent.languages values;
     Agent.version := Agent.version values;
     Agent.meta := Agent.meta values;
     Agent.input_schema := Agent.input_schema values;
     Agent.caller_id := Agent.caller_id values;
     Agent.status := Agent.status row;
     Agent.quarantine_reason := Agent.quarantine_reason row;
     Agent.quarantine_at := Agent.quarantine_at row;
     Agent.created_at := Agent.created_at row;
     Agent.updated_at := Agent.updated_at row |}.

(** A row with the id [id] and the defaults of the table: the status
    active and the time of the insertion in [created_at] and
    [updated_at]; no value in another column. *)
Definition default_row (now : Z) (id : string) : Agent.t :=
  {| Agent.id := id; Agent.name := EmptyString;
     Agent.endpoint := EmptyString; Agent.description := EmptyString;
     Agent.intents := []; Agent.tasks := []; Agent.tags := [];
     Agent.categories := []; Agent.location_scope := EmptyString;
     Agent.languages := []; Agent.version := EmptyString;
     Agent.meta := EmptyString; Agent.input_schema := None;
     Agent.caller_id := None; Agent.status := Some active;
     Agent.quarantine_reason := None; Agent.quarantine_at := None;
     Agent.created_at := Some now; Agent.updated_at := Some now |}.

(** [INSERT INTO agents ... RETURNING *] at the time [now]: [id] is the
    primary key. *)
Definition create (now : Z) (agent : Agent.t) : M Agent.t :=
  fun db =>
    match Pg.varchar 255 (Agent.id agent), columns agent with
    | Some id, Some values =>
        if existsb (fun a => Agent.id a =? id) (Db.agents db)
        then (db, Err "duplicate key value violates unique constraint")
        else
          let row := set_columns values (default_row now id) in
          (Db.with_agents (Db.agents db ++ [row]) db, Ok row)
    | _, _ => (db, Err "value refused by a column of agents")
    end.

(** [UPDATE agents SET ... WHERE id = $1 RETURNING *] at the time [now]:
    the first row written, if any. The trigger stamps the rows written. *)
Definition update (now : Z) (agent : Agent.t) : M (option Agent.t) :=
  fun db =>
    match columns agent with
    | Some values =>
        let rows :=
          map (fun a =>
                 if Agent.id a =? Agent.id agent
                 then Agent.set_updated_at now (set_columns values a)
                 else a)
              (Db.agents db) in
        (Db.with_agents rows db,
         Ok (find (fun a => Agent.id a =? Agent.id agent) rows))
    | None => (db, Err "value refused by a column of agents")
    end.

Definition upsert (now : Z) (agent : Agent.t) : M (option Agent.t) :=
  (existing <- query (findById (Agent.id agent)) ;;
   match existing with
   | Some _ => update now agent
   | None => row <- create now agent ;; ret (Some row)
   end)%db.

End Writes.


End AgentRepository.

(** ** repositories/stats.repository.ts *)

Module StatsRepository.
Import AgentStats.

Definition findByAgentId (agentId : string) (db : Db.t) : option AgentStats.t :=
  find (fun s => agent_id s =? agentId) (Db.agent_stats db).

(** The row as the columns of [agent_stats] hold it. *)
Definition stored (s : AgentStats.t) : result AgentStats.t :=
  match Pg.integer (calls_total s), Pg.integer (calls_success s) with
  | Some total, Some success =>
      match Pg.numeric 10 2 (avg_latency_ms s), Pg.numeric 3 2 (avg_rating s) with
      | Some latency, Some rating =>
          Ok {| agent_id := agent_id s; calls_total := total;
                calls_success := success; avg_latency_ms := latency;
                avg_rating := rating;
                last_feedback_at := last_feedback_at s |}
      | _, _ => Err "numeric field overflow"
      end
  | _, _ => Err "integer out of range"
  end.

(** [INSERT INTO agent_stats ... RETURNING *]. The reference to
    [agents] is not checked: the services insert a row for an agent that
    they have read or written just before. *)
Definition create (stats : AgentStats.t) : M AgentStats.t :=
  fun db =>
    match stored stats with
    | Ok row =>
        (Db.with_agent_stats (Db.agent_stats db ++ [row]) db, Ok row)
    | Err e => (db, Err e)
    end.

Definition update (stats : AgentStats.t) : M AgentStats.t :=
  fun db =>
    match stored stats with
    | Ok row =>
        (Db.with_agent_stats
           (map (fun s => if agent_id s =? agent_id stats then row else s)
                (Db.agent_stats db)) db,
         Ok row)
    | Err e => (db, Err e)
    end.

(** Increments feedback with applied weight (anti-fraud). *)
Definition incrementFeedbackWeighted (now : Z) (agentId : string)
    (success : bool) (latencyMs rating weight : Q) : M AgentStats.t :=
  (existing <- query (findByAgentId agentId) ;;
   match existing with
   | None =>
       create {| agent_id := agentId;
                 calls_total := 1;
                 calls_success := if success then 1 else 0;
                 avg_latency_ms := latencyMs;
                 avg_rating := rating * weight;
                 last_feedback_at := Some now |}
   | Some existing =>
       let newCallsTotal := (calls_total existing + 1)%Z in
       let newCallsSuccess :=
         (calls_success existing + (if success then 1 else 0))%Z in
       let currentLatency := JS.or_default (avg_latency_ms existing) 0 in
       let currentRating := JS.or_default (avg_rating existing) 0 in
       let newAvgLatency :=
         currentLatency
         + (latencyMs - currentLatency) / inject_Z newCallsTotal in
       let weightedRating := rating * weight in
       let newAvgRating :=
         currentRating
         + (weightedRating - currentRating) / inject_Z newCallsTotal in
       update {| agent_id := agentId;
                 calls_total := newCallsTotal;
                 calls_success := newCallsSuccess;
                 avg_latency_ms := newAvgLatency;
                 avg_rating := newAvgRating;
                 last_feedback_at := Some now |}
   end)%db.

Definition incrementFeedback (now : Z) (agentId : string) (success : bool)
    (latencyMs rating : Q) : M AgentStats.t :=
  incrementFeedbackWeighted now agentId success latencyMs rating 1.0.

(** One feedback as it reaches the statistics, and a series of them. *)
Module Increment.
Record t : Type := {
  now : Z;
  agentId : string;
  success : bool;
  latencyMs : Q;
  rating : Q;
  weight : Q
}.
End Increment.

Definition increment (db : Db.t) (i : Increment.t) : Db.t :=
  fst (incrementFeedbackWeighted (Increment.now i) (Increment.agentId i)
         (Increment.success i) (Increment.latencyMs i) (Increment.rating i)
         (Increment.weight i) db).

Definition incrementAll (l : list Increment.t) (db : Db.t) : Db.t :=
  fold_left increment l db.

(** A feedback that passed validation, with an anti-fraud weight. *)
Definition accepted (i : Increment.t) : Prop :=
  0 <= Increment.rating i <= 1
  /\ 0 <= Increment.latencyMs i
  /\ 0 < Increment.weight i <= 1.

(** The invariant of a statistics row. *)
Definition invariant (s : AgentStats.t) : Prop :=
  (0 <= calls_success s <= calls_total s)%Z
  /\ ((0 < calls_total s)%Z -> 0 <= avg_rating s <= 1).


End StatsRepository.

(** ** repositories/feedback.repository.ts *)

Module FeedbackRepository.
Import AgentFeedback.

(** [INSERT INTO agent_feedbacks ... RETURNING *]: the columns bound the
    length of [agent_id] and [consumer_id] and round [latency_ms] and
    [rating], the CHECK constraint bounds [rating], and the two foreign
    keys ask for the agent in [agents] and for the consumer in [callers]. *)
Definition create (now : Z) (agentId consumerId : string) (succ : bool)
    (latencyMs rating_ : Q) : M AgentFeedback.t :=
  fun db =>
    match Pg.varchar 255 agentId, Pg.varchar 255 consumerId with
    | Some agentId, Some consumerId =>
        match Pg.numeric 10 2 latencyMs, Pg.numeric 3 2 rating_ with
        | Some l, Some r =>
            if Qle_bool 0 r && Qle_bool r 1 then
              if existsb (fun a => Agent.id a =? agentId) (Db.agents db)
                 && existsb (fun c => Caller.caller_id c =? consumerId)
                      (Db.callers db)
              then
                let row := {| agent_id := agentId; consumer_id := consumerId;
                              success := succ; latency_ms := l; rating := r;
                              created_at := now |} in
                (Db.with_agent_feedbacks (Db.agent_feedbacks db ++ [row]) db,
                 Ok row)
              else (db, Err "violates foreign key constraint")
            else (db, Err "violates check constraint")
        | _, _ => (db, Err "numeric field overflow")
        end
    | _, _ => (db, Err "value too long for type character varying(255)")
    end.

Definition countByConsumerAndAgent (consumerId agentId : string) (db : Db.t)
  : Z :=
  count (fun f => (consumer_id f =? consumerId) && (agent_id f =? agentId))
        (Db.agent_feedbacks db).

Definition countRecentByConsumerAndAgent (now : Z)
    (consumerId agentId : string) (hours : Z) (db : Db.t) : Z :=
  count (fun f => (consumer_id f =? consumerId) && (agent_id f =? agentId)
                  && (now - hours * Pg.hour_ms <? created_at f)%Z)
        (Db.agent_feedbacks db).

Definition countRecentByConsumer (now : Z) (consumerId : string)
    (minutes : Z) (db : Db.t) : Z :=
  count (fun f => (consumer_id f =? consumerId)
                  && (now - minutes * Pg.minute_ms <? created_at f)%Z)
        (Db.agent_feedbacks db).

Module FraudStats.
Record t : Type := {
  total : Z;
  selfRatingCount : Z;
  selfRatingPercentage : Q
}.
End FraudStats.

Definition getFraudStats (agentId : string) (db : Db.t) : FraudStats.t :=
  let agentCallerId :=
    match find (fun a => Agent.id a =? agentId) (Db.agents db) with
    | Some a => Agent.caller_id a
    | None => None
    end in
  let total := count (fun f => agent_id f =? agentId) (Db.agent_feedbacks db) in
  let selfRatingCount :=
    match agentCallerId with
    | Some c =>
        if JS.truthy c then
          count (fun f => (agent_id f =? agentId) && (consumer_id f =? c))
                (Db.agent_feedbacks db)
        else 0%Z
    | None => 0%Z
    end in
  let selfRatingPercentage :=
    if (0 <? total)%Z
    then inject_Z selfRatingCount / inject_Z total * 100
    else 0 in
  {| FraudStats.total := total;
     FraudStats.selfRatingCount := selfRatingCount;
     FraudStats.selfRatingPercentage := selfRatingPercentage |}.

Module RatingPatternStats.
Record t : Type := {
  total : Z;
  extremeRatings : Z;
  extremePercentage : Q
}.
End RatingPatternStats.

Definition getRatingPatternStats (agentId : string) (db : Db.t)
  : RatingPatternStats.t :=
  let total := count (fun f => agent_id f =? agentId) (Db.agent_feedbacks db) in
  let extremeRatings :=
    count (fun f => (agent_id f =? agentId)
                    && (Qeq_bool (rating f) 0 || Qeq_bool (rating f) 1))
          (Db.agent_feedbacks db) in
  let extremePercentage :=
    if (0 <? total)%Z
    then inject_Z extremeRatings / inject_Z total * 100
    else 0 in
  {| RatingPatternStats.total := total;
     RatingPatternStats.extremeRatings := extremeRatings;
     RatingPatternStats.extremePercentage := extremePercentage |}.

End FeedbackRepository.

(** ** repositories/fraud-detection.repository.ts *)

Module FraudDetectionRepository.
Import FraudDetection.

(** [INSERT INTO fraud_detection_log ... RETURNING *]. The references to
    [agents] and to [callers] are not checked: an entry for an agent or a
    consumer without a row, which PostgreSQL refuses, is written here. The
    routes submit feedback for the caller of a token, whose row
    [getOrCreateToken] has inserted. *)
Definition create (now : Z) (agentId : string) (consumerId : option string)
    (fraudType : FraudType) (sev : FraudSeverity)
    (det : list (string * string)) : M FraudDetection.t :=
  fun db =>
    let row := {| agent_id := agentId;
                  consumer_id :=
                    match consumerId with
                    | Some c => if JS.truthy c then Some c else None
                    | None => None
                    end;
                  fraud_type := fraudType; severity := sev;
                  details := det; detected_at := now |} in
    (Db.with_fraud_detection_log (Db.fraud_detection_log db ++ [row]) db,
     Ok row).

Definition getTotalFraudCount (agentId : string) (db : Db.t) : Z :=
  count (fun r => agent_id r =? agentId) (Db.fraud_detection_log db).

End FraudDetectionRepository.

(** ** services/fraud-detection.service.ts *)

Module FraudDetectionService.

Module Analysis.
Record t : Type := {
  totalWeight : Q;
  fraudDetected : bool;
  shouldBlock : bool
}.
End Analysis.

Section Service.
(** [Math.log], as a rational approximation of the natural logarithm. *)
Variable Math_log : Q -> Q.
Variable env : Env.t.
Variable now : Z.

(** Detects if feedback is self-rating (provider rating their own agent). *)
Definition detectSelfRating (consumerId agentId : string) : M (bool * Q) :=
  (if negb (Env.isProductionMode env) then ret (false, 1.0)
   else
     agent <- query (AgentRepository.findById agentId) ;;
     match agent with
     | None => ret (false, 1.0)
     | Some agent =>
         match Agent.caller_id agent with
         | None => ret (false, 1.0)
         | Some callerId =>
             if negb (JS.truthy callerId) then ret (false, 1.0)
             else if consumerId =? callerId then
               FraudDetectionRepository.create now agentId (Some consumerId)
                 SELF_RATING HIGH
                 [("message", "Provider rating their own agent");
                  ("consumer_id", consumerId);
                  ("agent_caller_id", callerId)] ;;;
               ret (true, 0.1)
             else ret (false, 1.0)
         end
     end)%db.

(** Detects feedback spam (> 10 feedbacks/hour from same consumer to same
    agent). *)
Definition detectSpam (consumerId agentId : string) : M bool :=
  (if negb (Env.isProductionMode env) then ret false
   else
     recentCount <-
       query (FeedbackRepository.countRecentByConsumerAndAgent
                now consumerId agentId 1) ;;
     if (10 <? recentCount)%Z then
       FraudDetectionRepository.create now agentId (Some consumerId)
         SPAM HIGH
         [("message", "Feedback spam detected");
          ("feedbacks_last_hour", JS.digits recentCount)] ;;;
       ret true
     else ret false)%db.

(** Detects suspicious rating patterns (> 80% extreme ratings). *)
Definition detectRatingPatterns (agentId : string) : M bool :=
  (if negb (Env.isProductionMode env) then ret false
   else
     stats <- query (FeedbackRepository.getRatingPatternStats agentId) ;;
     let total := FeedbackRepository.RatingPatternStats.total stats in
     let extremeRatings :=
       FeedbackRepository.RatingPatternStats.extremeRatings stats in
     let extremePercentage :=
       FeedbackRepository.RatingPatternStats.extremePercentage stats in
     if (10 <=? total)%Z && JS.Qltb 80 extremePercentage then
       FraudDetectionRepository.create now agentId None
         RATING_PATTERN MEDIUM
         [("message", "Suspicious pattern of extreme ratings");
          ("total", JS.digits total);
          ("extreme_ratings", JS.digits extremeRatings);
          ("extreme_percentage", JS.toFixed extremePercentage 2)] ;;;
       ret true
     else ret false)%db.

(** Feedback weight from the previous feedbacks of the same consumer:
    [weight = 1.0 / (1 + log(1 + count))], at least 0.1. *)
Definition calculateFeedbackWeight (consumerId agentId : string) : M Q :=
  (if negb (Env.isProductionMode env) then ret 1.0
   else
     count <-
       query (FeedbackRepository.countByConsumerAndAgent consumerId agentId) ;;
     if (count =? 0)%Z then ret 1.0
     else
       let weight := 1.0 / (1 + Math_log (1 + inject_Z count)) in
       ret (JS.Math_max 0.1 weight))%db.

(** Complete fraud analysis for feedback. *)
Definition analyzeFeedback (consumerId agentId : string) : M Analysis.t :=
  (if negb (Env.isProductionMode env) then
     ret {| Analysis.totalWeight := 1.0;
            Analysis.fraudDetected := false;
            Analysis.shouldBlock := false |}
   else
     selfRating <- detectSelfRating consumerId agentId ;;
     spam <- detectSpam consumerId agentId ;;
     if spam : bool then
       ret {| Analysis.totalWeight := 0;
              Analysis.fraudDetected := true;
              Analysis.shouldBlock := true |}
     else
       decreasingWeight <- calculateFeedbackWeight consumerId agentId ;;
       let totalWeight := snd selfRating * decreasingWeight in
       detectRatingPatterns agentId ;;;
       ret {| Analysis.totalWeight := totalWeight;
              Analysis.fraudDetected := fst selfRating;
              Analysis.shouldBlock := false |})%db.

(** Calculates fraud percentage for an agent. *)
Definition calculateFraudPercentage (agentId : string) (db : Db.t) : Q :=
  if negb (Env.isProductionMode env) then 0
  else
    let fraudStats := FeedbackRepository.getFraudStats agentId db in
    let totalFraudCount :=
      FraudDetectionRepository.getTotalFraudCount agentId db in
    if (FeedbackRepository.FraudStats.total fraudStats =? 0)%Z then 0
    else
      let fraudPercentage :=
        inject_Z totalFraudCount
        / inject_Z (FeedbackRepository.FraudStats.total fraudStats) * 100 in
      JS.Math_min 100 fraudPercentage.

End Service.
End FraudDetectionService.

(** ** services/feedback.service.ts *)

Module FeedbackService.
Import FeedbackRequest.

Definition spam_message : string := "Feedback blocked: spam detected".
Definition rate_limit_message : string :=
  "Feedback rate limit exceeded: max 60 per minute".

Definition quoted_field (field : string) : string :=
  "Field " ++ JS.dquote ++ field ++ JS.dquote.

Definition validateRequest (request : FeedbackRequest.t) : M unit :=
  if negb (JS.truthy (agent_id request))
     || (JS.trim (agent_id request) =? "")
  then throw (quoted_field "agent_id" ++ " is required")
  else if JS.Qltb (latency_ms request) 0
  then throw (quoted_field "latency_ms" ++ " must be a non-negative number")
  else if JS.Qltb (rating request) 0 || JS.Qltb 1 (rating request)
  then throw (quoted_field "rating" ++ " must be a number between 0 and 1")
  else ret tt.

Section Service.
Variable Math_log : Q -> Q.
Variable env : Env.t.
Variable now : Z.

Definition submitFeedback (request : FeedbackRequest.t) : M bool :=
  (validateRequest request ;;;
   (* Rate limit: max 60 feedbacks per minute per consumer *)
   recentCount <-
     query (FeedbackRepository.countRecentByConsumer
              now (consumer_id request) 1) ;;
   if (60 <=? recentCount)%Z then throw rate_limit_message
   else
     agent <- query (AgentRepository.findById (agent_id request)) ;;
     match agent with
     | None =>
         throw ("Agent with id " ++ JS.dquote ++ agent_id request
                ++ JS.dquote ++ " not found")
     | Some _ =>
         fraudAnalysis <-
           FraudDetectionService.analyzeFeedback Math_log env now
             (consumer_id request) (agent_id request) ;;
         if FraudDetectionService.Analysis.shouldBlock fraudAnalysis
         then throw spam_message
         else
           FeedbackRepository.create now (agent_id request)
             (consumer_id request) (success request)
             (latency_ms request) (rating request) ;;;
           StatsRepository.incrementFeedbackWeighted now
             (agent_id request) (success request) (latency_ms request)
             (rating request)
             (FraudDetectionService.Analysis.totalWeight fraudAnalysis) ;;;
           ret true
     end)%db.

End Service.


(** [calls_total] of an agent, 0 without a statistics row. *)
Definition calls_total_of (agentId : string) (db : Db.t) : Z :=
  match StatsRepository.findByAgentId agentId db with
  | Some stats => AgentStats.calls_total stats
  | None => 0%Z
  end.

(** Two states of the database that differ at most in the fraud log. *)
Definition same_but_frauds (db db' : Db.t) : Prop :=
  Db.agents db' = Db.agents db
  /\ Db.agent_stats db' = Db.agent_stats db
  /\ Db.agent_feedbacks db' = Db.agent_feedbacks db
  /\ Db.callers db' = Db.callers db.


End FeedbackService.

(** ** services/quarantine.service.ts *)

Module QuarantineService.

Module Counts.
Record t : Type := {
  quarantined : Z;
  reactivated : Z;
  banned : Z
}.
End Counts.

Definition status_or_active (s : option AgentStatus) : AgentStatus :=
  match s with
  | Some st => st
  | None => active
  end.

(** The weighted sum behind [health_score]. *)
Definition healthScore (successRate avgRating avgLatency fraudPercentage : Q)
  : Q :=
  successRate * 0.4
  + avgRating * 0.3
  + (1 - JS.Math_min (avgLatency / 10000) 1) * 0.1
  + (1 - fraudPercentage / 100) * 0.2.

(** One [if] of the threshold ladder: push a warning and set the risk. *)
Definition flag (cond : bool) (warning : string) (risk : QuarantineRisk)
    (acc : list string * QuarantineRisk) : list string * QuarantineRisk :=
  if cond then ((fst acc ++ [warning])%list, risk) else acc.

Definition successRateOf (zero : Q) (stats : AgentStats.t) : Q :=
  if (0 <? AgentStats.calls_total stats)%Z
  then inject_Z (AgentStats.calls_success stats)
       / inject_Z (AgentStats.calls_total stats)
  else zero.

Section Service.
Variable env : Env.t.

(** Checks agent health and returns metrics. *)
Definition checkAgentHealth (agentId : string) (db : Db.t)
  : option AgentHealthMetrics.t :=
  match AgentRepository.findById agentId db with
  | None => None
  | Some agent =>
      match StatsRepository.findByAgentId agentId db with
      | None =>
          Some {| AgentHealthMetrics.agent_id := agentId;
                  AgentHealthMetrics.status :=
                    status_or_active (Agent.status agent);
                  AgentHealthMetrics.health_score := 1.0;
                  AgentHealthMetrics.metrics :=
                    {| Metrics.success_rate := 0;
                       Metrics.avg_rating := 0;
                       Metrics.avg_latency_ms := 0;
                       Metrics.total_feedbacks := 0%Z;
                       Metrics.fraud_detected := 0;
                       Metrics.fraud_percentage := 0;
                       Metrics.self_rating_percentage := 0 |};
                  AgentHealthMetrics.warnings := [];
                  AgentHealthMetrics.quarantine_risk := risk_low;
                  AgentHealthMetrics.quarantine_reason := None;
                  AgentHealthMetrics.quarantine_at := None |}
      | Some stats =>
          let calls_total := AgentStats.calls_total stats in
          let successRate := successRateOf 0 stats in
          let avgRating := JS.or_default (AgentStats.avg_rating stats) 0 in
          let avgLatency :=
            JS.or_default (AgentStats.avg_latency_ms stats) 0 in
          let fraudPercentage :=
            FraudDetectionService.calculateFraudPercentage env agentId db in
          let fraudStats := FeedbackRepository.getFraudStats agentId db in
          let selfRatingPercentage :=
            FeedbackRepository.FraudStats.selfRatingPercentage fraudStats in
          let total := FeedbackRepository.FraudStats.total fraudStats in
          let healthScore :=
            healthScore successRate avgRating avgLatency fraudPercentage in
          let '(warnings, quarantineRisk) :=
            flag (JS.Qltb 80 selfRatingPercentage)
              ("CRITICAL: Excessive self-rating: "
                 ++ JS.toFixed selfRatingPercentage 1 ++ "%")
              risk_critical
            (flag (JS.Qltb 70 fraudPercentage)
              ("CRITICAL: Excessive fraud: "
                 ++ JS.toFixed fraudPercentage 1 ++ "%")
              risk_critical
            (flag ((30 <=? calls_total)%Z && JS.Qltb avgRating 0.15)
              ("CRITICAL: Very low rating: " ++ JS.toFixed avgRating 2)
              risk_critical
            (flag ((40 <=? calls_total)%Z && JS.Qltb successRate 0.20)
              ("CRITICAL: Very low success rate: "
                 ++ JS.toFixed (successRate * 100) 1 ++ "%")
              risk_critical
            (flag (JS.Qltb 50 fraudPercentage)
              ("Fraud detected: " ++ JS.toFixed fraudPercentage 1 ++ "%")
              risk_high
            (flag ((10 <=? calls_total)%Z && JS.Qltb 30000 avgLatency)
              ("High latency: " ++ JS.toFixed avgLatency 0 ++ "ms")
              risk_high
            (flag ((15 <=? calls_total)%Z && JS.Qltb avgRating 0.3)
              ("Low average rating: " ++ JS.toFixed avgRating 2)
              risk_high
            (flag ((20 <=? calls_total)%Z && JS.Qltb successRate 0.40)
              ("Low success rate: "
                 ++ JS.toFixed (successRate * 100) 1 ++ "%")
              risk_high
            ([], risk_low)))))))) in
          Some {| AgentHealthMetrics.agent_id := agentId;
                  AgentHealthMetrics.status :=
                    status_or_active (Agent.status agent);
                  AgentHealthMetrics.health_score :=
                    JS.Math_round (healthScore * 100) / 100;
                  AgentHealthMetrics.metrics :=
                    {| Metrics.success_rate :=
                         JS.Math_round (successRate * 100) / 100;
                       Metrics.avg_rating :=
                         JS.Math_round (avgRating * 100) / 100;
                       Metrics.avg_latency_ms := JS.Math_round avgLatency;
                       Metrics.total_feedbacks := calls_total;
                       Metrics.fraud_detected :=
                         if (0 <? total)%Z
                         then JS.Math_round
                                (inject_Z total * fraudPercentage / 100)
                         else 0;
                       Metrics.fraud_percentage :=
                         JS.Math_round (fraudPercentage * 10) / 10;
                       Metrics.self_rating_percentage :=
                         JS.Math_round (selfRatingPercentage * 10) / 10 |};
                  AgentHealthMetrics.warnings := warnings;
                  AgentHealthMetrics.quarantine_risk := quarantineRisk;
                  AgentHealthMetrics.quarantine_reason :=
                    Agent.quarantine_reason agent;
                  AgentHealthMetrics.quarantine_at :=
                    Agent.quarantine_at agent |}
      end
  end.

(** Moves agent to quarantine (Threshold 1). *)
Definition quarantineAgent (now : Z) (agentId reason : string) (db : Db.t)
  : Db.t :=
  if negb (Env.isProductionMode env) then db
  else AgentRepository.update_where_id now agentId
         (Agent.set_status quarantine (Some reason) (Some now)) db.

(** Reactivates agent (removes from quarantine). *)
Definition reactivateAgent (now : Z) (agentId : string) (db : Db.t) : Db.t :=
  if negb (Env.isProductionMode env) then db
  else AgentRepository.update_where_id now agentId
         (fun a => Agent.set_status active None (Agent.quarantine_at a) a)
         db.

(** Permanently bans agent (Threshold 2). *)
Definition banAgent (now : Z) (agentId reason : string) (db : Db.t) : Db.t :=
  if negb (Env.isProductionMode env) then db
  else AgentRepository.update_where_id now agentId
         (Agent.set_status banned (Some reason) (Some now)) db.

Definition count_quarantined (c : Counts.t) : Counts.t :=
  {| Counts.quarantined := (Counts.quarantined c + 1)%Z;
     Counts.reactivated := Counts.reactivated c;
     Counts.banned := Counts.banned c |}.

Definition count_reactivated (c : Counts.t) : Counts.t :=
  {| Counts.quarantined := Counts.quarantined c;
     Counts.reactivated := (Counts.reactivated c + 1)%Z;
     Counts.banned := Counts.banned c |}.

Definition count_banned (c : Counts.t) : Counts.t :=
  {| Counts.quarantined := Counts.quarantined c;
     Counts.reactivated := Counts.reactivated c;
     Counts.banned := (Counts.banned c + 1)%Z |}.

(** The body of the loop of [autoReviewAgents] for one agent of the
    list fetched before the loop. *)
Definition reviewAgent (now : Z) (st : Db.t * Counts.t) (agent : Agent.t)
  : Db.t * Counts.t :=
  let (db, counts) := st in
  match checkAgentHealth (Agent.id agent) db with
  | None => st
  | Some health =>
      let fraud_percentage :=
        Metrics.fraud_percentage (AgentHealthMetrics.metrics health) in
      let self_rating_percentage :=
        Metrics.self_rating_percentage (AgentHealthMetrics.metrics health) in
      match status_or_active (Agent.status agent) with
      | active =>
          match AgentHealthMetrics.quarantine_risk health with
          | risk_high | risk_critical =>
              match StatsRepository.findByAgentId (Agent.id agent) db with
              | None => st
              | Some stats =>
                  let calls_total := AgentStats.calls_total stats in
                  let successRate := successRateOf 1 stats in
                  let avgRating :=
                    JS.or_default (AgentStats.avg_rating stats) 1 in
                  let avgLatency :=
                    JS.or_default (AgentStats.avg_latency_ms stats) 0 in
                  if (20 <=? calls_total)%Z && JS.Qltb successRate 0.40 then
                    (quarantineAgent now (Agent.id agent)
                       ("Success rate < 40%: "
                          ++ JS.toFixed (successRate * 100) 1 ++ "%") db,
                     count_quarantined counts)
                  else if (15 <=? calls_total)%Z && JS.Qltb avgRating 0.3 then
                    (quarantineAgent now (Agent.id agent)
                       ("Average rating < 0.3: " ++ JS.toFixed avgRating 2)
                       db,
                     count_quarantined counts)
                  else if (10 <=? calls_total)%Z && JS.Qltb 30000 avgLatency
                  then
                    (quarantineAgent now (Agent.id agent)
                       ("Latency > 30s: " ++ JS.toFixed avgLatency 0 ++ "ms")
                       db,
                     count_quarantined counts)
                  else if JS.Qltb 50 fraud_percentage then
                    (quarantineAgent now (Agent.id agent)
                       ("Fraud > 50%: "
                          ++ JS.toFixed fraud_percentage 1 ++ "%") db,
                     count_quarantined counts)
                  else st
              end
          | _ => st
          end
      | quarantine =>
          match StatsRepository.findByAgentId (Agent.id agent) db with
          | None => st
          | Some stats =>
              let calls_total := AgentStats.calls_total stats in
              let successRate := successRateOf 0 stats in
              let avgRating :=
                JS.or_default (AgentStats.avg_rating stats) 0 in
              if ((40 <=? calls_total)%Z && JS.Qltb successRate 0.20)
                 || ((30 <=? calls_total)%Z && JS.Qltb avgRating 0.15)
                 || JS.Qltb 70 fraud_percentage
                 || JS.Qltb 80 self_rating_percentage
              then
                let reason :=
                  "Threshold 2 reached: "
                  ++ (if (40 <=? calls_total)%Z && JS.Qltb successRate 0.20
                      then "Success rate < 20%: "
                           ++ JS.toFixed (successRate * 100) 1 ++ "%"
                      else if (30 <=? calls_total)%Z
                              && JS.Qltb avgRating 0.15
                      then "Rating < 0.15: " ++ JS.toFixed avgRating 2
                      else if JS.Qltb 70 fraud_percentage
                      then "Fraud > 70%: "
                           ++ JS.toFixed fraud_percentage 1 ++ "%"
                      else if JS.Qltb 80 self_rating_percentage
                      then "Self-rating > 80%: "
                           ++ JS.toFixed self_rating_percentage 1 ++ "%"
                      else EmptyString) in
                (banAgent now (Agent.id agent) reason db,
                 count_banned counts)
              else if Qle_bool 0.45 successRate && Qle_bool 0.35 avgRating
                      && JS.Qltb fraud_percentage 40
              then (reactivateAgent now (Agent.id agent) db,
                    count_reactivated counts)
              else st
          end
      | banned => st
      end
  end.

(** Auto-review all agents (runs daily via cron), when [findAll] returns
    the rows in the order [fetched]. *)
Definition autoReviewAgents_of (fetched : list Agent.t) (now : Z) (db : Db.t)
  : Db.t * Counts.t :=
  let zero := {| Counts.quarantined := 0%Z; Counts.reactivated := 0%Z;
                 Counts.banned := 0%Z |} in
  if negb (Env.isProductionMode env) then (db, zero)
  else fold_left (reviewAgent now) fetched (db, zero).

Definition autoReviewAgents (now : Z) (db : Db.t) : Db.t * Counts.t :=
  autoReviewAgents_of (AgentRepository.findAll db) now db.

End Service.

(** *** The thresholds of the review, as the loop body tests them *)

(** Threshold 1 (active -> quarantine). *)
Definition threshold1 (stats : AgentStats.t) (fraud_percentage : Q) : bool :=
  ((20 <=? AgentStats.calls_total stats)%Z
   && JS.Qltb (successRateOf 1 stats) 0.40)
  || ((15 <=? AgentStats.calls_total stats)%Z
      && JS.Qltb (JS.or_default (AgentStats.avg_rating stats) 1) 0.3)
  || ((10 <=? AgentStats.calls_total stats)%Z
      && JS.Qltb 30000 (JS.or_default (AgentStats.avg_latency_ms stats) 0))
  || JS.Qltb 50 fraud_percentage.

(** Threshold 2 (quarantine -> banned). *)
Definition threshold2 (stats : AgentStats.t)
    (fraud_percentage self_rating_percentage : Q) : bool :=
  ((40 <=? AgentStats.calls_total stats)%Z
   && JS.Qltb (successRateOf 0 stats) 0.20)
  || ((30 <=? AgentStats.calls_total stats)%Z
      && JS.Qltb (JS.or_default (AgentStats.avg_rating stats) 0) 0.15)
  || JS.Qltb 70 fraud_percentage
  || JS.Qltb 80 self_rating_percentage.

(** Reactivation (quarantine -> active). *)
Definition reactivation (stats : AgentStats.t) (fraud_percentage : Q) : bool :=
  Qle_bool 0.45 (successRateOf 0 stats)
  && Qle_bool 0.35 (JS.or_default (AgentStats.avg_rating stats) 0)
  && JS.Qltb fraud_percentage 40.

Definition at_risk (r : QuarantineRisk) : bool :=
  match r with
  | risk_high | risk_critical => true
  | _ => false
  end.

Inductive Verdict : Type := Keep | ToQuarantine | ToActive | ToBanned.

(** What one review does to an agent in status [current], from its health
    report and its statistics. *)
Definition verdict (env : Env.t) (agentId : string) (current : AgentStatus)
    (db : Db.t) : Verdict :=
  match checkAgentHealth env agentId db,
        StatsRepository.findByAgentId agentId db with
  | Some health, Some stats =>
      let fp := Metrics.fraud_percentage (AgentHealthMetrics.metrics health) in
      let srp :=
        Metrics.self_rating_percentage (AgentHealthMetrics.metrics health) in
      match current with
      | active =>
          if at_risk (AgentHealthMetrics.quarantine_risk health)
             && threshold1 stats fp
          then ToQuarantine else Keep
      | quarantine =>
          if threshold2 stats fp srp then ToBanned
          else if reactivation stats fp then ToActive
          else Keep
      | banned => Keep
      end
  | _, _ => Keep
  end.

Definition status_after (v : Verdict) (current : AgentStatus) : AgentStatus :=
  match v with
  | Keep => current
  | ToQuarantine => quarantine
  | ToActive => active
  | ToBanned => banned
  end.

(** Two states of the database that differ at most in the columns of the
    agents that a review writes (status, quarantine_reason, quarantine_at
    and, through the trigger, updated_at). *)
Definition same_owner (a a' : Agent.t) : Prop :=
  Agent.id a' = Agent.id a /\ Agent.caller_id a' = Agent.caller_id a.

Definition same_but_status (db db' : Db.t) : Prop :=
  Db.agent_stats db' = Db.agent_stats db
  /\ Db.agent_feedbacks db' = Db.agent_feedbacks db
  /\ Db.fraud_detection_log db' = Db.fraud_detection_log db
  /\ Db.callers db' = Db.callers db
  /\ Forall2 same_owner (Db.agents db) (Db.agents db').

(** The row [a'] is the row [a] after one review over [db]. *)
Definition reviewed (env : Env.t) (db : Db.t) (a a' : Agent.t) : Prop :=
  same_owner a a'
  /\ status_or_active (Agent.status a')
     = status_after
         (verdict env (Agent.id a) (status_or_active (Agent.status a)) db)
         (status_or_active (Agent.status a)).

(** The row [a'] is the row [a] as one review over [db] at the time [now]
    leaves it: the row itself when the verdict keeps it, and otherwise the
    row with the status of the verdict, its reason and its date, stamped by
    the trigger. *)
Definition rewritten (env : Env.t) (now : Z) (db : Db.t) (a a' : Agent.t)
  : Prop :=
  match verdict env (Agent.id a) (status_or_active (Agent.status a)) db with
  | Keep => a' = a
  | ToQuarantine =>
      exists reason,
        a' = Agent.set_updated_at now
               (Agent.set_status quarantine (Some reason) (Some now) a)
  | ToActive =>
      a' = Agent.set_updated_at now
             (Agent.set_status active None (Agent.quarantine_at a) a)
  | ToBanned =>
      exists reason,
        a' = Agent.set_updated_at now
               (Agent.set_status banned (Some reason) (Some now) a)
  end.

Definition zero_counts : Counts.t :=
  {| Counts.quarantined := 0%Z; Counts.reactivated := 0%Z;
     Counts.banned := 0%Z |}.

End QuarantineService.

(** ** services/search.service.ts *)

Module SearchService.

Definition intent_truthy (i : option Intent) : bool :=
  match i with
  | None => false
  | Some (IntentString s) => JS.truthy s
  | Some (IntentArray _) => true
  end.

Definition is_dot (c : ascii) : bool := Ascii.eqb c ".".
Definition is_comma_or_slash (c : ascii) : bool :=
  Ascii.eqb c "," || Ascii.eqb c "/".

(** The complement of the class [^a-zA-Z0-9\u00C0-\u017F]. *)
Definition is_word_char (c : ascii) : bool :=
  JS.between 97 122 c || JS.between 65 90 c || JS.between 48 57 c
  || JS.between 192 255 c.

(** The class [[.\s_-]]. *)
Definition is_intent_separator (c : ascii) : bool :=
  Ascii.eqb c "." || JS.isSpace c || Ascii.eqb c "_" || Ascii.eqb c "-".

Definition tokenize (text : string) : list string :=
  JS.Set_of
    (filter (fun t => (3 <=? String.length t)%nat)
       (JS.split_runs (fun c => negb (is_word_char c)) (JS.toLowerCase text))).

Definition calculateDescriptionScore (agent : Agent.t)
    (requestDescription : option string) : Q :=
  match requestDescription with
  | None => 0.5
  | Some d =>
      if negb (JS.truthy d) || (JS.trim d =? EmptyString) then 0.5
      else
        let tokens := tokenize d in
        if (List.length tokens =? 0)%nat then 0.0
        else
          let agentTokens :=
            JS.Set_of
              (tokenize (Agent.description agent)
                 ++ flat_map tokenize (Agent.tags agent)
                 ++ flat_map tokenize (Agent.categories agent))%list in
          let overlap :=
            List.length (filter (fun t => JS.has t agentTokens) tokens) in
          if (overlap =? 0)%nat then 0.0
          else
            let norm := JS.Math_min (JS.size tokens) 10 in
            JS.Math_min 1 (inject_Z (Z.of_nat overlap) / norm)
  end.

Definition same_part (i : nat) (a b : list string) : bool :=
  match nth_error a i, nth_error b i with
  | Some x, Some y => x =? y
  | None, None => true
  | _, _ => false
  end.

Definition calculateHierarchicalScore (agentIntents : list string)
    (searchIntent : string) : Q :=
  (* Exact match = 1.0 *)
  if JS.has searchIntent agentIntents then 1.0
  else
    let searchParts := JS.split is_dot searchIntent in
    fold_left
      (fun bestScore agentIntent =>
         let agentParts := JS.split is_dot agentIntent in
         (* the same parent (first 2 parts) *)
         let bestScore :=
           if same_part 0 searchParts agentParts
              && same_part 1 searchParts agentParts
           then JS.Math_max bestScore 0.6 else bestScore in
         (* the same category (first part) *)
         if same_part 0 searchParts agentParts
         then JS.Math_max bestScore 0.3 else bestScore)
      agentIntents 0.0.

Fixpoint windows3 (s : string) : list string :=
  match s with
  | String a ((String b (String c _)) as rest) =>
      String a (String b (String c EmptyString)) :: windows3 rest
  | _ => []
  end.

Definition getTrigrams (str : string) : list string :=
  JS.Set_of (windows3 ("  " ++ str ++ " ")).

Definition trigramSimilarity (set1 set2 : list string) : Q :=
  let intersection := filter (fun x => JS.has x set2) set1 in
  let union := JS.Set_of (set1 ++ set2)%list in
  if (0 <? List.length union)%nat
  then JS.size intersection / JS.size union else 0.0.

Definition intent_tokens (s : string) : list string :=
  filter (fun t => (2 <? String.length t)%nat)
    (JS.split_runs is_intent_separator (JS.toLowerCase s)).

Definition calculateStringSimilarity (str1 str2 : string) : Q :=
  let tokens1 := intent_tokens str1 in
  let tokens2 := intent_tokens str2 in
  if (List.length tokens1 =? 0)%nat || (List.length tokens2 =? 0)%nat then 0.0
  else
    (* Jaccard similarity between tokens *)
    let set1 := JS.Set_of tokens1 in
    let set2 := JS.Set_of tokens2 in
    let intersection := filter (fun x => JS.has x set2) set1 in
    let union := JS.Set_of (set1 ++ set2)%list in
    let jaccardScore :=
      if (0 <? List.length union)%nat
      then JS.size intersection / JS.size union else 0 in
    (* Bonus for trigram similarity across tokens *)
    let trigramBonus :=
      fold_left
        (fun bonus t1 =>
           fold_left
             (fun bonus t2 =>
                if negb (t1 =? t2) then
                  JS.Math_max bonus
                    (trigramSimilarity (getTrigrams t1) (getTrigrams t2) * 0.3)
                else bonus)
             tokens2 bonus)
        tokens1 0.0 in
    JS.Math_min (jaccardScore + trigramBonus) 1.0.

Definition calculateTrigramScore (agentIntents : list string)
    (searchIntent : string) : Q :=
  if negb (JS.truthy searchIntent) || (List.length agentIntents =? 0)%nat
  then 0.0
  else
    let maxSimilarity :=
      fold_left
        (fun m agentIntent =>
           JS.Math_max m (calculateStringSimilarity searchIntent agentIntent))
        agentIntents 0.0 in
    JS.Math_min maxSimilarity 1.0.

Definition calculateIntentScore (agentIntents : list string)
    (searchIntent : option Intent) : Q :=
  if negb (intent_truthy searchIntent) then 0.5
  else
    let searchIntents :=
      match searchIntent with
      | Some (IntentArray l) => l
      | Some (IntentString s) => [s]
      | None => []
      end in
    fold_left
      (fun bestScore singleIntent =>
         let hierarchicalScore :=
           calculateHierarchicalScore agentIntents singleIntent in
         let trigramScore := calculateTrigramScore agentIntents singleIntent in
         let intentScore :=
           JS.Math_max hierarchicalScore (trigramScore * 0.85) in
         JS.Math_max bestScore intentScore)
      searchIntents 0.0.

Definition location_parts (location : string) : list string :=
  filter JS.truthy
    (map (fun p => JS.toLowerCase (JS.trim p))
         (JS.split is_comma_or_slash location)).

Definition calculateGeoScore (agentLocation : string)
    (searchLocation : option string) : Q :=
  if negb (JS.truthy_opt searchLocation) || negb (JS.truthy agentLocation)
  then (if agentLocation =? "Global" then 0.3 else 0.5)
  else if agentLocation =? "Global" then 0.3
  else
    let searchVariants :=
      match searchLocation with
      | Some l => location_parts l
      | None => []
      end in
    let agentParts := location_parts agentLocation in
    match agentParts, searchVariants with
    | [], _ | _, [] => 0.2
    | agentCity :: _, _ :: _ =>
        let agentState := nth_error agentParts 1 in
        let agentCountry := last agentParts agentCity in
        fold_left
          (fun best variant =>
             if variant =? agentCity then JS.Math_max best 1.0
             else if match agentState with
                     | Some st =>
                         JS.truthy st
                         && ((variant =? st) || JS.includes st variant
                             || JS.includes variant st)
                     | None => false
                     end
             then JS.Math_max best 0.6
             else if (variant =? agentCountry)
                     || JS.includes agentCountry variant
                     || JS.includes variant agentCountry
             then JS.Math_max best 0.3
             else best)
          searchVariants 0.2
    end.

Definition calculateListSimilarity (agentList searchList : list string) : Q :=
  match searchList, agentList with
  | [], _ => 1.0
  | _, [] => 0.0
  | _, _ =>
      let agentTokens := flat_map tokenize agentList in
      let searchTokens := flat_map tokenize searchList in
      if (List.length searchTokens =? 0)%nat then 0.5
      else
        let matches :=
          List.length
            (filter
               (fun searchToken =>
                  existsb
                    (fun agentToken =>
                       (agentToken =? searchToken)
                       || JS.includes agentToken searchToken
                       || JS.includes searchToken agentToken)
                    agentTokens)
               searchTokens) in
        inject_Z (Z.of_nat matches) / JS.size searchTokens
  end.

Definition calculateCategoryScore (agentCategories searchCategories : list string)
  : Q := calculateListSimilarity agentCategories searchCategories.

Definition calculateTagScore (agentTags searchTags : list string) : Q :=
  calculateListSimilarity agentTags searchTags.

Definition calculateLatencyScore (avgLatencyMs : Q) : Q :=
  if Qle_bool avgLatencyMs 500 then 1.0
  else if Qle_bool avgLatencyMs 1500 then 0.7
  else if Qle_bool avgLatencyMs 3000 then 0.4
  else 0.2.

Definition validateRequest (request : SearchAgentRequest.t) : result unit :=
  match SearchAgentRequest.categories request with
  | [] => Err ("Field " ++ JS.dquote ++ "categories" ++ JS.dquote
                 ++ " must contain at least one category")
  | _ => Ok tt
  end.

(** A location given as the text "null", "undefined", "none" or "n/a" is
    no location. *)
Definition normalizeLocation (location : option string) : option string :=
  match location with
  | None => None
  | Some l =>
      if negb (JS.truthy l) then None
      else
        let lower := JS.toLowerCase l in
        if (lower =? "null") || (lower =? "undefined") || (lower =? "none")
           || (lower =? "n/a")
        then None
        else Some l
  end.

Definition or_limit (limit : option Z) (d : Z) : Z :=
  match limit with
  | Some l => if (l =? 0)%Z then d else l
  | None => d
  end.

Section Service.
Variable similarity : string -> string -> Q.
Variable env : Env.t.

Definition calculateScore (db : Db.t) (agent : AgentWithScore.t)
    (request : SearchAgentRequest.t) : AgentWithScore.t :=
  let a := AgentWithScore.agent agent in
  let intentScore :=
    calculateIntentScore (Agent.intents a) (SearchAgentRequest.intent request) in
  let descriptionScore :=
    calculateDescriptionScore a (SearchAgentRequest.description request) in
  let geoScore :=
    calculateGeoScore (Agent.location_scope a)
      (SearchAgentRequest.location request) in
  let categoryScore :=
    calculateCategoryScore (Agent.categories a)
      (SearchAgentRequest.categories request) in
  let tagScore :=
    calculateTagScore (Agent.tags a)
      (match SearchAgentRequest.tags request with
       | Some t => t
       | None => []
       end) in
  let '(successRate, ratingScore, latencyScore) :=
    match AgentWithScore.stats agent with
    | Some stats =>
        if (0 <? AgentStats.calls_total stats)%Z then
          (inject_Z (AgentStats.calls_success stats)
           / inject_Z (AgentStats.calls_total stats),
           AgentStats.avg_rating stats,
           calculateLatencyScore (AgentStats.avg_latency_ms stats))
        else (0, 0, 0)
    | None => (0, 0, 0)
    end in
  let fraudPercentage :=
    FraudDetectionService.calculateFraudPercentage env (Agent.id a) db in
  let fraudScore := 1.0 - fraudPercentage / 100 in
  let finalScore :=
    intentScore * 0.25
    + descriptionScore * 0.10
    + categoryScore * 0.10
    + geoScore * 0.20
    + successRate * 0.14
    + ratingScore * 0.09
    + tagScore * 0.07
    + latencyScore * 0.03
    + fraudScore * 0.04 in
  let finalScore :=
    match Agent.status a with
    | Some quarantine => JS.Math_max 0 (finalScore - 0.3)
    | _ => finalScore
    end in
  {| AgentWithScore.agent := a;
     AgentWithScore.stats := AgentWithScore.stats agent;
     AgentWithScore.score := finalScore |}.

(** The candidates: the three queries and the fuzzy one, each tried
    when the one before it found nothing. *)
Definition fetchAgents (request normalizedRequest : SearchAgentRequest.t)
    (db : Db.t) : result (list Agent.t) :=
  let agents :=
    AgentRepository.search
      (SearchAgentRequest.intent normalizedRequest)
      (Some (SearchAgentRequest.categories normalizedRequest))
      (SearchAgentRequest.language normalizedRequest) db in
  let agents :=
    match agents with
    | [] =>
        if intent_truthy (SearchAgentRequest.intent normalizedRequest)
        then AgentRepository.search
               (SearchAgentRequest.intent normalizedRequest) None
               (SearchAgentRequest.language normalizedRequest) db
        else agents
    | _ => agents
    end in
  let agents :=
    match agents with
    | [] =>
        if intent_truthy (SearchAgentRequest.intent request) then
          let intentForFuzzy :=
            match SearchAgentRequest.intent request with
            | Some (IntentArray l) => nth_error l 0
            | Some (IntentString s) => Some s
            | None => None
            end in
          AgentRepository.searchByIntentFuzzy similarity intentForFuzzy
            (or_limit (SearchAgentRequest.limit request) 50) db
        else Ok agents
    | _ => Ok agents
    end in
  match agents with
  | Ok [] => Ok (AgentRepository.findAll db)
  | other => other
  end.

Definition passes_filter (normalizedLocation : option string)
    (agent : AgentWithScore.t) : bool :=
  let hasMinScore := Qle_bool 0.4 (AgentWithScore.score agent) in
  let hasMinGeo :=
    negb (JS.truthy_opt normalizedLocation)
    || (Agent.location_scope (AgentWithScore.agent agent) =? "Global")
    || Qle_bool 0.3
         (calculateGeoScore
            (Agent.location_scope (AgentWithScore.agent agent))
            normalizedLocation) in
  hasMinScore && hasMinGeo.

Definition toResponse (agent : AgentWithScore.t) : SearchAgentResponse.t :=
  let a := AgentWithScore.agent agent in
  {| SearchAgentResponse.id := Agent.id a;
     SearchAgentResponse.name := Agent.name a;
     SearchAgentResponse.caller_id := Agent.caller_id a;
     SearchAgentResponse.endpoint := Agent.endpoint a;
     SearchAgentResponse.description := Agent.description a;
     SearchAgentResponse.tags := Agent.tags a;
     SearchAgentResponse.intents := Agent.intents a;
     SearchAgentResponse.tasks := Agent.tasks a;
     SearchAgentResponse.categories := Agent.categories a;
     SearchAgentResponse.location_scope := Agent.location_scope a;
     SearchAgentResponse.score :=
       JS.Math_round (AgentWithScore.score agent * 100) / 100;
     SearchAgentResponse.input_schema := Agent.input_schema a |}.

Definition search (request : SearchAgentRequest.t) (db : Db.t)
  : result (list SearchAgentResponse.t) :=
  let normalizedLocation :=
    normalizeLocation (SearchAgentRequest.location request) in
  let normalizedRequest :=
    SearchAgentRequest.with_location normalizedLocation request in
  match validateRequest normalizedRequest with
  | Err e => Err e
  | Ok _ =>
      match fetchAgents request normalizedRequest db with
      | Err e => Err e
      | Ok [] => Ok []
      | Ok agents =>
          let activeAgents :=
            filter
              (fun agent =>
                 match Agent.status agent with
                 | Some banned => false
                 | _ => true
                 end)
              agents in
          let agentsWithStats :=
            map (fun agent =>
                   {| AgentWithScore.agent := agent;
                      AgentWithScore.stats :=
                        StatsRepository.findByAgentId (Agent.id agent) db;
                      AgentWithScore.score := 0 |})
                activeAgents in
          let agentsWithScores :=
            map (fun agent => calculateScore db agent request)
                agentsWithStats in
          let filteredAgents :=
            filter (passes_filter normalizedLocation) agentsWithScores in
          match filteredAgents with
          | [] => Ok []
          | _ =>
              let limit :=
                Z.min (or_limit (SearchAgentRequest.limit request) 10) 10 in
              let topAgents :=
                JS.slice0 (sort_desc AgentWithScore.score filteredAgents)
                          limit in
              Ok (map toResponse topAgents)
          end
      end
  end.

End Service.
End SearchService.

(** ** services/register.service.ts *)

Module RegisterService.
Import RegisterAgentRequest.

Definition blank (s : string) : bool :=
  negb (JS.truthy s) || (JS.trim s =? EmptyString).

Definition validateRequest (request : RegisterAgentRequest.t) : M unit :=
  if blank (id request)
  then throw (FeedbackService.quoted_field "id" ++ " is required")
  else if blank (name request)
  then throw (FeedbackService.quoted_field "name" ++ " is required")
  else if blank (endpoint request)
  then throw (FeedbackService.quoted_field "endpoint" ++ " is required")
  else if blank (description request)
  then throw (FeedbackService.quoted_field "description" ++ " is required")
  else if (List.length (intents request) =? 0)%nat
  then throw (FeedbackService.quoted_field "intents"
                ++ " must contain at least one intent")
  else if (List.length (categories request) =? 0)%nat
  then throw (FeedbackService.quoted_field "categories"
                ++ " must contain at least one category")
  else if (List.length (languages request) =? 0)%nat
  then throw (FeedbackService.quoted_field "languages"
                ++ " must contain at least one language")
  else ret tt.

Section Service.
Variable env : Env.t.
(** Whether [new URL(endpoint)] returns; it throws otherwise. *)
Variable URL_parses : string -> bool.
Variable jsonb : string -> option string.

Definition validateEndpoint (endpoint : string) : M unit :=
  ((if Env.isProductionMode env then
      if negb (prefix "https://" endpoint) then
        throw ("Production mode requires HTTPS endpoint. "
                 ++ "Received: " ++ endpoint ++ ". "
                 ++ "Localhost endpoints are only allowed in development mode.")
      else ret tt
    else
      let isLocalhost :=
        prefix "http://localhost:" endpoint
        || prefix "http://127.0.0.1:" endpoint
        || prefix "https://localhost:" endpoint
        || prefix "https://127.0.0.1:" endpoint in
      let isHttps := prefix "https://" endpoint in
      let isHttpPublic := prefix "http://" endpoint && negb isLocalhost in
      if isHttpPublic then
        throw ("Development mode requires either localhost endpoint or HTTPS. "
                 ++ "HTTP is only allowed for localhost. "
                 ++ "Received: " ++ endpoint)
      else if negb isLocalhost && negb isHttps then
        throw ("Invalid endpoint. Must be localhost or HTTPS. "
                 ++ "Received: " ++ endpoint)
      else ret tt) ;;;
   if URL_parses endpoint then ret tt
   else throw ("Invalid endpoint URL format: " ++ endpoint))%db.

(** The agent built from the request: no location is Global, no tasks is
    the empty list, no meta is the empty object. *)
Definition agent_of (request : RegisterAgentRequest.t) : Agent.t :=
  {| Agent.id := id request;
     Agent.name := name request;
     Agent.endpoint := endpoint request;
     Agent.description := description request;
     Agent.intents := intents request;
     Agent.tasks := match tasks request with
                    | Some t => t
                    | None => []
                    end;
     Agent.tags := tags request;
     Agent.categories := categories request;
     Agent.location_scope :=
       if JS.truthy (location_scope request) then location_scope request
       else "Global";
     Agent.languages := languages request;
     Agent.version := version request;
     Agent.meta := match meta request with
                   | Some m => m
                   | None => "{}"
                   end;
     Agent.input_schema := input_schema request;
     Agent.caller_id := Some (caller_id request);
     Agent.status := None;
     Agent.quarantine_reason := None;
     Agent.quarantine_at := None;
     Agent.created_at := None;
     Agent.updated_at := None |}.

Definition register (now : Z) (request : RegisterAgentRequest.t) : M string :=
  (validateRequest request ;;;
   validateEndpoint (endpoint request) ;;;
   let agent := agent_of request in
   AgentRepository.upsert jsonb now agent ;;;
   existingStats <- query (StatsRepository.findByAgentId (Agent.id agent)) ;;
   match existingStats with
   | None =>
       StatsRepository.create
         {| AgentStats.agent_id := Agent.id agent;
            AgentStats.calls_total := 0;
            AgentStats.calls_success := 0;
            AgentStats.avg_latency_ms := 0;
            AgentStats.avg_rating := 0;
            AgentStats.last_feedback_at := None |} ;;;
       ret (Agent.id agent)
   | Some _ => ret (Agent.id agent)
   end)%db.

End Service.
End RegisterService.


(** ** services/auth.service.ts *)

Module AuthService.

Definition EXECUTION_KEY_EXPIRATION : Z := 300. (* 5 minutes *)

Module ExecutionKeyPayload.
Record t : Type := {
  consumer_caller_id : string;
  agent_id : string;
  key_id : string
}.
End ExecutionKeyPayload.

(** A token of [jwt.sign(payload, secret, { expiresIn })]: what was signed,
    with which secret, for how many seconds. *)
Module Jwt.
Record t : Type := {
  payload : ExecutionKeyPayload.t;
  secret : string;
  expiresIn : Z
}.
End Jwt.

Module ExecutionKey.
Record t : Type := {
  key : Jwt.t;
  expires_at : Z
}.
End ExecutionKey.

Section Service.
Variable env : Env.t.
(** [decryptSecret]: AES-256-CBC under the key derived from JWT_SECRET;
    [None] when it throws. *)
Variable decryptSecret : string -> option string.

(** Generate execution key for Consumer -> Provider communication.
    [now] is the reading of [Date.now()] and [keyId] the hexadecimal text
    of [crypto.randomBytes(16)]. *)
Definition generateExecutionKey (now : Z) (keyId : string)
    (consumerCallerId agentId : string) (executionSecret : option string)
  : ExecutionKey.t :=
  let expiresAt := (now + EXECUTION_KEY_EXPIRATION * 1000)%Z in
  let payload :=
    {| ExecutionKeyPayload.consumer_caller_id := consumerCallerId;
       ExecutionKeyPayload.agent_id := agentId;
       ExecutionKeyPayload.key_id := keyId |} in
  let secret :=
    match executionSecret with
    | Some s => if JS.truthy s then s else Env.JWT_SECRET env
    | None => Env.JWT_SECRET env
    end in
  {| ExecutionKey.key :=
       {| Jwt.payload := payload; Jwt.secret := secret;
          Jwt.expiresIn := EXECUTION_KEY_EXPIRATION |};
     ExecutionKey.expires_at := expiresAt |}.

Definition getProviderSecret (callerId : string) (db : Db.t)
  : option string :=
  match find (fun c => Caller.caller_id c =? callerId) (Db.callers db) with
  | None => None
  | Some row =>
      match Caller.type row, Caller.jwt_token row with
      | provider, Some token =>
          if JS.truthy token then decryptSecret token else None
      | _, _ => None
      end
  end.

End Service.
Module JWTPayload.
Record t : Type := {
  caller_id : string;
  type : CallerType;
  identifier : string
}.
End JWTPayload.

(** What the service reads of a Fastify request: five headers,
    [request.ip] and [request.socket?.remoteAddress]. *)
Module HttpRequest.
Record t : Type := {
  authorization : option string;
  x_client_id : option string;
  x_forwarded_for : option string;
  x_real_ip : option string;
  x_provider_secret : option string;
  ip : option string;
  remoteAddress : option string
}.
End HttpRequest.

Definition type_name (type : CallerType) : string :=
  match type with
  | consumer => "consumer"
  | provider => "provider"
  end.

Definition same_type (a b : CallerType) : bool :=
  match a, b with
  | consumer, consumer | provider, provider => true
  | _, _ => false
  end.

Definition is_bar (c : ascii) : bool := Ascii.eqb c "|".
Definition is_comma (c : ascii) : bool := Ascii.eqb c ",".

(** [a || b] on strings that may be undefined. *)
Definition or_string (a : option string) (b : string) : string :=
  match a with
  | Some s => if JS.truthy s then s else b
  | None => b
  end.

(** Extract identifier from Fastify request (IP or custom header). *)
Definition extractIdentifier (request : HttpRequest.t) : string :=
  let customId := HttpRequest.x_client_id request in
  let forwarded := HttpRequest.x_forwarded_for request in
  let realIp := HttpRequest.x_real_ip request in
  let ip :=
    or_string
      (match forwarded with
       | Some f =>
           if JS.truthy f
           then Some (JS.trim (hd EmptyString (JS.split is_comma f)))
           else None
       | None => None
       end)
      (or_string realIp
         (or_string (HttpRequest.ip request)
            (or_string (HttpRequest.remoteAddress request) "unknown"))) in
  match customId with
  | Some c => if JS.truthy c then c ++ "|" ++ ip else ip
  | None => ip
  end.

Definition set_jwt_token (token : option string) (c : Caller.t) : Caller.t :=
  {| Caller.caller_id := Caller.caller_id c; Caller.type := Caller.type c;
     Caller.identifier := Caller.identifier c; Caller.jwt_token := token;
     Caller.is_active := Caller.is_active c |}.

(** [UPDATE callers SET jwt_token = $1 WHERE caller_id = $2] *)
Definition update_jwt_token (token : option string) (callerId : string)
  : M unit :=
  fun db =>
    (Db.with_callers
       (map (fun c =>
               if Caller.caller_id c =? callerId then set_jwt_token token c
               else c)
            (Db.callers db)) db,
     Ok tt).

(** [INSERT INTO callers (caller_id, type, identifier, is_active,
    jwt_token) ... RETURNING *]: [caller_id] is the primary key and the
    pair of [type] and [identifier] is unique. *)
Definition insert_caller (callerId : string) (type : CallerType)
    (identifier : string) (token : option string) : M Caller.t :=
  fun db =>
    match Pg.varchar 255 callerId, Pg.varchar 512 identifier with
    | Some callerId, Some identifier =>
        if existsb (fun c => Caller.caller_id c =? callerId) (Db.callers db)
           || existsb (fun c => same_type (Caller.type c) type
                                && (Caller.identifier c =? identifier))
                (Db.callers db)
        then (db, Err "duplicate key value violates unique constraint")
        else
          let row := {| Caller.caller_id := callerId; Caller.type := type;
                        Caller.identifier := identifier;
                        Caller.jwt_token := token;
                        Caller.is_active := true |} in
          (Db.with_callers (Db.callers db ++ [row]) db, Ok row)
    | _, _ => (db, Err "value too long for type character varying")
    end.

Section Tokens.
Variable env : Env.t.
(** The hexadecimal SHA-256 digest of a text. *)
Variable sha256_hex : string -> string.
(** [jwt.sign(payload, secret, { expiresIn: '24h' })] at a given time. *)
Variable jwt_sign : JWTPayload.t -> string -> Z -> string.
(** [jwt.verify(token, secret)] at a given time: the payload, or the
    message of the error it throws. *)
Variable jwt_verify : string -> string -> Z -> result JWTPayload.t.
(** [encryptSecret], from the random initialisation vector it draws. *)
Variable encryptSecret : string -> string -> string.

(** Generate a unique caller_id based on identifier. *)
Definition generateCallerId (type : CallerType) (identifier : string)
  : string :=
  let hash :=
    substring 0 16 (sha256_hex (type_name type ++ ":" ++ identifier)) in
  type_name type ++ "-" ++ hash.

(** Get or create caller and return JWT token. [now] is the reading of
    the clock and [iv] the random vector of the cipher. *)
Definition getOrCreateToken (now : Z) (iv : string) (type : CallerType)
    (identifier : string) (providerSecret : option string) : M string :=
  (if same_type type provider
      && (negb (JS.truthy_opt providerSecret)
          || (JS.trim (or_string providerSecret EmptyString) =? EmptyString))
   then throw "Provider execution secret is required (header x-provider-secret)"
   else
     existingResult <-
       query (fun db =>
                filter (fun c => same_type (Caller.type c) type
                                 && (Caller.identifier c =? identifier))
                       (Db.callers db)) ;;
     (* Prevent spoof: same client_id prefix but different IP *)
     let clientIdPart := hd EmptyString (JS.split is_bar identifier) in
     (if JS.truthy clientIdPart && negb (clientIdPart =? identifier) then
        conflict <-
          query (fun db =>
                   filter (fun c => same_type (Caller.type c) type
                                    && Pg.like (clientIdPart ++ "|%")
                                         (Caller.identifier c))
                          (Db.callers db)) ;;
        match conflict with
        | first :: _ =>
            if negb (Caller.identifier first =? identifier)
            then throw "Identifier/IP mismatch for this client_id"
            else ret tt
        | [] => ret tt
        end
      else ret tt) ;;;
     caller <-
       match existingResult with
       | caller :: _ =>
           if same_type type provider && JS.truthy_opt providerSecret then
             let encrypted :=
               encryptSecret iv (or_string providerSecret EmptyString) in
             update_jwt_token (Some encrypted) (Caller.caller_id caller) ;;;
             ret (set_jwt_token (Some encrypted) caller)
           else ret caller
       | [] =>
           let callerId := generateCallerId type identifier in
           let encrypted :=
             if same_type type provider && JS.truthy_opt providerSecret
             then Some (encryptSecret iv (or_string providerSecret EmptyString))
             else None in
           insert_caller callerId type identifier encrypted
       end ;;
     let payload :=
       {| JWTPayload.caller_id := Caller.caller_id caller;
          JWTPayload.type := Caller.type caller;
          JWTPayload.identifier := Caller.identifier caller |} in
     let token := jwt_sign payload (Env.JWT_SECRET env) now in
     (match type with
      | consumer =>
          update_jwt_token (Some (sha256_hex token)) (Caller.caller_id caller)
      | provider => ret tt
      end) ;;;
     ret token)%db.

(** Verify JWT token and return payload. *)
Definition verifyToken (now : Z) (token : string) : result JWTPayload.t :=
  match jwt_verify token (Env.JWT_SECRET env) now with
  | Ok payload => Ok payload
  | Err message => Err ("Invalid or expired token: " ++ message)
  end.

End Tokens.


End AuthService.

(** ** routes/index.ts *)

Module Routes.

Module SearchItem.
Record t : Type := {
  agent : SearchAgentResponse.t;
  execution_key : AuthService.Jwt.t;
  key_expires_at : Z
}.
End SearchItem.

Inductive Reply : Type :=
| Reply200 (body : list SearchItem.t)
| ReplyError (code : Z) (error : string).

Section Handlers.
Variable similarity : string -> string -> Q.
Variable decryptSecret : string -> option string.
Variable env : Env.t.
(** The reading of [Date.now()] and the random key id of the i-th key
    minted while the request is served. *)
Variable clock : nat -> Z.
Variable randomHex : nat -> string.

Definition withKey (consumerCallerId : string) (db : Db.t) (i : nat)
    (agent : SearchAgentResponse.t) : SearchItem.t :=
  let providerSecret :=
    match SearchAgentResponse.caller_id agent with
    | Some c =>
        if JS.truthy c
        then AuthService.getProviderSecret decryptSecret c db
        else None
    | None => None
    end in
  let k :=
    AuthService.generateExecutionKey env (clock i) (randomHex i)
      consumerCallerId (SearchAgentResponse.id agent)
      (match providerSecret with
       | Some s => if JS.truthy s then Some s else None
       | None => None
       end) in
  {| SearchItem.agent := agent;
     SearchItem.execution_key := AuthService.ExecutionKey.key k;
     SearchItem.key_expires_at := AuthService.ExecutionKey.expires_at k |}.

Fixpoint withKeys (consumerCallerId : string) (db : Db.t) (i : nat)
    (agents : list SearchAgentResponse.t) : list SearchItem.t :=
  match agents with
  | [] => []
  | agent :: rest =>
      withKey consumerCallerId db i agent
        :: withKeys consumerCallerId db (S i) rest
  end.

(** POST /search, after the pre-handler has put the verified consumer
    into [request.caller]. *)
Definition postSearch (callerId : string) (body : SearchAgentRequest.t)
    (db : Db.t) : Reply :=
  match SearchService.search similarity env body db with
  | Ok agents => Reply200 (withKeys callerId db 0 agents)
  | Err _ => ReplyError 400 "Failed to search agents"
  end.

End Handlers.
(** What a handler sends: a status code with a body, or with an error. *)
Inductive Response (A : Type) : Type :=
| Sent (code : Z) (body : A)
| Failed (code : Z) (error : string).
Arguments Sent {A} code body.
Arguments Failed {A} code error.

(** What a pre-handler leaves: the verified caller in [request.caller],
    or the reply it has sent. *)
Inductive Access : Type :=
| Granted (caller : AuthService.JWTPayload.t)
| Refused (code : Z) (error : string).

Definition caller_type_of (type : option string) : option CallerType :=
  match type with
  | Some t =>
      if t =? "consumer" then Some consumer
      else if t =? "provider" then Some provider
      else None
  | None => None
  end.

Section Guarded.
Variable Math_log : Q -> Q.
Variable env : Env.t.
Variable URL_parses : string -> bool.
Variable jsonb : string -> option string.
Variable sha256_hex : string -> string.
Variable jwt_sign : AuthService.JWTPayload.t -> string -> Z -> string.
Variable jwt_verify : string -> string -> Z -> result AuthService.JWTPayload.t.
Variable encryptSecret : string -> string -> string.

(** The token of an [Authorization: Bearer] header. *)
Definition bearer (request : AuthService.HttpRequest.t) : option string :=
  match AuthService.HttpRequest.authorization request with
  | Some authHeader =>
      if JS.truthy authHeader && prefix "Bearer " authHeader
      then Some (substring 7 (String.length authHeader - 7) authHeader)
      else None
  | None => None
  end.

(** The pre-handler of /register (for providers) and of /search and
    /feedback (for consumers). *)
Definition preHandler (now : Z) (required : CallerType)
    (request : AuthService.HttpRequest.t) : Access :=
  let token := bearer request in
  if negb (JS.truthy_opt token) then Refused 401 "Access token required"
  else
    match AuthService.verifyToken env jwt_verify now
            (AuthService.or_string token EmptyString) with
    | Ok payload =>
        if AuthService.same_type (AuthService.JWTPayload.type payload) required
        then Granted payload
        else Refused 403
               (match required with
                | provider => "Provider access required"
                | consumer => "Consumer access required"
                end)
    | Err _ => Refused 403 "Invalid or expired token"
    end.

(** POST /auth/token *)
Definition postAuthToken (now : Z) (iv : string)
    (request : AuthService.HttpRequest.t) (type : option string)
    (db : Db.t) : Db.t * Response string :=
  match caller_type_of type with
  | None =>
      (db, Failed 400 ("type must be " ++ JS.dquote ++ "consumer" ++ JS.dquote
                         ++ " or " ++ JS.dquote ++ "provider" ++ JS.dquote))
  | Some type =>
      let identifier := AuthService.extractIdentifier request in
      let providerSecret := AuthService.HttpRequest.x_provider_secret request in
      match AuthService.getOrCreateToken env sha256_hex jwt_sign encryptSecret
              now iv type identifier providerSecret db with
      | (db', Ok token) => (db', Sent 200 token)
      | (db', Err _) => (db', Failed 500 "Failed to generate token")
      end
  end.

(** POST /register: the id of the agent and the token of the provider. *)
Definition postRegister (now : Z) (request : AuthService.HttpRequest.t)
    (body : RegisterAgentRequest.t) (db : Db.t)
  : Db.t * Response (string * string) :=
  match preHandler now provider request with
  | Refused code error => (db, Failed code error)
  | Granted caller =>
      let registrationData :=
        RegisterAgentRequest.with_caller_id
          (AuthService.JWTPayload.caller_id caller) body in
      match RegisterService.register env URL_parses jsonb now
              registrationData db
      with
      | (db', Ok id) =>
          let providerJwt :=
            AuthService.or_string (bearer request) EmptyString in
          (db', Sent 200 (id, providerJwt))
      | (db', Err _) => (db', Failed 400 "Failed to register agent")
      end
  end.

(** POST /feedback *)
Definition postFeedback (now : Z) (request : AuthService.HttpRequest.t)
    (body : FeedbackRequest.t) (db : Db.t) : Db.t * Response bool :=
  match preHandler now consumer request with
  | Refused code error => (db, Failed code error)
  | Granted caller =>
      let feedbackData :=
        {| FeedbackRequest.agent_id := FeedbackRequest.agent_id body;
           FeedbackRequest.success := FeedbackRequest.success body;
           FeedbackRequest.latency_ms := FeedbackRequest.latency_ms body;
           FeedbackRequest.rating := FeedbackRequest.rating body;
           FeedbackRequest.consumer_id :=
             AuthService.JWTPayload.caller_id caller |} in
      match FeedbackService.submitFeedback Math_log env now feedbackData db
      with
      | (db', Ok result) => (db', Sent 200 result)
      | (db', Err message) =>
          let isRateLimit :=
            JS.includes (JS.toLowerCase message) "rate limit" in
          (db', Failed (if isRateLimit then 429 else 400) message)
      end
  end.

End Guarded.


End Routes.


(** ** Sample data *)

Module Sample.

(** Stand-ins for the digest, the signature, the cipher, the JSONB
    column and the URL parser. *)
Definition sha256_hex (text : string) : string :=
  "5f2b" ++ text.

Definition jwt_sign (payload : AuthService.JWTPayload.t) (secret : string)
    (now : Z) : string :=
  "jwt:" ++ AuthService.JWTPayload.caller_id payload.

Definition encryptSecret (iv secret : string) : string := "aes:" ++ secret.

Definition jsonb (text : string) : option string := Some text.

Definition URL_parses (endpoint : string) : bool := true.

(** The token of provider-1, and one that does not verify. *)
Definition jwt_verify (token secret : string) (now : Z)
  : result AuthService.JWTPayload.t :=
  if token =? "jwt:provider-1"
  then Ok {| AuthService.JWTPayload.caller_id := "provider-1";
             AuthService.JWTPayload.type := provider;
             AuthService.JWTPayload.identifier := "203.0.113.7" |}
  else if token =? "jwt:consumer-1"
  then Ok {| AuthService.JWTPayload.caller_id := "consumer-1";
             AuthService.JWTPayload.type := consumer;
             AuthService.JWTPayload.identifier := "198.51.100.4" |}
  else Err "jwt malformed".


Definition development : Env.t :=
  {| Env.NODE_ENV := "development"; Env.JWT_SECRET := "registry-master-secret" |}.

Definition production : Env.t :=
  {| Env.NODE_ENV := "production"; Env.JWT_SECRET := "registry-master-secret" |}.

(** A weather agent owned by provider-1. *)
Definition agent (id location_scope : string) (status : option AgentStatus)
  : Agent.t :=
  {| Agent.id := id; Agent.name := "Weather";
     Agent.endpoint := "https://weather.example";
     Agent.description := "Weather forecasts";
     Agent.intents := ["weather.forecast"]; Agent.tasks := [];
     Agent.tags := []; Agent.categories := ["weather"];
     Agent.location_scope := location_scope; Agent.languages := ["en-US"];
     Agent.version := "1.0.0"; Agent.meta := "{}";
     Agent.input_schema := None; Agent.caller_id := Some "provider-1";
     Agent.status := status; Agent.quarantine_reason := None;
     Agent.quarantine_at := None;
     Agent.created_at := Some 0%Z; Agent.updated_at := Some 0%Z |}.

Definition stats (agent_id : string) (calls_total calls_success : Z)
    (avg_latency_ms avg_rating : Q) : AgentStats.t :=
  {| AgentStats.agent_id := agent_id; AgentStats.calls_total := calls_total;
     AgentStats.calls_success := calls_success;
     AgentStats.avg_latency_ms := avg_latency_ms;
     AgentStats.avg_rating := avg_rating;
     AgentStats.last_feedback_at := None |}.

Definition db (agents : list Agent.t) (agent_stats : list AgentStats.t)
    (callers : list Caller.t) : Db.t :=
  {| Db.agents := agents; Db.agent_stats := agent_stats;
     Db.agent_feedbacks := []; Db.fraud_detection_log := [];
     Db.callers := callers |}.

Definition request (intent : option Intent) (tags : option (list string))
    (location : option string) : SearchAgentRequest.t :=
  {| SearchAgentRequest.intent := intent;
     SearchAgentRequest.categories := ["weather"];
     SearchAgentRequest.tags := tags;
     SearchAgentRequest.location := location;
     SearchAgentRequest.language := None;
     SearchAgentRequest.description := None;
     SearchAgentRequest.limit := None |}.

Definition feedback (rating : Q) : FeedbackRequest.t :=
  {| FeedbackRequest.agent_id := "agent:w"; FeedbackRequest.success := true;
     FeedbackRequest.latency_ms := 100; FeedbackRequest.rating := rating;
     FeedbackRequest.consumer_id := "consumer-1" |}.

(** A Miami agent, a banned one and a quarantined Global one. *)
Definition three_agents : Db.t :=
  db [agent "agent:miami" "Miami,FL,USA" None;
      agent "agent:banned" "Miami,FL,USA" (Some banned);
      agent "agent:global" "Global" (Some quarantine)] [] [].

(** A stand-in for the cipher: a stored secret reads aes: followed by the
    plain text; anything else fails to decrypt. *)
Definition decrypt (stored : string) : option string :=
  if prefix "aes:" stored
  then Some (substring 4 (String.length stored - 4) stored)
  else None.

Definition provider (caller_id : string) (jwt_token : option string)
  : Caller.t :=
  {| Caller.caller_id := caller_id; Caller.type := provider;
     Caller.identifier := "203.0.113.7"; Caller.jwt_token := jwt_token;
     Caller.is_active := true |}.

(** A consumer that holds a token. *)
Definition client (caller_id : string) : Caller.t :=
  {| Caller.caller_id := caller_id; Caller.type := consumer;
     Caller.identifier := "198.51.100.4"; Caller.jwt_token := None;
     Caller.is_active := true |}.

(** The weather agent of provider-1, whose stored secret decrypts, and
    the consumer consumer-1. *)
Definition registry : Db.t :=
  db [agent "agent:w" "Miami,FL,USA" None] []
     [provider "provider-1" (Some "aes:provider-secret");
      client "consumer-1"].

(** The same, with a stored secret that no longer decrypts. *)
Definition registry_after_rotation : Db.t :=
  db [agent "agent:w" "Miami,FL,USA" None] []
     [provider "provider-1" (Some "6f1d:93ab")].

Definition clock (i : nat) : Z := (1000 + Z.of_nat i)%Z.
Definition randomHex (_ : nat) : string := "00112233445566778899aabbccddeeff".


(** Three feedbacks as they reach the statistics of agent:w. *)
Definition increment (now : Z) (success : bool) (rating weight : Q)
  : StatsRepository.Increment.t :=
  {| StatsRepository.Increment.now := now;
     StatsRepository.Increment.agentId := "agent:w";
     StatsRepository.Increment.success := success;
     StatsRepository.Increment.latencyMs := 100;
     StatsRepository.Increment.rating := rating;
     StatsRepository.Increment.weight := weight |}.

Definition increments : list StatsRepository.Increment.t :=
  [increment 0 true 1 1; increment 1000 false 0 0.63;
   increment 2000 true 0.5 0.1].

(** An active agent that fails 20 calls of 25, and one that fails 36 of 40. *)
Definition failing : Db.t :=
  db [agent "agent:w" "Global" (Some active)]
     [stats "agent:w" 25 5 100 0.9] [].

Definition hopeless : Db.t :=
  db [agent "agent:w" "Global" (Some active)]
     [stats "agent:w" 40 4 100 0.9] [].

(** Three agents under review: an active one that fails 20 calls of 25, an
    active one that fails none, and one in quarantine that fails 36 of
    40; four feedbacks of consumer-1 to the second one, and one entry of
    the fraud log for it. *)
Definition portfolio : Db.t :=
  Db.with_fraud_detection_log
    [{| FraudDetection.agent_id := "agent:h";
        FraudDetection.consumer_id := Some "consumer-1";
        FraudDetection.fraud_type := RATING_PATTERN;
        FraudDetection.severity := MEDIUM;
        FraudDetection.details := [];
        FraudDetection.detected_at := 3000 |}]
    (Db.with_agent_feedbacks
       (repeat {| AgentFeedback.agent_id := "agent:h";
                  AgentFeedback.consumer_id := "consumer-1";
                  AgentFeedback.success := true;
                  AgentFeedback.latency_ms := 100;
                  AgentFeedback.rating := 0.9;
                  AgentFeedback.created_at := 2000 |} 4)
       (db [agent "agent:w" "Global" (Some active);
            agent "agent:h" "Global" (Some active);
            agent "agent:q" "Global" (Some quarantine)]
           [stats "agent:w" 25 5 100 0.9;
            stats "agent:h" 25 25 100 0.9;
            stats "agent:q" 40 4 100 0.9]
           [provider "provider-1" (Some "aes:provider-secret");
            client "consumer-1"])).

(** No fuzzy match, logarithm rounded down to 0, no secret recovered. *)
Definition no_similarity (_ _ : string) : Q := 0.
Definition flat_log (_ : Q) : Q := 0.
Definition no_decrypt (_ : string) : option string := None.

Definition http (authorization x_client_id ip : option string)
  : AuthService.HttpRequest.t :=
  {| AuthService.HttpRequest.authorization := authorization;
     AuthService.HttpRequest.x_client_id := x_client_id;
     AuthService.HttpRequest.x_forwarded_for := None;
     AuthService.HttpRequest.x_real_ip := None;
     AuthService.HttpRequest.x_provider_secret := None;
     AuthService.HttpRequest.ip := ip;
     AuthService.HttpRequest.remoteAddress := None |}.

(** The registration of the weather agent. *)
Definition registration (id endpoint : string) : RegisterAgentRequest.t :=
  {| RegisterAgentRequest.id := id;
     RegisterAgentRequest.name := "Weather";
     RegisterAgentRequest.endpoint := endpoint;
     RegisterAgentRequest.description := "Weather forecasts";
     RegisterAgentRequest.intents := ["weather.forecast"];
     RegisterAgentRequest.tasks := None;
     RegisterAgentRequest.tags := [];
     RegisterAgentRequest.categories := ["weather"];
     RegisterAgentRequest.location_scope := EmptyString;
     RegisterAgentRequest.languages := ["en-US"];
     RegisterAgentRequest.version := "1.0.0";
     RegisterAgentRequest.meta := None;
     RegisterAgentRequest.input_schema := None;
     RegisterAgentRequest.caller_id := "provider-1" |}.

(** A consumer known by its client id at one address. *)
Definition known_client : Db.t :=
  db [] []
     [{| Caller.caller_id := "consumer-5f2bconsumer:cli";
         Caller.type := consumer;
         Caller.identifier := "client-7|198.51.100.4";
         Caller.jwt_token := None; Caller.is_active := true |}].


End Sample.

(** * Properties *)

(** ** Geo factor without a location *)

(** C7, as the code has it: when the request carries no location or the agent
    has none, the geo factor is 0.3 for an agent whose scope is the text
    Global and 0.5 for every other agent. *)
Theorem geo_score_without_location
    (agentLocation : string) (searchLocation : option string) :
  JS.truthy_opt searchLocation = false \/ JS.truthy agentLocation = false ->
  SearchService.calculateGeoScore agentLocation searchLocation
  = if agentLocation =? "Global" then 0.3 else 0.5.
Proof.
  unfold SearchService.calculateGeoScore.
  intros [H | H]; rewrite H; simpl.
  - reflexivity.
  - rewrite orb_true_r. reflexivity.
Qed.

Lemma geo_score_without_location_witness :
  SearchService.calculateGeoScore "Miami,FL,USA" None = 0.5.
Proof.
  apply (geo_score_without_location "Miami,FL,USA" None).
  left. reflexivity.
Defined.

(** C7 as stated fails: a Global agent gets 0.3 and not 1.0 when the request
    has no location. *)
Lemma geo_score_global_without_location :
  SearchService.calculateGeoScore "Global" None == 0.3
  /\ ~ SearchService.calculateGeoScore "Global" None == 1.0.
Proof.
  split; vm_compute; [reflexivity | discriminate].
Qed.

(** ** Health report of an agent without statistics *)

(** C10: an agent that exists and has no statistics row is reported with
    health score 1, every metric at zero, no warning and a low risk; the
    weighted sum itself would give 0.3 on metrics that are all zero. *)
Theorem health_without_stats
    (env : Env.t) (agentId : string) (db : Db.t) (agent : Agent.t) :
  AgentRepository.findById agentId db = Some agent ->
  StatsRepository.findByAgentId agentId db = None ->
  exists h,
    QuarantineService.checkAgentHealth env agentId db = Some h
    /\ AgentHealthMetrics.health_score h == 1
    /\ Metrics.success_rate (AgentHealthMetrics.metrics h) == 0
    /\ Metrics.avg_rating (AgentHealthMetrics.metrics h) == 0
    /\ Metrics.avg_latency_ms (AgentHealthMetrics.metrics h) == 0
    /\ Metrics.total_feedbacks (AgentHealthMetrics.metrics h) = 0%Z
    /\ Metrics.fraud_detected (AgentHealthMetrics.metrics h) == 0
    /\ Metrics.fraud_percentage (AgentHealthMetrics.metrics h) == 0
    /\ Metrics.self_rating_percentage (AgentHealthMetrics.metrics h) == 0
    /\ AgentHealthMetrics.warnings h = []
    /\ AgentHealthMetrics.quarantine_risk h = risk_low
    /\ QuarantineService.healthScore 0 0 0 0 == 0.3.
Proof.
  intros Hagent Hstats.
  unfold QuarantineService.checkAgentHealth.
  rewrite Hagent, Hstats.
  eexists. split; [reflexivity |].
  simpl. repeat split; reflexivity.
Qed.

Lemma health_without_stats_witness :
  exists h,
    QuarantineService.checkAgentHealth Sample.production "agent:w"
      (Sample.db [Sample.agent "agent:w" "Global" None] [] []) = Some h
    /\ AgentHealthMetrics.health_score h == 1
    /\ AgentHealthMetrics.quarantine_risk h = risk_low.
Proof.
  destruct (health_without_stats Sample.production "agent:w"
              (Sample.db [Sample.agent "agent:w" "Global" None] [] [])
              (Sample.agent "agent:w" "Global" None)
              eq_refl eq_refl) as [h H].
  exists h. intuition.
Defined.

(** ** Placeholder locations *)

(** C9 at a failing input: a Miami agent, a request by category with a tag the
    agent lacks.  Without a location the agent is returned (geo factor 0.5,
    score 0.415); with the location text null the geo filter is skipped as
    the claim says, but the score is computed against the raw text (geo
    factor 0.2, score 0.355) and the agent is dropped. *)
Theorem search_null_location_differs :
  let db := Sample.db [Sample.agent "agent:w" "Miami,FL,USA" None] [] [] in
  let search location :=
    SearchService.search Sample.no_similarity Sample.development
      (Sample.request None (Some ["snow"]) location) db in
  SearchService.normalizeLocation (Some "null") = None
  /\ SearchService.calculateGeoScore "Miami,FL,USA" None == 0.5
  /\ SearchService.calculateGeoScore "Miami,FL,USA" (Some "null") == 0.2
  /\ (exists r, search None = Ok [r]
                /\ SearchAgentResponse.id r = "agent:w"
                /\ SearchAgentResponse.score r == 0.42)
  /\ search (Some "null") = Ok [].
Proof.
  cbv zeta. repeat split; try (vm_compute; reflexivity).
  eexists. split; [vm_compute; reflexivity |].
  repeat split; vm_compute; reflexivity.
Qed.

(** ** Auto-review and an average rating of zero *)

(** C6 at a failing input: in production an active agent with 15 calls, all
    successful, and an average rating of exactly 0 is left active: the review
    reads a rating of 0 as 1. *)
Theorem zero_rating_agent_left_active :
  let db := Sample.db [Sample.agent "agent:w" "Global" (Some active)]
              [Sample.stats "agent:w" 15 15 100 0] [] in
  QuarantineService.autoReviewAgents Sample.production 0 db
  = (db, QuarantineService.zero_counts)
  /\ (exists h, QuarantineService.checkAgentHealth Sample.production "agent:w" db
                = Some h
                /\ AgentHealthMetrics.quarantine_risk h = risk_high
                /\ AgentHealthMetrics.warnings h = ["Low average rating: 0.00"]).
Proof.
  cbv zeta. split; [vm_compute; reflexivity |].
  eexists. split; [vm_compute; reflexivity |].
  repeat split; vm_compute; reflexivity.
Qed.

(** ** Risk levels outside production *)

(** C8, as the code has it: outside production the health report still
    assigns the risk from the thresholds on the statistics and on the share
    of self-ratings; only the thresholds on the fraud percentage, which is 0
    there, cannot fire. *)
Theorem health_risk_outside_production
    (env : Env.t) (agentId : string) (db : Db.t)
    (stats : AgentStats.t) (h : AgentHealthMetrics.t) :
  Env.isProductionMode env = false ->
  StatsRepository.findByAgentId agentId db = Some stats ->
  QuarantineService.checkAgentHealth env agentId db = Some h ->
  let calls_total := AgentStats.calls_total stats in
  let successRate := QuarantineService.successRateOf 0 stats in
  let avgRating := JS.or_default (AgentStats.avg_rating stats) 0 in
  let avgLatency := JS.or_default (AgentStats.avg_latency_ms stats) 0 in
  let selfRatingPercentage :=
    FeedbackRepository.FraudStats.selfRatingPercentage
      (FeedbackRepository.getFraudStats agentId db) in
  Metrics.fraud_percentage (AgentHealthMetrics.metrics h) == 0
  /\ AgentHealthMetrics.quarantine_risk h
     = if ((40 <=? calls_total)%Z && JS.Qltb successRate 0.20)
          || ((30 <=? calls_total)%Z && JS.Qltb avgRating 0.15)
          || JS.Qltb 80 selfRatingPercentage
       then risk_critical
       else if ((20 <=? calls_total)%Z && JS.Qltb successRate 0.40)
               || ((15 <=? calls_total)%Z && JS.Qltb avgRating 0.3)
               || ((10 <=? calls_total)%Z && JS.Qltb 30000 avgLatency)
       then risk_high
       else risk_low.
Proof.
  intros Hdev Hstats Hh. cbv zeta.
  unfold QuarantineService.checkAgentHealth in Hh.
  destruct (AgentRepository.findById agentId db) as [agent |]; [| discriminate].
  rewrite Hstats in Hh.
  unfold FraudDetectionService.calculateFraudPercentage in Hh.
  rewrite Hdev in Hh. simpl negb in Hh. cbv iota in Hh.
  replace (JS.Qltb 70 0) with false in Hh by reflexivity.
  replace (JS.Qltb 50 0) with false in Hh by reflexivity.
  unfold QuarantineService.flag in Hh.
  destruct ((40 <=? AgentStats.calls_total stats)%Z
            && JS.Qltb (QuarantineService.successRateOf 0 stats) 0.20);
  destruct ((30 <=? AgentStats.calls_total stats)%Z
            && JS.Qltb (JS.or_default (AgentStats.avg_rating stats) 0) 0.15);
  destruct (JS.Qltb 80
              (FeedbackRepository.FraudStats.selfRatingPercentage
                 (FeedbackRepository.getFraudStats agentId db)));
  destruct ((20 <=? AgentStats.calls_total stats)%Z
            && JS.Qltb (QuarantineService.successRateOf 0 stats) 0.40);
  destruct ((15 <=? AgentStats.calls_total stats)%Z
            && JS.Qltb (JS.or_default (AgentStats.avg_rating stats) 0) 0.3);
  destruct ((10 <=? AgentStats.calls_total stats)%Z
            && JS.Qltb 30000 (JS.or_default (AgentStats.avg_latency_ms stats) 0));
  simpl in Hh; injection Hh as <-; simpl; split; reflexivity.
Qed.

Lemma health_risk_outside_production_witness :
  exists h,
    QuarantineService.checkAgentHealth Sample.development "agent:w"
      (Sample.db [Sample.agent "agent:w" "Global" None]
         [Sample.stats "agent:w" 10 10 100 0.9] []) = Some h
    /\ AgentHealthMetrics.quarantine_risk h = risk_low.
Proof.
  eexists. split; [reflexivity |].
  apply (health_risk_outside_production Sample.development "agent:w"
           (Sample.db [Sample.agent "agent:w" "Global" None]
              [Sample.stats "agent:w" 10 10 100 0.9] [])
           (Sample.stats "agent:w" 10 10 100 0.9) _
           eq_refl eq_refl eq_refl).
Defined.

(** C8 as stated fails: in development an agent with 25 calls of which 5
    succeeded is reported at high risk, with a warning. *)
Lemma development_health_report_high_risk :
  exists h,
    QuarantineService.checkAgentHealth Sample.development "agent:w"
      (Sample.db [Sample.agent "agent:w" "Global" None]
         [Sample.stats "agent:w" 25 5 100 0.9] []) = Some h
    /\ Env.isProductionMode Sample.development = false
    /\ AgentHealthMetrics.quarantine_risk h = risk_high
    /\ AgentHealthMetrics.warnings h = ["Low success rate: 20.0%"].
Proof.
  eexists. split; [vm_compute; reflexivity |].
  repeat split; vm_compute; reflexivity.
Qed.

(** ** Lists: sorting, slicing, keys *)

Lemma In_insert_desc {A} (key : A -> Q) (x y : A) (l : list A) :
  In x (insert_desc key y l) <-> x = y \/ In x l.
Proof.
  induction l as [| z l IH]; simpl.
  - intuition.
  - destruct (Qle_bool (key z) (key y)); simpl; [intuition |].
    rewrite IH. intuition.
Qed.

Lemma In_sort_desc {A} (key : A -> Q) (x : A) (l : list A) :
  In x (sort_desc key l) <-> In x l.
Proof.
  induction l as [| y l IH]; simpl; [reflexivity |].
  rewrite In_insert_desc, IH. intuition.
Qed.

Lemma In_firstn {A} (x : A) (n : nat) (l : list A) :
  In x (firstn n l) -> In x l.
Proof.
  revert l. induction n as [| n IH]; intros [| y l]; simpl; try contradiction.
  intros [-> | H]; auto.
Qed.

Lemma In_slice0 {A} (x : A) (l : list A) (e : Z) :
  In x (JS.slice0 l e) -> In x l.
Proof.
  unfold JS.slice0. destruct (0 <=? e)%Z; apply In_firstn.
Qed.

Lemma NoDup_map_inj {A B} (f : A -> B) (l : list A) (x y : A) :
  NoDup (map f l) -> In x l -> In y l -> f x = f y -> x = y.
Proof.
  induction l as [| z l IH]; simpl; [contradiction |].
  intros Hnd Hx Hy Hf. inversion Hnd as [| ? ? Hnotin Hnd']; subst.
  destruct Hx as [-> | Hx], Hy as [-> | Hy]; auto.
  - exfalso. apply Hnotin. rewrite Hf. now apply in_map.
  - exfalso. apply Hnotin. rewrite <- Hf. now apply in_map.
Qed.

(** ** Rounding to two decimals *)

Lemma Math_round_hundredths_ge (x : Q) (n : Z) :
  inject_Z n / 100 <= x -> inject_Z n / 100 <= JS.Math_round (x * 100) / 100.
Proof.
  intros H. unfold JS.Math_round.
  apply Qmult_le_compat_r; [| discriminate].
  rewrite <- Zle_Qle.
  assert (Hn : inject_Z n <= x * 100 + (1 # 2)).
  { assert (H1 : inject_Z n / 100 * 100 <= x * 100)
      by (apply Qmult_le_compat_r; [exact H | discriminate]).
    assert (H2 : inject_Z n / 100 * 100 == inject_Z n) by field.
    rewrite H2 in H1. lra. }
  apply Qfloor_resp_le in Hn. now rewrite Qfloor_Z in Hn.
Qed.

(** ** The candidates come from the table *)

Lemma fetchAgents_In similarity request normalizedRequest db agents a :
  SearchService.fetchAgents similarity request normalizedRequest db = Ok agents ->
  In a agents -> In a (Db.agents db).
Proof.
  unfold SearchService.fetchAgents.
  set (first := AgentRepository.search _ (Some _) _ db).
  set (second := AgentRepository.search _ None _ db).
  assert (Hfirst : forall x, In x first -> In x (Db.agents db)).
  { intros x Hx. unfold first, AgentRepository.search in Hx.
    now apply filter_In in Hx. }
  assert (Hsecond : forall x, In x second -> In x (Db.agents db)).
  { intros x Hx. unfold second, AgentRepository.search in Hx.
    now apply filter_In in Hx. }
  assert (Hfuzzy : forall i l x,
             AgentRepository.searchByIntentFuzzy similarity i l db = Ok agents ->
             agents <> [] -> In x agents -> In x (Db.agents db)).
  { intros i l x Hf _ Hx. unfold AgentRepository.searchByIntentFuzzy in Hf.
    destruct (l <? 0)%Z; [discriminate |].
    destruct i as [i |]; inversion Hf; subst; [| contradiction].
    apply In_firstn, In_sort_desc, filter_In in Hx. tauto. }
  assert (Hall : forall l : list Agent.t,
             (forall x, In x l -> In x (Db.agents db)) ->
             match (match l with
                    | [] => Ok (AgentRepository.findAll db)
                    | _ => Ok l
                    end) with
             | Ok l' => forall x, In x l' -> In x (Db.agents db)
             | Err _ => True
             end).
  { intros [| y l] Hl; simpl; auto. }
  intros Hfetch Ha.
  destruct first as [| f1 first'].
  - destruct (SearchService.intent_truthy (SearchAgentRequest.intent normalizedRequest)).
    + destruct second as [| s1 second'].
      * destruct (SearchService.intent_truthy (SearchAgentRequest.intent request)).
        -- destruct (AgentRepository.searchByIntentFuzzy _ _ _ db)
             as [[| z fz] | e] eqn:Hfz; try discriminate.
           ++ inversion Hfetch; subst. exact Ha.
           ++ inversion Hfetch; subst.
              eapply Hfuzzy; eauto. discriminate.
        -- inversion Hfetch; subst. exact Ha.
      * inversion Hfetch; subst. now apply Hsecond.
    + destruct (SearchService.intent_truthy (SearchAgentRequest.intent request)).
      * destruct (AgentRepository.searchByIntentFuzzy _ _ _ db)
          as [[| z fz] | e] eqn:Hfz; try discriminate.
        -- inversion Hfetch; subst. exact Ha.
        -- inversion Hfetch; subst.
           eapply Hfuzzy; eauto. discriminate.
      * inversion Hfetch; subst. exact Ha.
  - inversion Hfetch; subst. now apply Hfirst.
Qed.

Lemma normalizeLocation_truthy (location : option string) (loc : string) :
  SearchService.normalizeLocation location = Some loc ->
  location = Some loc /\ JS.truthy loc = true.
Proof.
  unfold SearchService.normalizeLocation.
  destruct location as [l |]; [| discriminate].
  destruct (JS.truthy l) eqn:Ht; simpl; [| discriminate].
  destruct (_ || _); [discriminate |].
  intros H. inversion H; subst. auto.
Qed.

Lemma calculateScore_agent env db agent request :
  AgentWithScore.agent (SearchService.calculateScore env db agent request)
  = AgentWithScore.agent agent.
Proof.
  unfold SearchService.calculateScore.
  destruct (AgentWithScore.stats agent) as [stats |];
    [destruct (0 <? AgentStats.calls_total stats)%Z |]; reflexivity.
Qed.

(** ** What a search returns *)

(** C2, as the code has it: no banned agent is returned, every returned
    score is at least 0.4, and when the request carries a location that is
    not empty and not one of the placeholder texts null, undefined, none and
    n/a, every returned agent is Global or has a geo score of at least 0.3
    for it. *)
Theorem search_results_filtered
    (similarity : string -> string -> Q) (env : Env.t)
    (request : SearchAgentRequest.t) (db : Db.t)
    (results : list SearchAgentResponse.t) :
  NoDup (map Agent.id (Db.agents db)) ->
  SearchService.search similarity env request db = Ok results ->
  forall r, In r results ->
    (forall a, In a (Db.agents db) ->
               Agent.id a = SearchAgentResponse.id r ->
               Agent.status a <> Some banned)
    /\ 0.4 <= SearchAgentResponse.score r
    /\ (forall loc,
          SearchService.normalizeLocation (SearchAgentRequest.location request)
          = Some loc ->
          SearchAgentResponse.location_scope r = "Global"
          \/ 0.3 <= SearchService.calculateGeoScore
                      (SearchAgentResponse.location_scope r) (Some loc)).
Proof.
  intros Hnodup Hsearch r Hr.
  unfold SearchService.search in Hsearch.
  destruct (SearchService.validateRequest _) as [_ | e]; [| discriminate].
  destruct (SearchService.fetchAgents _ _ _ db) as [agents | e] eqn:Hfetch;
    [| discriminate].
  assert (Hin : In r
            (map (SearchService.toResponse)
               (filter
                  (SearchService.passes_filter
                     (SearchService.normalizeLocation
                        (SearchAgentRequest.location request)))
                  (map (fun agent => SearchService.calculateScore env db agent request)
                     (map (fun agent =>
                             {| AgentWithScore.agent := agent;
                                AgentWithScore.stats :=
                                  StatsRepository.findByAgentId (Agent.id agent) db;
                                AgentWithScore.score := 0 |})
                        (filter
                           (fun agent =>
                              match Agent.status agent with
                              | Some banned => false
                              | _ => true
                              end) agents)))))).
  { destruct agents as [| a0 agents'];
      [injection Hsearch as <-; contradiction |].
    match type of Hsearch with
    | match ?f with [] => _ | _ => _ end = _ => destruct f as [| sc0 rest]
    end.
    - injection Hsearch as <-. contradiction.
    - injection Hsearch as <-.
      apply in_map_iff in Hr. destruct Hr as [sc [<- Hsc]].
      apply in_map. apply In_slice0 in Hsc.
      exact (proj1 (In_sort_desc AgentWithScore.score sc (sc0 :: rest)) Hsc). }
  clear Hsearch Hr.
  apply in_map_iff in Hin. destruct Hin as [sc [<- Hsc]].
  apply filter_In in Hsc. destruct Hsc as [Hsc Hpass].
  apply in_map_iff in Hsc. destruct Hsc as [ws [<- Hws]].
  apply in_map_iff in Hws. destruct Hws as [a [<- Ha]].
  apply filter_In in Ha. destruct Ha as [Ha Hstatus].
  unfold SearchService.passes_filter in Hpass.
  rewrite calculateScore_agent in Hpass. simpl AgentWithScore.agent in Hpass.
  apply andb_true_iff in Hpass. destruct Hpass as [Hscore Hgeo].
  apply Qle_bool_iff in Hscore.
  repeat split.
  - intros a' Ha' Hid. simpl in Hid. rewrite calculateScore_agent in Hid.
    assert (a' = a).
    { apply (NoDup_map_inj Agent.id (Db.agents db)); auto.
      eapply fetchAgents_In; eauto. }
    subst a'. destruct (Agent.status a) as [[] |]; congruence.
  - simpl SearchAgentResponse.score.
    apply Qle_trans with (inject_Z 40 / 100); [discriminate |].
    apply Math_round_hundredths_ge.
    apply Qle_trans with 0.4; [discriminate | exact Hscore].
  - intros loc Hloc. simpl SearchAgentResponse.location_scope.
    rewrite calculateScore_agent. simpl AgentWithScore.agent.
    rewrite Hloc in Hgeo. simpl in Hgeo.
    apply normalizeLocation_truthy in Hloc. destruct Hloc as [_ Ht].
    rewrite Ht in Hgeo. simpl in Hgeo.
    apply orb_true_iff in Hgeo. destruct Hgeo as [Hglobal | Hgeo].
    + left. now apply String.eqb_eq.
    + right. now apply Qle_bool_iff.
Qed.

Lemma search_results_filtered_witness :
  exists r,
    SearchService.search Sample.no_similarity Sample.development
      (Sample.request (Some (IntentString "weather.forecast")) None (Some "usa"))
      Sample.three_agents = Ok [r]
    /\ 0.4 <= SearchAgentResponse.score r
    /\ (SearchAgentResponse.location_scope r = "Global"
        \/ 0.3 <= SearchService.calculateGeoScore
                    (SearchAgentResponse.location_scope r) (Some "usa")).
Proof.
  assert (H : exists r,
             SearchService.search Sample.no_similarity Sample.development
               (Sample.request (Some (IntentString "weather.forecast")) None
                  (Some "usa"))
               Sample.three_agents = Ok [r])
    by (eexists; vm_compute; reflexivity).
  destruct H as [r Hr]. exists r. split; [exact Hr |].
  assert (Hnodup : NoDup (map Agent.id (Db.agents Sample.three_agents))).
  { repeat constructor; simpl; intuition discriminate. }
  assert (Hloc : SearchService.normalizeLocation (Some "usa") = Some "usa")
    by (vm_compute; reflexivity).
  destruct (search_results_filtered Sample.no_similarity Sample.development
              (Sample.request (Some (IntentString "weather.forecast")) None
                 (Some "usa"))
              Sample.three_agents _ Hnodup Hr r (or_introl eq_refl))
    as [_ [Hscore Hgeo]].
  split; [exact Hscore | exact (Hgeo "usa" Hloc)].
Defined.

(** C2 as stated fails for a placeholder location: a request whose location
    is the text null gets back a Miami agent, not Global, whose geo score
    against that text is 0.2. *)
Lemma placeholder_location_skips_geo_filter :
  exists r,
    SearchService.search Sample.no_similarity Sample.development
      (Sample.request (Some (IntentString "weather.forecast")) None
         (Some "null"))
      Sample.registry = Ok [r]
    /\ SearchAgentResponse.location_scope r = "Miami,FL,USA"
    /\ SearchService.calculateGeoScore
         (SearchAgentResponse.location_scope r) (Some "null") == 0.2
    /\ 0.2 < 0.3.
Proof.
  eexists. split; [vm_compute; reflexivity |].
  repeat split; vm_compute; reflexivity.
Qed.

(** ** Execution keys of a search reply *)

Lemma withKeys_agents decryptSecret env clock randomHex callerId db agents :
  forall start,
    map Routes.SearchItem.agent
      (Routes.withKeys decryptSecret env clock randomHex callerId db start agents)
    = agents.
Proof.
  induction agents as [| a agents IH]; intros start; simpl.
  - reflexivity.
  - now rewrite IH.
Qed.

Lemma withKeys_nth decryptSecret env clock randomHex callerId db agents :
  forall start i item,
    nth_error
      (Routes.withKeys decryptSecret env clock randomHex callerId db start agents)
      i = Some item ->
    exists a,
      nth_error agents i = Some a
      /\ item = Routes.withKey decryptSecret env clock randomHex callerId db
                  (start + i) a.
Proof.
  induction agents as [| a agents IH]; intros start i item H.
  - destruct i; discriminate.
  - destruct i as [| i]; simpl in H.
    + injection H as <-. exists a. now rewrite Nat.add_0_r.
    + apply IH in H. destruct H as [a' [Ha' ->]].
      exists a'. split; [exact Ha' |].
      now rewrite Nat.add_succ_r.
Qed.

(** C1, as the code has it: every agent a search returns is sent with an
    execution key for that agent and the calling consumer, valid for 300
    seconds and signed with the secret recovered from the row of the agent's
    provider, or with the registry's own secret when none is recovered; its
    key_expires_at is the clock reading at minting plus 5 minutes, so never
    more than 5 minutes ahead of any later instant. *)
Theorem search_reply_keys
    (similarity : string -> string -> Q)
    (decryptSecret : string -> option string) (env : Env.t)
    (clock : nat -> Z) (randomHex : nat -> string)
    (callerId : string) (body : SearchAgentRequest.t) (db : Db.t)
    (agents : list SearchAgentResponse.t) :
  SearchService.search similarity env body db = Ok agents ->
  exists items,
    Routes.postSearch similarity decryptSecret env clock randomHex
      callerId body db = Routes.Reply200 items
    /\ map Routes.SearchItem.agent items = agents
    /\ forall i item, nth_error items i = Some item ->
         let key := Routes.SearchItem.execution_key item in
         let agent := Routes.SearchItem.agent item in
         let providerSecret :=
           match SearchAgentResponse.caller_id agent with
           | Some c =>
               if JS.truthy c
               then AuthService.getProviderSecret decryptSecret c db
               else None
           | None => None
           end in
         AuthService.ExecutionKeyPayload.agent_id (AuthService.Jwt.payload key)
         = SearchAgentResponse.id agent
         /\ AuthService.ExecutionKeyPayload.consumer_caller_id
              (AuthService.Jwt.payload key) = callerId
         /\ AuthService.Jwt.expiresIn key = 300%Z
         /\ AuthService.Jwt.secret key
            = match providerSecret with
              | Some s => if JS.truthy s then s else Env.JWT_SECRET env
              | None => Env.JWT_SECRET env
              end
         /\ Routes.SearchItem.key_expires_at item = (clock i + 300000)%Z
         /\ forall t, (clock i <= t)%Z ->
              (Routes.SearchItem.key_expires_at item - t <= 5 * 60 * 1000)%Z.
Proof.
  intros Hsearch. unfold Routes.postSearch. rewrite Hsearch.
  eexists. split; [reflexivity |]. split; [apply withKeys_agents |].
  intros i item Hitem. cbv zeta.
  apply withKeys_nth in Hitem. destruct Hitem as [a [_ ->]].
  rewrite Nat.add_0_l.
  unfold Routes.withKey, AuthService.generateExecutionKey.
  cbn [Routes.SearchItem.execution_key Routes.SearchItem.agent
       Routes.SearchItem.key_expires_at AuthService.ExecutionKey.key
       AuthService.ExecutionKey.expires_at AuthService.Jwt.secret
       AuthService.Jwt.payload AuthService.Jwt.expiresIn
       AuthService.ExecutionKeyPayload.agent_id
       AuthService.ExecutionKeyPayload.consumer_caller_id].
  split; [reflexivity |]. split; [reflexivity |]. split; [reflexivity |].
  split.
  - destruct (SearchAgentResponse.caller_id a) as [c |]; [| reflexivity].
    destruct (JS.truthy c); [| reflexivity].
    destruct (AuthService.getProviderSecret decryptSecret c db) as [s |];
      [| reflexivity].
    destruct (JS.truthy s) eqn:Hs; cbn iota; rewrite ?Hs; reflexivity.
  - unfold AuthService.EXECUTION_KEY_EXPIRATION.
    split; [| intros t Ht]; lia.
Qed.

Lemma search_reply_keys_witness :
  exists item,
    Routes.postSearch Sample.no_similarity Sample.decrypt Sample.production
      Sample.clock Sample.randomHex "consumer-1"
      (Sample.request None None None) Sample.registry
    = Routes.Reply200 [item]
    /\ AuthService.Jwt.secret (Routes.SearchItem.execution_key item)
       = "provider-secret"
    /\ Routes.SearchItem.key_expires_at item = 301000%Z.
Proof.
  assert (Hs : exists r,
             SearchService.search Sample.no_similarity Sample.production
               (Sample.request None None None) Sample.registry = Ok [r])
    by (eexists; vm_compute; reflexivity).
  destruct Hs as [r Hs].
  destruct (search_reply_keys Sample.no_similarity Sample.decrypt
              Sample.production Sample.clock Sample.randomHex "consumer-1"
              (Sample.request None None None) Sample.registry [r] Hs)
    as [items [Hreply [Hagents Hkeys]]].
  destruct items as [| item [| item' items]];
    [discriminate Hagents | | discriminate Hagents].
  exists item. split; [exact Hreply |].
  destruct (Hkeys 0%nat item eq_refl) as [_ [_ [_ [Hsecret [Hexp _]]]]].
  injection Hagents as Hagent. rewrite Hagent in Hsecret.
  vm_compute in Hs. injection Hs as <-.
  split; [exact Hsecret | exact Hexp].
Defined.

(** C1 as stated fails: when the secret stored for the agent's provider no
    longer decrypts, the key of the returned agent is signed with the
    registry's own secret. *)
Lemma execution_key_signed_with_master_secret :
  exists item,
    Routes.postSearch Sample.no_similarity Sample.decrypt Sample.production
      Sample.clock Sample.randomHex "consumer-1"
      (Sample.request None None None) Sample.registry_after_rotation
    = Routes.Reply200 [item]
    /\ SearchAgentResponse.caller_id (Routes.SearchItem.agent item)
       = Some "provider-1"
    /\ AuthService.getProviderSecret Sample.decrypt "provider-1"
         Sample.registry_after_rotation = None
    /\ AuthService.Jwt.secret (Routes.SearchItem.execution_key item)
       = Env.JWT_SECRET Sample.production.
Proof.
  eexists. split; [vm_compute; reflexivity |].
  repeat split; vm_compute; reflexivity.
Qed.

(** ** Statistics under feedback *)

Lemma integer_same (z z' : Z) : Pg.integer z = Some z' -> z' = z.
Proof.
  unfold Pg.integer. destruct (_ && _); congruence.
Qed.

Lemma numeric_3_2_unit (x y : Q) :
  0 <= x <= 1 -> Pg.numeric 3 2 x = Some y -> 0 <= y <= 1.
Proof.
  intros [H0 H1]. unfold Pg.numeric.
  change (10 ^ Z.of_nat 2)%Z with 100%Z.
  change (Z.to_pos 100) with 100%positive.
  destruct (Qfloor (Qabs x * inject_Z 100 + (1 # 2)) <? 10 ^ Z.of_nat 3)%Z;
    [| discriminate].
  assert (Hneg : JS.Qltb x 0 = false).
  { unfold JS.Qltb. apply negb_false_iff. now apply Qle_bool_iff. }
  rewrite Hneg. intros Hy.
  replace y with (Qfloor (Qabs x * inject_Z 100 + (1 # 2)) # 100)
    by congruence.
  clear Hy.
  assert (Hfloor : Qfloor (Qabs x * inject_Z 100 + (1 # 2))
                   = Qfloor (x * inject_Z 100 + (1 # 2))).
  { apply Qfloor_comp. now rewrite (Qabs_pos x H0). }
  rewrite Hfloor.
  assert (Hlo : (0 <= Qfloor (x * inject_Z 100 + (1 # 2)))%Z).
  { change 0%Z with (Qfloor (inject_Z 0)). apply Qfloor_resp_le.
    change (inject_Z 100) with 100. change (inject_Z 0) with 0. lra. }
  assert (Hhi : (Qfloor (x * inject_Z 100 + (1 # 2)) <= 100)%Z).
  { change 100%Z with (Qfloor (201 # 2)) at 2. apply Qfloor_resp_le.
    change (inject_Z 100) with 100. lra. }
  generalize dependent (Qfloor (x * inject_Z 100 + (1 # 2))).
  intros n _ Hlo Hhi. unfold Qle. simpl. lia.
Qed.

Lemma weighted_rating_unit (r w : Q) :
  0 <= r <= 1 -> 0 < w <= 1 -> 0 <= r * w <= 1.
Proof.
  intros [Hr0 Hr1] [Hw0 Hw1]. split; nra.
Qed.

Lemma or_default_0 (v : Q) : JS.or_default v 0 == v.
Proof.
  unfold JS.or_default. destruct (Qeq_bool v 0) eqn:H; [| reflexivity].
  apply Qeq_bool_iff in H. now rewrite H.
Qed.

(** The running mean stays between the old mean and the new value. *)
Lemma running_mean_unit (c w : Q) (n : Z) :
  (1 <= n)%Z -> 0 <= c <= 1 -> 0 <= w <= 1 ->
  0 <= c + (w - c) / inject_Z n <= 1.
Proof.
  intros Hn [Hc0 Hc1] [Hw0 Hw1].
  assert (Hpos : 0 < inject_Z n).
  { change 0 with (inject_Z 0). rewrite <- Zlt_Qlt. lia. }
  assert (Hone : 1 <= inject_Z n).
  { change 1 with (inject_Z 1). rewrite <- Zle_Qle. lia. }
  set (d := (w - c) / inject_Z n).
  assert (Hd : d * inject_Z n == w - c).
  { unfold d. field. intros H. rewrite H in Hpos. discriminate. }
  generalize dependent (inject_Z n). intros t Hpos Hone d Hd.
  split; nra.
Qed.

Lemma first_mean (c w : Q) : c + (w - c) / inject_Z 1 == w.
Proof.
  change (inject_Z 1) with 1. field.
Qed.

Lemma find_invariant agentId (table : list AgentStats.t) (s : AgentStats.t) :
  Forall StatsRepository.invariant table ->
  find (fun s => AgentStats.agent_id s =? agentId) table = Some s ->
  StatsRepository.invariant s.
Proof.
  intros Hall Hfind. apply find_some in Hfind.
  rewrite Forall_forall in Hall. now apply Hall.
Qed.

Lemma increment_invariant (db : Db.t) (i : StatsRepository.Increment.t) :
  StatsRepository.accepted i ->
  Forall StatsRepository.invariant (Db.agent_stats db) ->
  Forall StatsRepository.invariant
    (Db.agent_stats (StatsRepository.increment db i)).
Proof.
  intros [Hrating [_ Hweight]] Hall.
  pose proof (weighted_rating_unit _ _ Hrating Hweight) as Hw.
  unfold StatsRepository.increment, StatsRepository.incrementFeedbackWeighted,
    bind, query, StatsRepository.findByAgentId.
  destruct (find _ (Db.agent_stats db)) as [existing |] eqn:Hfind.
  - (* a row exists: UPDATE *)
    pose proof (find_invariant _ _ _ Hall Hfind) as [[Hs0 Hst] Hr].
    unfold StatsRepository.update, StatsRepository.stored.
    cbn [AgentStats.calls_total AgentStats.calls_success
         AgentStats.avg_latency_ms AgentStats.avg_rating
         AgentStats.agent_id AgentStats.last_feedback_at].
    destruct (Pg.integer (AgentStats.calls_total existing + 1))
      as [total |] eqn:Ht; [| exact Hall].
    destruct (Pg.integer _) as [success |] eqn:Hs in |- *; [| exact Hall].
    destruct (Pg.numeric 10 2 _) as [latency |]; [| exact Hall].
    destruct (Pg.numeric 3 2 _) as [rating |] eqn:Hn; [| exact Hall].
    apply integer_same in Ht, Hs. subst total success.
    cbn [fst Db.agent_stats Db.with_agent_stats].
    apply Forall_forall. intros row Hrow.
    apply in_map_iff in Hrow. destruct Hrow as [old [<- Hold]].
    destruct (AgentStats.agent_id old =? _);
      [| rewrite Forall_forall in Hall; now apply Hall].
    split; cbn [AgentStats.calls_total AgentStats.calls_success
                AgentStats.avg_rating].
    + destruct (StatsRepository.Increment.success i); lia.
    + intros _. apply (numeric_3_2_unit _ _) in Hn; [exact Hn |].
      destruct (Z.eq_dec (AgentStats.calls_total existing) 0) as [Hz | Hz].
      * rewrite Hz. change (0 + 1)%Z with 1%Z. rewrite first_mean. exact Hw.
      * rewrite or_default_0. apply running_mean_unit; [lia | | exact Hw].
        apply Hr. lia.
  - (* no row: INSERT *)
    unfold StatsRepository.create, StatsRepository.stored.
    cbn [AgentStats.calls_total AgentStats.calls_success
         AgentStats.avg_latency_ms AgentStats.avg_rating
         AgentStats.agent_id AgentStats.last_feedback_at].
    destruct (Pg.integer 1) as [total |] eqn:Ht; [| exact Hall].
    destruct (Pg.integer
                (if StatsRepository.Increment.success i then 1 else 0)%Z)
      as [success |] eqn:Hs; [| exact Hall].
    destruct (Pg.numeric 10 2 _) as [latency |]; [| exact Hall].
    destruct (Pg.numeric 3 2 _) as [rating |] eqn:Hn; [| exact Hall].
    apply integer_same in Ht, Hs. subst total success.
    cbn [fst Db.agent_stats Db.with_agent_stats].
    apply Forall_app. split; [exact Hall |].
    constructor; [| constructor].
    split; cbn [AgentStats.calls_total AgentStats.calls_success
                AgentStats.avg_rating].
    + destruct (StatsRepository.Increment.success i); lia.
    + intros _. now apply (numeric_3_2_unit _ _ Hw).
Qed.

(** C3: after any series of accepted feedbacks (rating within 0 and 1,
    latency not negative, weight above 0 and at most 1), at every point of
    the series, every statistics row has its successes between 0 and its
    total and, once the total is positive, an average rating within 0 and 1. *)
Theorem stats_invariant_preserved
    (l : list StatsRepository.Increment.t) (db : Db.t) (n : nat) :
  Forall StatsRepository.accepted l ->
  Forall StatsRepository.invariant (Db.agent_stats db) ->
  Forall StatsRepository.invariant
    (Db.agent_stats (StatsRepository.incrementAll (firstn n l) db)).
Proof.
  intros Hl. revert db n.
  induction Hl as [| i l Hi Hl IH]; intros db n Hdb.
  - destruct n; exact Hdb.
  - destruct n as [| n]; [exact Hdb |].
    simpl. apply IH. now apply increment_invariant.
Qed.

Lemma stats_invariant_preserved_witness :
  Forall StatsRepository.invariant
    (Db.agent_stats
       (StatsRepository.incrementAll (firstn 3 Sample.increments)
          (Sample.db [Sample.agent "agent:w" "Global" None]
             [Sample.stats "agent:w" 0 0 0 0] []))).
Proof.
  apply (stats_invariant_preserved Sample.increments
           (Sample.db [Sample.agent "agent:w" "Global" None]
              [Sample.stats "agent:w" 0 0 0 0] []) 3).
  - repeat constructor; cbn; try discriminate.
  - constructor; [| constructor].
    split; cbn; [lia | intros H; lia].
Defined.

(** ** The review reads nothing that it writes *)

Lemma same_owner_refl (l : list Agent.t) :
  Forall2 QuarantineService.same_owner l l.
Proof.
  induction l; constructor; auto. split; reflexivity.
Qed.

Lemma same_but_status_refl (db : Db.t) : QuarantineService.same_but_status db db.
Proof.
  repeat split; auto. apply same_owner_refl.
Qed.

Lemma find_same_owner (x : string) (l l' : list Agent.t) :
  Forall2 QuarantineService.same_owner l l' ->
  match find (fun a => Agent.id a =? x) l,
        find (fun a => Agent.id a =? x) l' with
  | Some a, Some a' => QuarantineService.same_owner a a'
  | None, None => True
  | _, _ => False
  end.
Proof.
  induction 1 as [| a a' l l' [Hid Hcaller] _ IH]; simpl; [exact I |].
  rewrite Hid. destruct (Agent.id a =? x); [split; assumption | exact IH].
Qed.

Lemma getFraudStats_same (agentId : string) (db db' : Db.t) :
  QuarantineService.same_but_status db db' ->
  FeedbackRepository.getFraudStats agentId db'
  = FeedbackRepository.getFraudStats agentId db.
Proof.
  intros [_ [Hfeedbacks [_ [_ Hagents]]]].
  unfold FeedbackRepository.getFraudStats. rewrite Hfeedbacks.
  pose proof (find_same_owner agentId _ _ Hagents) as Hfind.
  destruct (find _ (Db.agents db)) as [a |],
           (find _ (Db.agents db')) as [a' |]; try contradiction.
  - destruct Hfind as [_ ->]. reflexivity.
  - reflexivity.
Qed.

Lemma calculateFraudPercentage_same env (agentId : string) (db db' : Db.t) :
  QuarantineService.same_but_status db db' ->
  FraudDetectionService.calculateFraudPercentage env agentId db'
  = FraudDetectionService.calculateFraudPercentage env agentId db.
Proof.
  intros Hsame. unfold FraudDetectionService.calculateFraudPercentage.
  rewrite (getFraudStats_same _ _ _ Hsame).
  unfold FraudDetectionRepository.getTotalFraudCount.
  destruct Hsame as [_ [_ [-> _]]]. reflexivity.
Qed.

Lemma checkAgentHealth_same env (agentId : string) (db db' : Db.t) :
  QuarantineService.same_but_status db db' ->
  match QuarantineService.checkAgentHealth env agentId db,
        QuarantineService.checkAgentHealth env agentId db' with
  | Some h, Some h' =>
      AgentHealthMetrics.metrics h' = AgentHealthMetrics.metrics h
      /\ AgentHealthMetrics.quarantine_risk h'
         = AgentHealthMetrics.quarantine_risk h
  | None, None => True
  | _, _ => False
  end.
Proof.
  intros Hsame. unfold QuarantineService.checkAgentHealth.
  rewrite (calculateFraudPercentage_same _ _ _ _ Hsame).
  rewrite (getFraudStats_same _ _ _ Hsame).
  unfold AgentRepository.findById, StatsRepository.findByAgentId.
  destruct Hsame as [-> [_ [_ [_ Hagents]]]].
  pose proof (find_same_owner agentId _ _ Hagents) as Hfind.
  destruct (find _ (Db.agents db)) as [a |],
           (find _ (Db.agents db')) as [a' |]; try contradiction; [| exact I].
  destruct (find _ (Db.agent_stats db)) as [stats |]; [| split; reflexivity].
  match goal with
  | |- context [let '(_, _) := ?e in _] => destruct e
  end.
  split; reflexivity.
Qed.

Lemma verdict_same env (agentId : string) (st : AgentStatus) (db db' : Db.t) :
  QuarantineService.same_but_status db db' ->
  QuarantineService.verdict env agentId st db'
  = QuarantineService.verdict env agentId st db.
Proof.
  intros Hsame. unfold QuarantineService.verdict.
  pose proof (checkAgentHealth_same env agentId _ _ Hsame) as Hhealth.
  unfold StatsRepository.findByAgentId.
  destruct Hsame as [-> _].
  destruct (QuarantineService.checkAgentHealth env agentId db) as [h |],
           (QuarantineService.checkAgentHealth env agentId db') as [h' |];
    try contradiction; [| reflexivity].
  destruct Hhealth as [-> ->]. reflexivity.
Qed.

(** ** One step of the review follows the verdict *)

Lemma reviewAgent_spec env (now : Z) (db : Db.t) c (a : Agent.t) :
  Env.isProductionMode env = true ->
  match QuarantineService.verdict env (Agent.id a)
          (QuarantineService.status_or_active (Agent.status a)) db with
  | QuarantineService.Keep =>
      QuarantineService.reviewAgent env now (db, c) a = (db, c)
  | QuarantineService.ToQuarantine =>
      exists reason,
        QuarantineService.reviewAgent env now (db, c) a
        = (AgentRepository.update_where_id now (Agent.id a)
             (Agent.set_status quarantine (Some reason) (Some now)) db,
           QuarantineService.count_quarantined c)
  | QuarantineService.ToActive =>
      QuarantineService.reviewAgent env now (db, c) a
      = (AgentRepository.update_where_id now (Agent.id a)
           (fun a => Agent.set_status active None (Agent.quarantine_at a) a) db,
         QuarantineService.count_reactivated c)
  | QuarantineService.ToBanned =>
      exists reason,
        QuarantineService.reviewAgent env now (db, c) a
        = (AgentRepository.update_where_id now (Agent.id a)
             (Agent.set_status banned (Some reason) (Some now)) db,
           QuarantineService.count_banned c)
  end.
Proof.
  intros Hprod.
  unfold QuarantineService.verdict, QuarantineService.reviewAgent,
    QuarantineService.quarantineAgent, QuarantineService.banAgent,
    QuarantineService.reactivateAgent.
  rewrite Hprod. cbn [negb].
  destruct (QuarantineService.checkAgentHealth env (Agent.id a) db) as [h |];
    [| destruct (StatsRepository.findByAgentId (Agent.id a) db); reflexivity].
  destruct (StatsRepository.findByAgentId (Agent.id a) db) as [stats |].
  - destruct (QuarantineService.status_or_active (Agent.status a)).
    + unfold QuarantineService.threshold1, QuarantineService.at_risk.
      destruct (AgentHealthMetrics.quarantine_risk h); cbn [andb];
        try reflexivity.
      * destruct ((20 <=? AgentStats.calls_total stats)%Z
                  && JS.Qltb (QuarantineService.successRateOf 1 stats) 0.40);
          [eexists; reflexivity |].
        destruct ((15 <=? AgentStats.calls_total stats)%Z
                  && JS.Qltb (JS.or_default (AgentStats.avg_rating stats) 1) 0.3);
          [eexists; reflexivity |].
        destruct ((10 <=? AgentStats.calls_total stats)%Z
                  && JS.Qltb 30000
                       (JS.or_default (AgentStats.avg_latency_ms stats) 0));
          [eexists; reflexivity |].
        destruct (JS.Qltb 50 _); [eexists; reflexivity | reflexivity].
      * destruct ((20 <=? AgentStats.calls_total stats)%Z
                  && JS.Qltb (QuarantineService.successRateOf 1 stats) 0.40);
          [eexists; reflexivity |].
        destruct ((15 <=? AgentStats.calls_total stats)%Z
                  && JS.Qltb (JS.or_default (AgentStats.avg_rating stats) 1) 0.3);
          [eexists; reflexivity |].
        destruct ((10 <=? AgentStats.calls_total stats)%Z
                  && JS.Qltb 30000
                       (JS.or_default (AgentStats.avg_latency_ms stats) 0));
          [eexists; reflexivity |].
        destruct (JS.Qltb 50 _); [eexists; reflexivity | reflexivity].
    + unfold QuarantineService.threshold2, QuarantineService.reactivation.
      match goal with
      | |- context [if ?c then QuarantineService.ToBanned else _] =>
          destruct c
      end; [eexists; reflexivity |].
      match goal with
      | |- context [if ?c then QuarantineService.ToActive else _] =>
          destruct c
      end; reflexivity.
    + reflexivity.
  - destruct (QuarantineService.status_or_active (Agent.status a));
      try reflexivity.
    destruct (AgentHealthMetrics.quarantine_risk h); reflexivity.
Qed.

Lemma rewrite_where_id_same (id : string) (db : Db.t) :
  AgentRepository.rewrite_where_id id (fun a => a) db = db.
Proof.
  unfold AgentRepository.rewrite_where_id, Db.with_agents.
  destruct db as [agents stats feedbacks frauds callers]; simpl. f_equal.
  induction agents as [| a agents IH]; simpl; [reflexivity |].
  rewrite IH. now destruct (Agent.id a =? id).
Qed.

(** Whatever the verdict, a step rewrites the rows of the agent's id with a
    function that keeps the owner and sets the status the verdict names. *)
Lemma reviewAgent_row env (now : Z) (db : Db.t) c (a : Agent.t) :
  Env.isProductionMode env = true ->
  exists g,
    fst (QuarantineService.reviewAgent env now (db, c) a)
    = AgentRepository.rewrite_where_id (Agent.id a) g db
    /\ (forall x, QuarantineService.same_owner x (g x))
    /\ QuarantineService.status_or_active (Agent.status (g a))
       = QuarantineService.status_after
           (QuarantineService.verdict env (Agent.id a)
              (QuarantineService.status_or_active (Agent.status a)) db)
           (QuarantineService.status_or_active (Agent.status a)).
Proof.
  intros Hprod.
  pose proof (reviewAgent_spec env now db c a Hprod) as Hspec.
  destruct (QuarantineService.verdict env (Agent.id a) _ db).
  - exists (fun x => x). rewrite Hspec, rewrite_where_id_same.
    repeat split; reflexivity.
  - destruct Hspec as [reason ->]. eexists. split; [reflexivity |].
    split; [intros x; split; reflexivity | reflexivity].
  - rewrite Hspec. eexists. split; [reflexivity |].
    split; [intros x; split; reflexivity | reflexivity].
  - destruct Hspec as [reason ->]. eexists. split; [reflexivity |].
    split; [intros x; split; reflexivity | reflexivity].
Qed.

Lemma same_owner_ids (l l' : list Agent.t) :
  Forall2 QuarantineService.same_owner l l' ->
  map Agent.id l' = map Agent.id l.
Proof.
  induction 1 as [| a a' l l' [Hid _] _ IH]; simpl; congruence.
Qed.

Lemma reviewed_same_owner env db (l l' : list Agent.t) :
  Forall2 (QuarantineService.reviewed env db) l l' ->
  Forall2 QuarantineService.same_owner l l'.
Proof.
  induction 1 as [| a a' l l' [Hown _] _ IH]; constructor; auto.
Qed.

Lemma map_unless_id (k : string) (g : Agent.t -> Agent.t) (l : list Agent.t) :
  ~ In k (map Agent.id l) ->
  map (fun x => if Agent.id x =? k then g x else x) l = l.
Proof.
  induction l as [| x l IH]; simpl; [reflexivity |].
  intros Hnotin. rewrite IH by tauto.
  destruct (Agent.id x =? k) eqn:Hx; [| reflexivity].
  apply String.eqb_eq in Hx. tauto.
Qed.

Lemma update_row_split (g : Agent.t -> Agent.t) (a : Agent.t)
    (done done' rest : list Agent.t) :
  NoDup (map Agent.id (done ++ a :: rest)%list) ->
  Forall2 QuarantineService.same_owner done done' ->
  map (fun x => if Agent.id x =? Agent.id a then g x else x)
      (done' ++ a :: rest)%list
  = (done' ++ g a :: rest)%list.
Proof.
  intros Hnodup Hdone.
  rewrite map_app in Hnodup. simpl in Hnodup.
  pose proof (NoDup_remove_2 _ _ _ Hnodup) as Hnotin.
  rewrite in_app_iff in Hnotin.
  rewrite map_app. simpl. rewrite String.eqb_refl.
  rewrite !map_unless_id; [reflexivity | tauto |].
  rewrite (same_owner_ids _ _ Hdone). tauto.
Qed.

Lemma same_owner_update (k : string) (g : Agent.t -> Agent.t)
    (l l' : list Agent.t) :
  (forall x, QuarantineService.same_owner x (g x)) ->
  Forall2 QuarantineService.same_owner l l' ->
  Forall2 QuarantineService.same_owner l
    (map (fun x => if Agent.id x =? k then g x else x) l').
Proof.
  intros Hg. induction 1 as [| a a' l l' [Hid Hcaller] _ IH]; simpl;
    constructor; auto.
  destruct (Agent.id a' =? k); [| split; assumption].
  destruct (Hg a') as [Hid' Hcaller']. split; congruence.
Qed.

Lemma same_but_status_update (k : string) (g : Agent.t -> Agent.t)
    (db db' : Db.t) :
  (forall x, QuarantineService.same_owner x (g x)) ->
  QuarantineService.same_but_status db db' ->
  QuarantineService.same_but_status db (AgentRepository.rewrite_where_id k g db').
Proof.
  intros Hg [Hstats [Hfeedbacks [Hfrauds [Hcallers Hagents]]]].
  repeat split; try assumption.
  now apply same_owner_update.
Qed.

(** The loop of the review, agent by agent: the rows already visited carry
    the status their verdict names, the others are as they were. *)
Lemma review_fold env (now : Z) (db0 : Db.t) :
  Env.isProductionMode env = true ->
  forall rest done done' db c,
    QuarantineService.same_but_status db0 db ->
    Db.agents db = (done' ++ rest)%list ->
    NoDup (map Agent.id (done ++ rest)%list) ->
    Forall2 (QuarantineService.reviewed env db0) done done' ->
    exists rest',
      Db.agents (fst (fold_left (QuarantineService.reviewAgent env now) rest
                        (db, c)))
      = (done' ++ rest')%list
      /\ Forall2 (QuarantineService.reviewed env db0) rest rest'
      /\ QuarantineService.same_but_status db0
           (fst (fold_left (QuarantineService.reviewAgent env now) rest
                   (db, c))).
Proof.
  intros Hprod.
  induction rest as [| a rest IH]; intros done done' db c Hsame Hagents Hnodup Hdone.
  - exists []. simpl.
    split; [exact Hagents | split; [constructor | exact Hsame]].
  - cbn [fold_left].
    destruct (reviewAgent_row env now db c a Hprod) as [g [Hstep [Hg Hstatus]]].
    destruct (QuarantineService.reviewAgent env now (db, c) a) as [db2 c2].
    simpl in Hstep. subst db2.
    rewrite (verdict_same env _ _ _ _ Hsame) in Hstatus.
    assert (Hrows : Db.agents (AgentRepository.rewrite_where_id (Agent.id a) g db)
                    = ((done' ++ [g a]) ++ rest)%list).
    { unfold AgentRepository.rewrite_where_id. simpl. rewrite Hagents.
      rewrite (update_row_split g a done done' rest Hnodup
                 (reviewed_same_owner _ _ _ _ Hdone)).
      now rewrite <- app_assoc. }
    destruct (IH (done ++ [a])%list (done' ++ [g a])%list
                (AgentRepository.rewrite_where_id (Agent.id a) g db) c2)
      as [rest' [Hrest' [Hreviewed Hsame']]].
    + now apply same_but_status_update.
    + exact Hrows.
    + now rewrite <- app_assoc.
    + apply Forall2_app; [exact Hdone |].
      constructor; [| constructor]. split; [apply Hg | exact Hstatus].
    + exists (g a :: rest'). rewrite Hrest', <- app_assoc.
      split; [reflexivity |]. split; [| exact Hsame'].
      constructor; [| exact Hreviewed].
      split; [apply Hg | exact Hstatus].
Qed.

Lemma review_fold_keep env (now : Z) (db : Db.t) :
  Env.isProductionMode env = true ->
  forall rest c,
    (forall a, In a rest ->
       QuarantineService.verdict env (Agent.id a)
         (QuarantineService.status_or_active (Agent.status a)) db
       = QuarantineService.Keep) ->
    fold_left (QuarantineService.reviewAgent env now) rest (db, c) = (db, c).
Proof.
  intros Hprod. induction rest as [| a rest IH]; intros c Hkeep;
    cbn [fold_left].
  - reflexivity.
  - pose proof (reviewAgent_spec env now db c a Hprod) as Hspec.
    rewrite (Hkeep a (or_introl eq_refl)) in Hspec. rewrite Hspec.
    apply IH. intros x Hx. apply Hkeep. now right.
Qed.

Lemma Forall2_In_r {A B} (R : A -> B -> Prop) (l : list A) (l' : list B) (y : B) :
  Forall2 R l l' -> In y l' -> exists x, In x l /\ R x y.
Proof.
  induction 1 as [| a b l l' Hab _ IH]; simpl; [contradiction |].
  intros [<- | Hy].
  - exists a. auto.
  - destruct (IH Hy) as [x [Hx Hxy]]. exists x. auto.
Qed.

(** ** Two reviews in a row *)

(** C5, as the code has it: a second review right after a first one (same
    statistics, same feedbacks, same fraud log) changes nothing and counts
    nothing, provided that for every agent the status the first review
    leaves it in has no threshold of its own that the agent meets: an agent
    the first review quarantines meets neither Threshold 2 nor the
    reactivation conditions, an agent it reactivates does not meet
    Threshold 1. *)
Theorem auto_review_settled (env : Env.t) (now now' : Z) (db : Db.t) :
  NoDup (map Agent.id (Db.agents db)) ->
  (forall a, In a (Db.agents db) ->
     let current := QuarantineService.status_or_active (Agent.status a) in
     let first := QuarantineService.verdict env (Agent.id a) current db in
     QuarantineService.verdict env (Agent.id a)
       (QuarantineService.status_after first current) db
     = QuarantineService.Keep) ->
  let reviewed := fst (QuarantineService.autoReviewAgents env now db) in
  QuarantineService.autoReviewAgents env now' reviewed
  = (reviewed, QuarantineService.zero_counts).
Proof.
  intros Hnodup Hsettled. cbv zeta in *.
  unfold QuarantineService.autoReviewAgents,
    QuarantineService.autoReviewAgents_of.
  destruct (Env.isProductionMode env) eqn:Hprod; cbn [negb fst];
    [| reflexivity].
  unfold AgentRepository.findAll.
  destruct (review_fold env now db Hprod (Db.agents db) [] [] db
              {| QuarantineService.Counts.quarantined := 0;
                 QuarantineService.Counts.reactivated := 0;
                 QuarantineService.Counts.banned := 0 |}
              (same_but_status_refl db) eq_refl Hnodup (Forall2_nil _))
    as [rows [Hrows [Hreviewed Hsame]]].
  simpl in Hrows.
  apply review_fold_keep; [exact Hprod |].
  intros a' Ha'. rewrite Hrows in Ha'.
  destruct (Forall2_In_r _ _ _ _ Hreviewed Ha') as [a [Ha [[Hid _] Hstatus]]].
  rewrite (verdict_same env _ _ _ _ Hsame).
  rewrite Hid, Hstatus. now apply Hsettled.
Qed.

Lemma auto_review_settled_witness :
  let reviewed :=
    fst (QuarantineService.autoReviewAgents Sample.production 0 Sample.failing)
  in
  map Agent.status (Db.agents reviewed) = [Some quarantine]
  /\ QuarantineService.autoReviewAgents Sample.production 86400000 reviewed
     = (reviewed, QuarantineService.zero_counts).
Proof.
  split; [vm_compute; reflexivity |].
  apply (auto_review_settled Sample.production 0 86400000 Sample.failing).
  - repeat constructor. simpl. tauto.
  - intros a [<- | []]. vm_compute. reflexivity.
Defined.

(** C5 as stated fails: an active agent with 4 successes in 40 calls is
    quarantined by a first review and banned by a second one over the same
    statistics, which counts one banned agent. *)
Lemma second_review_bans :
  let first :=
    QuarantineService.autoReviewAgents Sample.production 0 Sample.hopeless in
  let second :=
    QuarantineService.autoReviewAgents Sample.production 86400000 (fst first) in
  Db.agent_stats (fst first) = Db.agent_stats Sample.hopeless
  /\ map Agent.status (Db.agents (fst first)) = [Some quarantine]
  /\ map Agent.status (Db.agents (fst second)) = [Some banned]
  /\ snd second
     = {| QuarantineService.Counts.quarantined := 0;
          QuarantineService.Counts.reactivated := 0;
          QuarantineService.Counts.banned := 1 |}.
Proof.
  cbv zeta. repeat split; vm_compute; reflexivity.
Qed.

(** ** The fraud analysis writes only to the fraud log *)

Lemma same_but_frauds_refl (db : Db.t) : FeedbackService.same_but_frauds db db.
Proof.
  repeat split.
Qed.

Lemma same_but_frauds_trans (db1 db2 db3 : Db.t) :
  FeedbackService.same_but_frauds db1 db2 ->
  FeedbackService.same_but_frauds db2 db3 ->
  FeedbackService.same_but_frauds db1 db3.
Proof.
  intros [H1 [H2 [H3 H4]]] [H1' [H2' [H3' H4']]].
  repeat split; congruence.
Qed.

(** A branch that returns at once: the database is as it was. *)
Ltac returns_unchanged :=
  let H := fresh in
  intros H; injection H as <- <-;
  split; [apply same_but_frauds_refl | eexists; reflexivity].

Lemma fraud_create_inv now agentId consumerId fraudType sev det db db' res :
  FraudDetectionRepository.create now agentId consumerId fraudType sev det db
  = (db', res) ->
  FeedbackService.same_but_frauds db db' /\ exists row, res = Ok row.
Proof.
  unfold FraudDetectionRepository.create. intros H. injection H as <- <-.
  split; [repeat split | eexists; reflexivity].
Qed.

Lemma detectSelfRating_inv env now consumerId agentId db db' res :
  FraudDetectionService.detectSelfRating env now consumerId agentId db
  = (db', res) ->
  FeedbackService.same_but_frauds db db' /\ exists p, res = Ok p.
Proof.
  unfold FraudDetectionService.detectSelfRating, bind, query, ret.
  destruct (negb (Env.isProductionMode env)).
  { returns_unchanged. }
  destruct (AgentRepository.findById agentId db) as [agent |].
  2:{ returns_unchanged. }
  destruct (Agent.caller_id agent) as [callerId |].
  2:{ returns_unchanged. }
  destruct (negb (JS.truthy callerId)).
  { returns_unchanged. }
  destruct (consumerId =? callerId).
  2:{ returns_unchanged. }
  destruct (FraudDetectionRepository.create _ _ _ _ _ _ db) as [db1 r] eqn:Hc.
  apply fraud_create_inv in Hc. destruct Hc as [Hsame [row ->]].
  intros H. injection H as <- <-.
  split; [exact Hsame | eexists; reflexivity].
Qed.

Lemma detectSpam_inv env now consumerId agentId db db' res :
  Env.isProductionMode env = true ->
  FraudDetectionService.detectSpam env now consumerId agentId db = (db', res) ->
  FeedbackService.same_but_frauds db db'
  /\ res = Ok (10 <? FeedbackRepository.countRecentByConsumerAndAgent
                       now consumerId agentId 1 db)%Z.
Proof.
  intros Hprod.
  unfold FraudDetectionService.detectSpam, bind, query, ret.
  rewrite Hprod. cbn [negb].
  destruct (10 <? _)%Z.
  - destruct (FraudDetectionRepository.create _ _ _ _ _ _ db) as [db1 r] eqn:Hc.
    apply fraud_create_inv in Hc. destruct Hc as [Hsame [row ->]].
    intros H. injection H as <- <-. split; [exact Hsame | reflexivity].
  - intros H. injection H as <- <-.
    split; [apply same_but_frauds_refl | reflexivity].
Qed.

Lemma calculateFeedbackWeight_inv Math_log env consumerId agentId db db' res :
  FraudDetectionService.calculateFeedbackWeight Math_log env consumerId agentId db
  = (db', res) ->
  db' = db /\ exists w, res = Ok w.
Proof.
  unfold FraudDetectionService.calculateFeedbackWeight, bind, query, ret.
  destruct (negb (Env.isProductionMode env)).
  { intros H. injection H as <- <-. split; [| eexists]; reflexivity. }
  destruct (_ =? 0)%Z; intros H; injection H as <- <-;
    (split; [| eexists]; reflexivity).
Qed.

Lemma detectRatingPatterns_inv env now agentId db db' res :
  FraudDetectionService.detectRatingPatterns env now agentId db = (db', res) ->
  FeedbackService.same_but_frauds db db' /\ exists b, res = Ok b.
Proof.
  unfold FraudDetectionService.detectRatingPatterns, bind, query, ret.
  destruct (negb (Env.isProductionMode env)).
  { returns_unchanged. }
  destruct (_ && _).
  - destruct (FraudDetectionRepository.create _ _ _ _ _ _ db) as [db1 r] eqn:Hc.
    apply fraud_create_inv in Hc. destruct Hc as [Hsame [row ->]].
    intros H. injection H as <- <-.
    split; [exact Hsame | eexists; reflexivity].
  - returns_unchanged.
Qed.

Lemma countRecent_same now consumerId agentId hours db db' :
  FeedbackService.same_but_frauds db db' ->
  FeedbackRepository.countRecentByConsumerAndAgent now consumerId agentId hours db'
  = FeedbackRepository.countRecentByConsumerAndAgent now consumerId agentId hours db.
Proof.
  intros [_ [_ [H _]]].
  unfold FeedbackRepository.countRecentByConsumerAndAgent. now rewrite H.
Qed.

Lemma analyzeFeedback_inv Math_log env now consumerId agentId db db' res :
  Env.isProductionMode env = true ->
  FraudDetectionService.analyzeFeedback Math_log env now consumerId agentId db
  = (db', res) ->
  FeedbackService.same_but_frauds db db'
  /\ exists analysis,
       res = Ok analysis
       /\ FraudDetectionService.Analysis.shouldBlock analysis
          = (10 <? FeedbackRepository.countRecentByConsumerAndAgent
                     now consumerId agentId 1 db)%Z.
Proof.
  intros Hprod.
  unfold FraudDetectionService.analyzeFeedback.
  rewrite Hprod. cbn [negb]. unfold bind at 1.
  destruct (FraudDetectionService.detectSelfRating env now consumerId agentId db)
    as [db1 r1] eqn:H1.
  apply detectSelfRating_inv in H1. destruct H1 as [Hsame1 [selfRating ->]].
  unfold bind at 1.
  destruct (FraudDetectionService.detectSpam env now consumerId agentId db1)
    as [db2 r2] eqn:H2.
  apply (detectSpam_inv _ _ _ _ _ _ _ Hprod) in H2. destruct H2 as [Hsame2 ->].
  rewrite (countRecent_same _ _ _ _ _ _ Hsame1).
  destruct (10 <? _)%Z eqn:Hspam.
  - unfold ret. intros H. injection H as <- <-.
    split; [eapply same_but_frauds_trans; eauto |].
    eexists. split; reflexivity.
  - unfold bind at 1.
    destruct (FraudDetectionService.calculateFeedbackWeight
                Math_log env consumerId agentId db2) as [db3 r3] eqn:H3.
    apply calculateFeedbackWeight_inv in H3. destruct H3 as [-> [w ->]].
    unfold bind at 1.
    destruct (FraudDetectionService.detectRatingPatterns env now agentId db2)
      as [db4 r4] eqn:H4.
    apply detectRatingPatterns_inv in H4. destruct H4 as [Hsame4 [b ->]].
    unfold ret. intros H. injection H as <- <-.
    split; [repeat (eapply same_but_frauds_trans; eauto) |].
    eexists. split; reflexivity.
Qed.

(** ** One submission, step by step *)

Ltac not_spam :=
  let H := fresh in
  intros H; vm_compute in H; discriminate H.

Lemma validateRequest_inv (request : FeedbackRequest.t) (db db' : Db.t) res :
  FeedbackService.validateRequest request db = (db', res) ->
  db' = db
  /\ (res = Ok tt
      \/ exists e, res = Err e /\ e <> FeedbackService.spam_message).
Proof.
  unfold FeedbackService.validateRequest, throw, ret.
  destruct (_ || _).
  { intros H. injection H as <- <-. split; [reflexivity |].
    right. eexists. split; [reflexivity | not_spam]. }
  destruct (JS.Qltb _ 0).
  { intros H. injection H as <- <-. split; [reflexivity |].
    right. eexists. split; [reflexivity | not_spam]. }
  destruct (_ || _).
  { intros H. injection H as <- <-. split; [reflexivity |].
    right. eexists. split; [reflexivity | not_spam]. }
  intros H. injection H as <- <-. auto.
Qed.

Lemma validateRequest_ok (request : FeedbackRequest.t) (db : Db.t) :
  JS.truthy (FeedbackRequest.agent_id request) = true ->
  JS.trim (FeedbackRequest.agent_id request) <> EmptyString ->
  0 <= FeedbackRequest.latency_ms request ->
  0 <= FeedbackRequest.rating request <= 1 ->
  FeedbackService.validateRequest request db = (db, Ok tt).
Proof.
  intros Hid Htrim Hlatency [Hr0 Hr1].
  unfold FeedbackService.validateRequest.
  rewrite Hid. apply String.eqb_neq in Htrim. rewrite Htrim. cbn [negb orb].
  unfold JS.Qltb.
  apply Qle_bool_iff in Hlatency, Hr0, Hr1.
  rewrite Hlatency, Hr0, Hr1. reflexivity.
Qed.

Lemma feedback_create_inv now agentId consumerId succ latencyMs rating db db' res :
  FeedbackRepository.create now agentId consumerId succ latencyMs rating db
  = (db', res) ->
  Db.agents db' = Db.agents db
  /\ Db.agent_stats db' = Db.agent_stats db
  /\ ((exists row,
         res = Ok row
         /\ Db.agent_feedbacks db' = (Db.agent_feedbacks db ++ [row])%list
         /\ Pg.varchar 255 consumerId = Some (AgentFeedback.consumer_id row)
         /\ Pg.varchar 255 agentId = Some (AgentFeedback.agent_id row)
         /\ AgentFeedback.created_at row = now)
      \/ (db' = db
          /\ exists e, res = Err e /\ e <> FeedbackService.spam_message)).
Proof.
  unfold FeedbackRepository.create.
  assert (Hrefused : forall e : string,
            e <> FeedbackService.spam_message ->
            (db, Err e) = (db', res) ->
            Db.agents db' = Db.agents db
            /\ Db.agent_stats db' = Db.agent_stats db
            /\ ((exists row,
                   res = Ok row
                   /\ Db.agent_feedbacks db'
                      = (Db.agent_feedbacks db ++ [row])%list
                   /\ Pg.varchar 255 consumerId
                      = Some (AgentFeedback.consumer_id row)
                   /\ Pg.varchar 255 agentId
                      = Some (AgentFeedback.agent_id row)
                   /\ AgentFeedback.created_at row = now)
                \/ (db' = db
                    /\ exists e, res = Err e
                                 /\ e <> FeedbackService.spam_message))).
  { intros e He H. injection H as <- <-. repeat split. right.
    split; [reflexivity | eauto]. }
  destruct (Pg.varchar 255 agentId) as [a |];
    [| apply Hrefused; not_spam].
  destruct (Pg.varchar 255 consumerId) as [c |];
    [| apply Hrefused; not_spam].
  destruct (Pg.numeric 10 2 latencyMs) as [l |];
    [| apply Hrefused; not_spam].
  destruct (Pg.numeric 3 2 rating) as [r |];
    [| apply Hrefused; not_spam].
  destruct (_ && _); [| apply Hrefused; not_spam].
  destruct (_ && _); [| apply Hrefused; not_spam].
  intros H. injection H as <- <-. repeat split. left.
  eexists. repeat split.
Qed.


Lemma find_app_none {A} (p : A -> bool) (l : list A) (x : A) :
  find p l = None -> p x = true -> find p (l ++ [x]) = Some x.
Proof.
  induction l as [| y l IH]; simpl; intros Hnone Hx.
  - now rewrite Hx.
  - destruct (p y); [discriminate | auto].
Qed.

Lemma find_map_replace {A} (p : A -> bool) (l : list A) (x row : A) :
  find p l = Some x -> p row = true ->
  find p (map (fun s => if p s then row else s) l) = Some row.
Proof.
  induction l as [| y l IH]; simpl; intros Hfind Hrow; [discriminate |].
  destruct (p y) eqn:Hy.
  - now rewrite Hrow.
  - rewrite Hy. auto.
Qed.

Lemma stored_inv (s : AgentStats.t) res :
  StatsRepository.stored s = res ->
  (exists row,
     res = Ok row
     /\ AgentStats.agent_id row = AgentStats.agent_id s
     /\ AgentStats.calls_total row = AgentStats.calls_total s)
  \/ exists e, res = Err e /\ e <> FeedbackService.spam_message.
Proof.
  unfold StatsRepository.stored. intros <-.
  destruct (Pg.integer (AgentStats.calls_total s)) as [total |] eqn:Ht.
  2:{ right. eexists. split; [reflexivity | not_spam]. }
  destruct (Pg.integer (AgentStats.calls_success s)) as [success |].
  2:{ right. eexists. split; [reflexivity | not_spam]. }
  destruct (Pg.numeric 10 2 _) as [latency |].
  2:{ right. eexists. split; [reflexivity | not_spam]. }
  destruct (Pg.numeric 3 2 _) as [rating |].
  2:{ right. eexists. split; [reflexivity | not_spam]. }
  left. eexists. repeat split. simpl. now apply integer_same.
Qed.

Lemma incrementFeedbackWeighted_inv now agentId success latencyMs rating weight
    db db' res :
  StatsRepository.incrementFeedbackWeighted now agentId success latencyMs rating
    weight db = (db', res) ->
  Db.agents db' = Db.agents db
  /\ Db.agent_feedbacks db' = Db.agent_feedbacks db
  /\ ((exists row,
         res = Ok row
         /\ FeedbackService.calls_total_of agentId db'
            = (FeedbackService.calls_total_of agentId db + 1)%Z)
      \/ (db' = db
          /\ exists e, res = Err e /\ e <> FeedbackService.spam_message)).
Proof.
  unfold StatsRepository.incrementFeedbackWeighted, bind, query,
    FeedbackService.calls_total_of.
  destruct (StatsRepository.findByAgentId agentId db) as [existing |] eqn:Hfind.
  - unfold StatsRepository.update.
    match goal with
    | |- context [StatsRepository.stored ?s] =>
        destruct (stored_inv s _ eq_refl) as [[row [-> [Hid Htotal]]] | [e [-> He]]]
    end.
    + intros H. injection H as <- <-. repeat split. left.
      exists row. split; [reflexivity |].
      unfold StatsRepository.findByAgentId in *.
      cbn [Db.agent_stats Db.with_agent_stats AgentStats.agent_id].
      rewrite (find_map_replace _ _ existing row Hfind).
      * exact Htotal.
      * rewrite Hid. apply String.eqb_refl.
    + intros H. injection H as <- <-. repeat split. right.
      split; [reflexivity | eauto].
  - unfold StatsRepository.create.
    match goal with
    | |- context [StatsRepository.stored ?s] =>
        destruct (stored_inv s _ eq_refl) as [[row [-> [Hid Htotal]]] | [e [-> He]]]
    end.
    + intros H. injection H as <- <-. repeat split. left.
      exists row. split; [reflexivity |].
      unfold StatsRepository.findByAgentId in *.
      cbn [Db.agent_stats Db.with_agent_stats].
      rewrite (find_app_none _ _ row Hfind).
      * exact Htotal.
      * rewrite Hid. apply String.eqb_refl.
    + intros H. injection H as <- <-. repeat split. right.
      split; [reflexivity | eauto].
Qed.



(** ** Counting rows *)


Lemma count_bounds {A} (p : A -> bool) (l : list A) :
  (0 <= count p l <= Z.of_nat (List.length l))%Z.
Proof.
  unfold count. pose proof (filter_length_le p l). lia.
Qed.



Lemma count_le {A} (p q : A -> bool) (l : list A) :
  (forall x, p x = true -> q x = true) -> (count p l <= count q l)%Z.
Proof.
  intros Hpq. unfold count.
  induction l as [| x l IH]; simpl; [lia |].
  destruct (p x) eqn:Hp.
  - rewrite (Hpq x Hp). simpl. lia.
  - destruct (q x); simpl; lia.
Qed.

Lemma countRecent_le_count now consumerId agentId hours db :
  (FeedbackRepository.countRecentByConsumerAndAgent now consumerId agentId hours db
   <= FeedbackRepository.countByConsumerAndAgent consumerId agentId db)%Z.
Proof.
  apply count_le. intros f H. now apply andb_true_iff in H.
Qed.

(** ** The rule of the spam check *)

Lemma submitFeedback_spam Math_log env now request db :
  Env.isProductionMode env = true ->
  JS.truthy (FeedbackRequest.agent_id request) = true ->
  JS.trim (FeedbackRequest.agent_id request) <> EmptyString ->
  0 <= FeedbackRequest.latency_ms request ->
  0 <= FeedbackRequest.rating request <= 1 ->
  (FeedbackRepository.countRecentByConsumer now
     (FeedbackRequest.consumer_id request) 1 db < 60)%Z ->
  AgentRepository.findById (FeedbackRequest.agent_id request) db <> None ->
  (10 < FeedbackRepository.countRecentByConsumerAndAgent now
          (FeedbackRequest.consumer_id request)
          (FeedbackRequest.agent_id request) 1 db)%Z ->
  snd (FeedbackService.submitFeedback Math_log env now request db)
  = Err FeedbackService.spam_message.
Proof.
  intros Hprod Hid Htrim Hlatency Hrating Hrate Hagent Hspam.
  unfold FeedbackService.submitFeedback.
  unfold bind at 1.
  rewrite (validateRequest_ok request db Hid Htrim Hlatency Hrating).
  unfold bind at 1, query at 1.
  apply Z.ltb_lt in Hrate. rewrite Z.leb_antisym, Hrate. cbn [negb].
  unfold bind at 1, query at 1.
  destruct (AgentRepository.findById _ db) as [agent |]; [| contradiction].
  unfold bind at 1.
  destruct (FraudDetectionService.analyzeFeedback _ _ _ _ _ db)
    as [db2 r2] eqn:Ha.
  apply (analyzeFeedback_inv _ _ _ _ _ _ _ _ Hprod) in Ha.
  destruct Ha as [_ [analysis [-> Hblock]]].
  rewrite Hblock. apply Z.ltb_lt in Hspam. rewrite Hspam. reflexivity.
Qed.

(** ** What the review does with a low rating that is not zero *)

Lemma Forall2_In_l {A B} (R : A -> B -> Prop) (l : list A) (l' : list B) (x : A) :
  Forall2 R l l' -> In x l -> exists y, In y l' /\ R x y.
Proof.
  induction 1 as [| a b l l' Hab _ IH]; simpl; [contradiction |].
  intros [<- | Hx].
  - exists b. auto.
  - destruct (IH Hx) as [y [Hy Hxy]]. exists y. auto.
Qed.

Lemma flag_keeps_risk (cond : bool) (warning : string) (risk : QuarantineRisk)
    (acc : list string * QuarantineRisk) :
  QuarantineService.at_risk risk = true ->
  QuarantineService.at_risk (snd acc) = true ->
  QuarantineService.at_risk
    (snd (QuarantineService.flag cond warning risk acc)) = true.
Proof.
  intros Hrisk Hacc. unfold QuarantineService.flag. now destruct cond.
Qed.

Lemma or_default_nonzero (v d : Q) : ~ v == 0 -> JS.or_default v d = v.
Proof.
  intros Hv. unfold JS.or_default.
  destruct (Qeq_bool v 0) eqn:H; [| reflexivity].
  apply Qeq_bool_iff in H. contradiction.
Qed.

Lemma Qltb_lt (x y : Q) : JS.Qltb x y = true <-> x < y.
Proof.
  unfold JS.Qltb. rewrite negb_true_iff.
  split.
  - intros H. apply Qnot_le_lt. intros Hle.
    apply Qle_bool_iff in Hle. congruence.
  - intros H. destruct (Qle_bool y x) eqn:Hle; [| reflexivity].
    apply Qle_bool_iff in Hle. exfalso. now apply (Qlt_not_le x y).
Qed.

(** X1: in production the review quarantines every active agent with at
    least 15 calls and an average rating below 0.3, as long as that average
    is not exactly 0. *)
Lemma low_rating_agent_quarantined
    (env : Env.t) (now : Z) (db : Db.t) (a : Agent.t) (stats : AgentStats.t) :
  Env.isProductionMode env = true ->
  NoDup (map Agent.id (Db.agents db)) ->
  In a (Db.agents db) ->
  QuarantineService.status_or_active (Agent.status a) = active ->
  StatsRepository.findByAgentId (Agent.id a) db = Some stats ->
  (15 <= AgentStats.calls_total stats)%Z ->
  AgentStats.avg_rating stats < 0.3 ->
  ~ AgentStats.avg_rating stats == 0 ->
  exists a',
    In a' (Db.agents (fst (QuarantineService.autoReviewAgents env now db)))
    /\ Agent.id a' = Agent.id a
    /\ Agent.status a' = Some quarantine.
Proof.
  intros Hprod Hnodup Ha Hactive Hstats Htotal Hlow Hnonzero.
  unfold QuarantineService.autoReviewAgents,
    QuarantineService.autoReviewAgents_of, AgentRepository.findAll.
  rewrite Hprod. cbn [negb].
  destruct (review_fold env now db Hprod (Db.agents db) [] [] db
              {| QuarantineService.Counts.quarantined := 0;
                 QuarantineService.Counts.reactivated := 0;
                 QuarantineService.Counts.banned := 0 |}
              (same_but_status_refl db) eq_refl Hnodup (Forall2_nil _))
    as [rows [Hrows [Hreviewed _]]].
  simpl in Hrows. rewrite Hrows.
  destruct (Forall2_In_l _ _ _ _ Hreviewed Ha) as [a' [Ha' [[Hid _] Hstatus]]].
  exists a'. split; [exact Ha' |]. split; [exact Hid |].
  assert (Hverdict : QuarantineService.verdict env (Agent.id a) active db
                     = QuarantineService.ToQuarantine).
  { unfold QuarantineService.verdict, QuarantineService.checkAgentHealth.
    assert (Hfound : exists x, AgentRepository.findById (Agent.id a) db = Some x).
    { unfold AgentRepository.findById.
      destruct (find _ (Db.agents db)) as [x |] eqn:Hfind; [eauto |].
      exfalso. apply (find_none _ _ Hfind) in Ha.
      now rewrite String.eqb_refl in Ha. }
    destruct Hfound as [x ->]. rewrite Hstats.
    assert (Hcond : (15 <=? AgentStats.calls_total stats)%Z
                    && JS.Qltb (AgentStats.avg_rating stats) 0.3 = true).
    { apply andb_true_iff. split; [now apply Z.leb_le | now apply Qltb_lt]. }
    rewrite (or_default_nonzero _ 0 Hnonzero).
    match goal with
    | |- context [let '(_, _) := ?e in _] =>
        assert (Hrisk : QuarantineService.at_risk (snd e) = true);
        [| destruct e as [warnings risk] ]
    end.
    { do 6 (apply flag_keeps_risk; [reflexivity |]).
      rewrite Hcond. reflexivity. }
    cbn [snd] in Hrisk.
    cbn [AgentHealthMetrics.quarantine_risk AgentHealthMetrics.metrics
         Metrics.fraud_percentage].
    rewrite Hrisk. cbn [andb].
    unfold QuarantineService.threshold1.
    rewrite (or_default_nonzero _ 1 Hnonzero), Hcond.
    now rewrite orb_true_r. }
  rewrite Hactive, Hverdict in Hstatus. cbn in Hstatus.
  destruct (Agent.status a') as [st |]; cbn in Hstatus; congruence.
Qed.

Lemma low_rating_agent_quarantined_witness :
  exists a',
    In a' (Db.agents
             (fst (QuarantineService.autoReviewAgents Sample.production 0
                     (Sample.db [Sample.agent "agent:w" "Global" (Some active)]
                        [Sample.stats "agent:w" 15 15 100 0.1] []))))
    /\ Agent.id a' = "agent:w"
    /\ Agent.status a' = Some quarantine.
Proof.
  apply (low_rating_agent_quarantined Sample.production 0
           (Sample.db [Sample.agent "agent:w" "Global" (Some active)]
              [Sample.stats "agent:w" 15 15 100 0.1] [])
           (Sample.agent "agent:w" "Global" (Some active))
           (Sample.stats "agent:w" 15 15 100 0.1) eq_refl).
  - repeat constructor. simpl. tauto.
  - left. reflexivity.
  - reflexivity.
  - reflexivity.
  - cbn. lia.
  - reflexivity.
  - discriminate.
Defined.

(** ** A placeholder location and the geo filter *)

(** X2: for a request whose location is one of the placeholder texts,
    whatever its case, the result filter asks for the minimum score only. *)
Lemma placeholder_location_no_geo_filter
    (location : string) (agent : AgentWithScore.t) :
  In (JS.toLowerCase location) ["null"; "undefined"; "none"; "n/a"] ->
  SearchService.normalizeLocation (Some location) = None
  /\ SearchService.passes_filter
       (SearchService.normalizeLocation (Some location)) agent
     = Qle_bool 0.4 (AgentWithScore.score agent).
Proof.
  intros Hin.
  assert (Hnone : SearchService.normalizeLocation (Some location) = None).
  { unfold SearchService.normalizeLocation.
    destruct (JS.truthy location); [| reflexivity]. cbn [negb].
    destruct Hin as [<- | [<- | [<- | [<- | []]]]];
      rewrite ?String.eqb_refl, ?orb_true_r; reflexivity. }
  split; [exact Hnone |].
  rewrite Hnone. unfold SearchService.passes_filter. cbn.
  now rewrite andb_true_r.
Qed.

Lemma placeholder_location_no_geo_filter_witness :
  SearchService.normalizeLocation (Some "N/A") = None.
Proof.
  apply (placeholder_location_no_geo_filter "N/A"
           {| AgentWithScore.agent := Sample.agent "agent:w" "Global" None;
              AgentWithScore.stats := None; AgentWithScore.score := 0 |}).
  right. right. right. left. reflexivity.
Defined.

(** * Further properties of the services *)

(** ** Maxima, minima and ratios *)

Lemma Math_max_cases (x y : Q) :
  (x <= y /\ JS.Math_max x y = y) \/ (y < x /\ JS.Math_max x y = x).
Proof.
  unfold JS.Math_max. destruct (Qle_bool x y) eqn:H.
  - left. split; [now apply Qle_bool_iff | reflexivity].
  - right. split; [| reflexivity]. apply Qnot_le_lt. intros Hle.
    apply Qle_bool_iff in Hle. congruence.
Qed.

Lemma Math_min_cases (x y : Q) :
  (x <= y /\ JS.Math_min x y = x) \/ (y < x /\ JS.Math_min x y = y).
Proof.
  unfold JS.Math_min. destruct (Qle_bool x y) eqn:H.
  - left. split; [now apply Qle_bool_iff | reflexivity].
  - right. split; [| reflexivity]. apply Qnot_le_lt. intros Hle.
    apply Qle_bool_iff in Hle. congruence.
Qed.

Lemma Math_max_range (lo hi x y : Q) :
  lo <= x <= hi -> lo <= y <= hi -> lo <= JS.Math_max x y <= hi.
Proof.
  intros Hx Hy. destruct (Math_max_cases x y) as [[_ ->] | [_ ->]]; assumption.
Qed.

Lemma Math_max_ge_l (x y : Q) : x <= JS.Math_max x y.
Proof.
  destruct (Math_max_cases x y) as [[H ->] | [H ->]]; [exact H | apply Qle_refl].
Qed.

Lemma Math_max_ge_r (x y : Q) : y <= JS.Math_max x y.
Proof.
  destruct (Math_max_cases x y) as [[H ->] | [H ->]];
    [apply Qle_refl | now apply Qlt_le_weak].
Qed.

Lemma Math_min_le_l (x y : Q) : JS.Math_min x y <= x.
Proof.
  destruct (Math_min_cases x y) as [[H ->] | [H ->]];
    [apply Qle_refl | now apply Qlt_le_weak].
Qed.

Lemma Math_min_le_r (x y : Q) : JS.Math_min x y <= y.
Proof.
  destruct (Math_min_cases x y) as [[H ->] | [H ->]]; [exact H | apply Qle_refl].
Qed.

Lemma Math_min_ge (lo x y : Q) : lo <= x -> lo <= y -> lo <= JS.Math_min x y.
Proof.
  intros Hx Hy. destruct (Math_min_cases x y) as [[_ ->] | [_ ->]]; assumption.
Qed.

Lemma fold_left_invariant {A B} (P : A -> Prop) (f : A -> B -> A)
    (l : list B) (a : A) :
  P a -> (forall a b, P a -> P (f a b)) -> P (fold_left f l a).
Proof.
  intros Ha Hf. revert a Ha.
  induction l as [| b l IH]; intros a Ha; simpl; [exact Ha |].
  apply IH, Hf, Ha.
Qed.

(** A part of a whole, as a ratio. *)
Lemma ratio_range (m n : Z) :
  (0 <= m <= n)%Z -> (0 < n)%Z -> 0 <= inject_Z m / inject_Z n <= 1.
Proof.
  intros [Hm Hmn] Hn.
  assert (Hn' : 0 < inject_Z n) by (now rewrite (Zlt_Qlt 0 n) in Hn).
  split.
  - apply Qle_shift_div_l; [exact Hn' |].
    rewrite Qmult_0_l. now rewrite (Zle_Qle 0 m) in Hm.
  - apply Qle_shift_div_r; [exact Hn' |].
    rewrite Qmult_1_l. now rewrite <- Zle_Qle.
Qed.

Lemma length_filter_le {A} (p : A -> bool) (l : list A) :
  (List.length (filter p l) <= List.length l)%nat.
Proof.
  induction l as [| x l IH]; simpl; [lia |].
  destruct (p x); simpl; lia.
Qed.

(** ** The factors of the score *)

Lemma calculateLatencyScore_range (avgLatencyMs : Q) :
  0.2 <= SearchService.calculateLatencyScore avgLatencyMs <= 1.
Proof.
  unfold SearchService.calculateLatencyScore.
  destruct (Qle_bool avgLatencyMs 500); [split; discriminate |].
  destruct (Qle_bool avgLatencyMs 1500); [split; discriminate |].
  destruct (Qle_bool avgLatencyMs 3000); split; discriminate.
Qed.

Lemma calculateListSimilarity_range (agentList searchList : list string) :
  0 <= SearchService.calculateListSimilarity agentList searchList <= 1.
Proof.
  unfold SearchService.calculateListSimilarity.
  destruct searchList as [| s searchList]; [split; discriminate |].
  destruct agentList as [| a agentList]; [split; discriminate |].
  set (searchTokens := flat_map SearchService.tokenize (s :: searchList)).
  set (agentTokens := flat_map SearchService.tokenize (a :: agentList)).
  destruct (List.length searchTokens =? 0)%nat eqn:Hlen; [split; discriminate |].
  apply Nat.eqb_neq in Hlen.
  unfold JS.size. apply ratio_range; [| lia].
  split; [lia |]. apply inj_le, length_filter_le.
Qed.

Lemma calculateDescriptionScore_range (agent : Agent.t)
    (requestDescription : option string) :
  0 <= SearchService.calculateDescriptionScore agent requestDescription <= 1.
Proof.
  unfold SearchService.calculateDescriptionScore.
  destruct requestDescription as [d |]; [| split; discriminate].
  destruct (negb (JS.truthy d) || (JS.trim d =? EmptyString));
    [split; discriminate |].
  set (tokens := SearchService.tokenize d).
  destruct (List.length tokens =? 0)%nat eqn:Hlen; [split; discriminate |].
  apply Nat.eqb_neq in Hlen.
  match goal with
  | |- context [(?n =? 0)%nat] => destruct (n =? 0)%nat; [split; discriminate |]
  end.
  split; [| apply Math_min_le_l].
  apply Math_min_ge; [discriminate |].
  apply Qle_shift_div_l.
  - destruct (Math_min_cases (JS.size tokens) 10) as [[_ ->] | [_ ->]];
      [| reflexivity].
    unfold JS.size. rewrite <- (Zlt_Qlt 0). lia.
  - rewrite Qmult_0_l. rewrite <- (Zle_Qle 0). lia.
Qed.

Lemma hierarchical_fold (searchParts : list string) (agentIntents : list string)
    (best : Q) :
  In best [0.0; 0.3; 0.6] ->
  let parts a := JS.split SearchService.is_dot a in
  fold_left
    (fun bestScore agentIntent =>
       let agentParts := JS.split SearchService.is_dot agentIntent in
       let bestScore :=
         if SearchService.same_part 0 searchParts agentParts
            && SearchService.same_part 1 searchParts agentParts
         then JS.Math_max bestScore 0.6 else bestScore in
       if SearchService.same_part 0 searchParts agentParts
       then JS.Math_max bestScore 0.3 else bestScore)
    agentIntents best
  = if existsb (fun a => SearchService.same_part 0 searchParts (parts a)
                         && SearchService.same_part 1 searchParts (parts a))
         agentIntents
    then 0.6
    else if existsb (fun a => SearchService.same_part 0 searchParts (parts a))
              agentIntents
    then JS.Math_max best 0.3
    else best.
Proof.
  intros Hbest parts. revert best Hbest.
  induction agentIntents as [| a l IH]; intros best Hbest; [reflexivity |].
  cbn [fold_left existsb]. fold (parts a).
  destruct (SearchService.same_part 0 searchParts (parts a)) eqn:H0;
    destruct (SearchService.same_part 1 searchParts (parts a)) eqn:H1;
    cbn [andb orb].
  - rewrite IH.
    + destruct (existsb _ l); [reflexivity |].
      destruct (existsb _ l);
        destruct Hbest as [<- | [<- | [<- | []]]]; reflexivity.
    + destruct Hbest as [<- | [<- | [<- | []]]]; simpl; auto.
  - rewrite IH.
    + destruct (existsb _ l); [reflexivity |].
      destruct (existsb _ l);
        destruct Hbest as [<- | [<- | [<- | []]]]; reflexivity.
    + destruct Hbest as [<- | [<- | [<- | []]]]; simpl; auto.
  - now rewrite IH.
  - now rewrite IH.
Qed.

(** X3: the hierarchical score of an intent, case by case: 1.0 when the
    agent lists it, otherwise 0.6 when an intent of the agent has the same
    first two parts between dots, otherwise 0.3 when one has the same first
    part, otherwise 0. *)
Theorem hierarchical_score_levels (agentIntents : list string)
    (searchIntent : string) :
  let searchParts := JS.split SearchService.is_dot searchIntent in
  let parts a := JS.split SearchService.is_dot a in
  SearchService.calculateHierarchicalScore agentIntents searchIntent
  = if JS.has searchIntent agentIntents then 1.0
    else if existsb (fun a => SearchService.same_part 0 searchParts (parts a)
                              && SearchService.same_part 1 searchParts (parts a))
              agentIntents
    then 0.6
    else if existsb (fun a => SearchService.same_part 0 searchParts (parts a))
              agentIntents
    then 0.3
    else 0.0.
Proof.
  intros searchParts parts. unfold SearchService.calculateHierarchicalScore.
  destruct (JS.has searchIntent agentIntents); [reflexivity |].
  exact (hierarchical_fold searchParts agentIntents 0.0 (or_introl eq_refl)).
Qed.

Lemma calculateHierarchicalScore_range (agentIntents : list string)
    (searchIntent : string) :
  0 <= SearchService.calculateHierarchicalScore agentIntents searchIntent <= 1.
Proof.
  unfold SearchService.calculateHierarchicalScore.
  destruct (JS.has _ _); [split; discriminate |].
  rewrite (hierarchical_fold _ agentIntents 0.0 (or_introl eq_refl)).
  destruct (existsb _ _); [split; discriminate |].
  destruct (existsb _ _); split; discriminate.
Qed.

Lemma calculateTrigramScore_range (agentIntents : list string)
    (searchIntent : string) :
  0 <= SearchService.calculateTrigramScore agentIntents searchIntent <= 1.
Proof.
  unfold SearchService.calculateTrigramScore.
  destruct (_ || _); [split; discriminate |].
  split; [| eapply Qle_trans; [apply Math_min_le_r | discriminate]].
  apply Math_min_ge; [| discriminate].
  apply (fold_left_invariant (fun m => 0 <= m)); [discriminate |].
  intros m a Hm. eapply Qle_trans; [exact Hm | apply Math_max_ge_l].
Qed.

Lemma calculateIntentScore_range (agentIntents : list string)
    (searchIntent : option Intent) :
  0 <= SearchService.calculateIntentScore agentIntents searchIntent <= 1.
Proof.
  unfold SearchService.calculateIntentScore.
  destruct (negb _); [split; discriminate |].
  apply (fold_left_invariant (fun m => 0 <= m <= 1)); [split; discriminate |].
  intros m s Hm.
  apply Math_max_range; [exact Hm |].
  apply Math_max_range; [apply calculateHierarchicalScore_range |].
  destruct (calculateTrigramScore_range agentIntents s) as [H0 H1].
  split; lra.
Qed.

Lemma geo_fold (agentCity agentCountry : string) (agentState : option string)
    (variants : list string) (best : Q) :
  In best [0.2; 0.3; 0.6; 1.0] ->
  let state_match variant :=
    match agentState with
    | Some st =>
        JS.truthy st
        && ((variant =? st) || JS.includes st variant || JS.includes variant st)
    | None => false
    end in
  let country_match variant :=
    (variant =? agentCountry) || JS.includes agentCountry variant
    || JS.includes variant agentCountry in
  fold_left
    (fun best variant =>
       if variant =? agentCity then JS.Math_max best 1.0
       else if state_match variant then JS.Math_max best 0.6
       else if country_match variant then JS.Math_max best 0.3
       else best)
    variants best
  = if existsb (fun variant => variant =? agentCity) variants then 1.0
    else if existsb state_match variants then JS.Math_max best 0.6
    else if existsb country_match variants then JS.Math_max best 0.3
    else best.
Proof.
  intros Hbest state_match country_match. revert best Hbest.
  induction variants as [| v l IH]; intros best Hbest; [reflexivity |].
  cbn [fold_left existsb].
  destruct (v =? agentCity) eqn:Hcity; cbn [orb].
  - rewrite IH by (destruct Hbest as [<- | [<- | [<- | [<- | []]]]]; simpl; auto).
    destruct (existsb _ l); [reflexivity |].
    destruct (existsb state_match l);
      [destruct Hbest as [<- | [<- | [<- | [<- | []]]]]; reflexivity |].
    destruct (existsb country_match l);
      destruct Hbest as [<- | [<- | [<- | [<- | []]]]]; reflexivity.
  - destruct (state_match v) eqn:Hstate; cbn [orb].
    + rewrite IH by (destruct Hbest as [<- | [<- | [<- | [<- | []]]]]; simpl; auto).
      destruct (existsb _ l); [reflexivity |].
      destruct (existsb state_match l);
        [destruct Hbest as [<- | [<- | [<- | [<- | []]]]]; reflexivity |].
      destruct (existsb country_match l);
        destruct Hbest as [<- | [<- | [<- | [<- | []]]]]; reflexivity.
    + destruct (country_match v) eqn:Hcountry; cbn [orb].
      * rewrite IH
          by (destruct Hbest as [<- | [<- | [<- | [<- | []]]]]; simpl; auto).
        destruct (existsb _ l); [reflexivity |].
        destruct (existsb state_match l);
          [destruct Hbest as [<- | [<- | [<- | [<- | []]]]]; reflexivity |].
        destruct (existsb country_match l);
          destruct Hbest as [<- | [<- | [<- | [<- | []]]]]; reflexivity.
      * now rewrite IH.
Qed.

(** X4: the geo score of an agent with a location of its own (not Global)
    against a search location: 1.0 when one of the names of the search
    location is the city of the agent, otherwise 0.6 when one matches its
    state, otherwise 0.3 when one matches its country, otherwise 0.2. The
    names are the parts between commas and slashes, trimmed and in lower
    case; the state is the second part, the country the last one; a name
    matches when it is equal or when one contains the other. *)
Theorem geo_score_levels (agentLocation searchLocation agentCity : string)
    (more : list string) :
  JS.truthy searchLocation = true ->
  agentLocation <> "Global" ->
  SearchService.location_parts agentLocation = agentCity :: more ->
  SearchService.location_parts searchLocation <> [] ->
  let variants := SearchService.location_parts searchLocation in
  let agentCountry := last (agentCity :: more) agentCity in
  let state_match variant :=
    match nth_error (agentCity :: more) 1 with
    | Some st =>
        JS.truthy st
        && ((variant =? st) || JS.includes st variant || JS.includes variant st)
    | None => false
    end in
  let country_match variant :=
    (variant =? agentCountry) || JS.includes agentCountry variant
    || JS.includes variant agentCountry in
  SearchService.calculateGeoScore agentLocation (Some searchLocation)
  = if existsb (fun variant => variant =? agentCity) variants then 1.0
    else if existsb state_match variants then 0.6
    else if existsb country_match variants then 0.3
    else 0.2.
Proof.
  intros Hsearch Hglobal Hparts Hvariants variants agentCountry state_match
    country_match.
  unfold SearchService.calculateGeoScore. cbn [JS.truthy_opt].
  rewrite Hsearch.
  assert (Hagent : JS.truthy agentLocation = true).
  { destruct agentLocation; [discriminate Hparts | reflexivity]. }
  rewrite Hagent. cbn [negb orb].
  apply String.eqb_neq in Hglobal. rewrite Hglobal.
  rewrite Hparts. fold variants.
  destruct variants as [| v vs] eqn:Hvs; [contradiction |].
  rewrite <- Hvs.
  exact (geo_fold agentCity agentCountry (nth_error (agentCity :: more) 1)
           variants 0.2 (or_introl eq_refl)).
Qed.

Lemma geo_score_levels_witness :
  SearchService.calculateGeoScore "Miami, FL, USA" (Some "Orlando/FL") = 0.6.
Proof.
  apply (geo_score_levels "Miami, FL, USA" "Orlando/FL" "miami" ["fl"; "usa"]);
    [reflexivity | discriminate | reflexivity | discriminate].
Defined.

Lemma calculateGeoScore_range (agentLocation : string)
    (searchLocation : option string) :
  0.2 <= SearchService.calculateGeoScore agentLocation searchLocation <= 1.
Proof.
  unfold SearchService.calculateGeoScore.
  destruct (_ || _);
    [destruct (agentLocation =? "Global"); split; discriminate |].
  destruct (agentLocation =? "Global"); [split; discriminate |].
  destruct (SearchService.location_parts agentLocation) as [| agentCity more];
    [split; discriminate |].
  destruct (match searchLocation with
            | Some l => SearchService.location_parts l
            | None => []
            end) as [| v vs]; [split; discriminate |].
  rewrite (geo_fold agentCity _ _ (v :: vs) 0.2 (or_introl eq_refl)).
  destruct (existsb _ _); [split; discriminate |].
  destruct (existsb _ _); [split; discriminate |].
  destruct (existsb _ _); split; discriminate.
Qed.

(** ** The fraud percentage *)

Lemma calculateFraudPercentage_range (env : Env.t) (agentId : string)
    (db : Db.t) :
  0 <= FraudDetectionService.calculateFraudPercentage env agentId db <= 100.
Proof.
  unfold FraudDetectionService.calculateFraudPercentage.
  destruct (negb (Env.isProductionMode env)); [split; discriminate |].
  unfold FeedbackRepository.getFraudStats. cbn [FeedbackRepository.FraudStats.total].
  set (total := count _ (Db.agent_feedbacks db)).
  destruct (total =? 0)%Z eqn:Htotal; [split; discriminate |].
  apply Z.eqb_neq in Htotal.
  assert (Hpos : (0 < total)%Z).
  { pose proof (count_bounds
                  (fun f => AgentFeedback.agent_id f =? agentId)
                  (Db.agent_feedbacks db)) as H.
    fold total in H. lia. }
  split; [| apply Math_min_le_l].
  apply Math_min_ge; [discriminate |].
  unfold FraudDetectionRepository.getTotalFraudCount.
  pose proof (count_bounds (fun r => FraudDetection.agent_id r =? agentId)
                (Db.fraud_detection_log db)) as [Hcount _].
  apply Qmult_le_0_compat; [| discriminate].
  apply Qle_shift_div_l; [now rewrite <- (Zlt_Qlt 0) |].
  rewrite Qmult_0_l. now rewrite <- (Zle_Qle 0).
Qed.

(** X5: the fraud percentage of an agent is between 0 and 100, also when
    the fraud log holds more entries for it than it has feedback rows; it
    is 0 outside production mode and for an agent without feedback. *)
Theorem fraud_percentage_bounded (env : Env.t) (agentId : string) (db : Db.t) :
  0 <= FraudDetectionService.calculateFraudPercentage env agentId db <= 100
  /\ (Env.isProductionMode env = false \/
      count (fun f => AgentFeedback.agent_id f =? agentId)
        (Db.agent_feedbacks db) = 0%Z ->
      FraudDetectionService.calculateFraudPercentage env agentId db = 0).
Proof.
  split; [apply calculateFraudPercentage_range |].
  unfold FraudDetectionService.calculateFraudPercentage.
  intros [-> | Hnone]; [reflexivity |].
  destruct (negb (Env.isProductionMode env)); [reflexivity |].
  unfold FeedbackRepository.getFraudStats. cbn [FeedbackRepository.FraudStats.total].
  now rewrite Hnone.
Qed.

(** ** The score *)

Lemma hundredth_range (x : Q) : 0 <= x <= 100 -> 0 <= 1.0 - x / 100 <= 1.
Proof.
  intros [H0 H100].
  assert (H : 0 <= x / 100 <= 1).
  { split.
    - apply Qle_shift_div_l; [reflexivity | lra].
    - apply Qle_shift_div_r; [reflexivity | lra]. }
  destruct H. split; lra.
Qed.

(** X6: with statistics that count no more successes than calls and hold
    an average rating between 0 and 1, the score of an agent is between 0
    and 1.02, the sum of the nine weights, and that of an agent in
    quarantine is at most 0.72. *)
Theorem score_range (env : Env.t) (db : Db.t) (agent : AgentWithScore.t)
    (request : SearchAgentRequest.t) :
  (forall stats, AgentWithScore.stats agent = Some stats ->
                 StatsRepository.invariant stats) ->
  let scored := SearchService.calculateScore env db agent request in
  0 <= AgentWithScore.score scored <= 1.02
  /\ (Agent.status (AgentWithScore.agent agent) = Some quarantine ->
      AgentWithScore.score scored <= 0.72).
Proof.
  intros Hstats scored. unfold scored, SearchService.calculateScore.
  set (a := AgentWithScore.agent agent).
  pose proof (calculateIntentScore_range (Agent.intents a)
                (SearchAgentRequest.intent request)) as Hintent.
  pose proof (calculateDescriptionScore_range a
                (SearchAgentRequest.description request)) as Hdescription.
  pose proof (calculateGeoScore_range (Agent.location_scope a)
                (SearchAgentRequest.location request)) as Hgeo.
  pose proof (calculateListSimilarity_range (Agent.categories a)
                (SearchAgentRequest.categories request)) as Hcategory.
  pose proof (calculateListSimilarity_range (Agent.tags a)
                (match SearchAgentRequest.tags request with
                 | Some t => t
                 | None => []
                 end)) as Htag.
  pose proof (hundredth_range _
                (calculateFraudPercentage_range env (Agent.id a) db)) as Hfraud.
  unfold SearchService.calculateCategoryScore, SearchService.calculateTagScore.
  set (intentScore := SearchService.calculateIntentScore _ _) in *.
  set (descriptionScore := SearchService.calculateDescriptionScore _ _) in *.
  set (geoScore := SearchService.calculateGeoScore _ _) in *.
  set (categoryScore := SearchService.calculateListSimilarity (Agent.categories a) _) in *.
  set (tagScore := SearchService.calculateListSimilarity (Agent.tags a) _) in *.
  set (fraudScore := 1.0 - _ / 100) in *.
  assert (Hthree :
    exists successRate ratingScore latencyScore,
      match AgentWithScore.stats agent with
      | Some stats =>
          if (0 <? AgentStats.calls_total stats)%Z then
            (inject_Z (AgentStats.calls_success stats)
             / inject_Z (AgentStats.calls_total stats),
             AgentStats.avg_rating stats,
             SearchService.calculateLatencyScore (AgentStats.avg_latency_ms stats))
          else (0, 0, 0)
      | None => (0, 0, 0)
      end = (successRate, ratingScore, latencyScore)
      /\ 0 <= successRate <= 1 /\ 0 <= ratingScore <= 1
      /\ 0 <= latencyScore <= 1).
  { destruct (AgentWithScore.stats agent) as [stats |].
    - destruct (Hstats stats eq_refl) as [Hcounts Hrating].
      destruct (0 <? AgentStats.calls_total stats)%Z eqn:Htotal.
      + apply Z.ltb_lt in Htotal.
        do 3 eexists. split; [reflexivity |].
        split; [now apply ratio_range |].
        split; [now apply Hrating |].
        destruct (calculateLatencyScore_range (AgentStats.avg_latency_ms stats)).
        split; lra.
      + exists 0, 0, 0. repeat split; discriminate.
    - exists 0, 0, 0. repeat split; discriminate. }
  destruct Hthree as [successRate [ratingScore [latencyScore [-> Hthree]]]].
  destruct Hthree as [Hsuccess [Hrating Hlatency]].
  cbn [AgentWithScore.score].
  destruct Hintent, Hdescription, Hgeo, Hcategory, Htag, Hfraud, Hsuccess,
    Hrating, Hlatency.
  destruct (Agent.status a) as [[| |] |].
  - split; [split; lra | discriminate].
  - match goal with
    | |- context [JS.Math_max 0 ?x] =>
        destruct (Math_max_cases 0 x) as [[Hmax ->] | [Hmax ->]]
    end.
    + split; [split; lra | intros _; lra].
    + split; [split; lra | intros _; lra].
  - split; [split; lra | discriminate].
  - split; [split; lra | discriminate].
Qed.

Lemma score_range_witness :
  let scored :=
    SearchService.calculateScore Sample.production Sample.failing
      {| AgentWithScore.agent := Sample.agent "agent:w" "Global" (Some quarantine);
         AgentWithScore.stats := Some (Sample.stats "agent:w" 25 5 100 0.9);
         AgentWithScore.score := 0 |}
      (Sample.request (Some (IntentString "weather.forecast")) None None) in
  0 <= AgentWithScore.score scored <= 1.02
  /\ (Some quarantine = Some quarantine -> AgentWithScore.score scored <= 0.72).
Proof.
  apply (score_range Sample.production Sample.failing
           {| AgentWithScore.agent := Sample.agent "agent:w" "Global" (Some quarantine);
              AgentWithScore.stats := Some (Sample.stats "agent:w" 25 5 100 0.9);
              AgentWithScore.score := 0 |}
           (Sample.request (Some (IntentString "weather.forecast")) None None)).
  intros stats Hstats. injection Hstats as <-.
  split; [cbn; lia |]. intros _. split; discriminate.
Defined.

(** ** The order and the number of the results *)

Lemma insert_desc_sorted {A} (key : A -> Q) (x : A) (l : list A) :
  StronglySorted (fun a b => key b <= key a) l ->
  StronglySorted (fun a b => key b <= key a) (insert_desc key x l).
Proof.
  induction l as [| y ys IH]; intros Hsorted; simpl.
  - constructor; constructor.
  - apply StronglySorted_inv in Hsorted. destruct Hsorted as [Hys Hy].
    destruct (Qle_bool (key y) (key x)) eqn:Hle.
    + apply Qle_bool_iff in Hle.
      constructor; [constructor; assumption |].
      constructor; [exact Hle |].
      apply Forall_forall. intros z Hz.
      rewrite Forall_forall in Hy.
      apply Qle_trans with (key y); [now apply Hy | exact Hle].
    + constructor; [now apply IH |].
      apply Forall_forall. intros z Hz.
      apply In_insert_desc in Hz. destruct Hz as [-> | Hz].
      * apply Qlt_le_weak, Qnot_le_lt. intros H.
        apply Qle_bool_iff in H. congruence.
      * rewrite Forall_forall in Hy. now apply Hy.
Qed.

Lemma sort_desc_sorted {A} (key : A -> Q) (l : list A) :
  StronglySorted (fun a b => key b <= key a) (sort_desc key l).
Proof.
  induction l as [| x l IH]; simpl; [constructor |].
  now apply insert_desc_sorted.
Qed.

Lemma firstn_sorted {A} (R : A -> A -> Prop) (n : nat) (l : list A) :
  StronglySorted R l -> StronglySorted R (firstn n l).
Proof.
  revert l. induction n as [| n IH]; intros l Hl; [constructor |].
  destruct l as [| x l]; [constructor |].
  apply StronglySorted_inv in Hl. destruct Hl as [Hl Hx].
  simpl. constructor; [now apply IH |].
  apply Forall_forall. intros y Hy. apply In_firstn in Hy.
  rewrite Forall_forall in Hx. now apply Hx.
Qed.

Lemma map_sorted {A B} (R : A -> A -> Prop) (R' : B -> B -> Prop) (f : A -> B)
    (l : list A) :
  (forall a b, R a b -> R' (f a) (f b)) ->
  StronglySorted R l -> StronglySorted R' (map f l).
Proof.
  intros Hf. induction 1 as [| x l Hl IH Hx]; simpl; constructor; [exact IH |].
  apply Forall_forall. intros y Hy. apply in_map_iff in Hy.
  destruct Hy as [z [<- Hz]]. rewrite Forall_forall in Hx. auto.
Qed.

Lemma Math_round_hundredths_le (x y : Q) :
  x <= y -> JS.Math_round (x * 100) / 100 <= JS.Math_round (y * 100) / 100.
Proof.
  intros H. unfold JS.Math_round.
  apply Qmult_le_compat_r; [| discriminate].
  rewrite <- Zle_Qle. apply Qfloor_resp_le. lra.
Qed.

Lemma length_slice0 {A} (l : list A) (e : Z) :
  (0 <= e)%Z -> (Z.of_nat (List.length (JS.slice0 l e)) <= e)%Z.
Proof.
  intros He. unfold JS.slice0.
  apply Z.leb_le in He. rewrite He. apply Z.leb_le in He.
  pose proof (firstn_le_length (Z.to_nat e) l).
  rewrite length_firstn. lia.
Qed.

(** X7: the results of a search come best score first, and there are at
    most 10 of them, and at most [limit] for a positive limit, unless the
    request carries a negative limit. *)
Theorem search_results_ranked
    (similarity : string -> string -> Q) (env : Env.t)
    (request : SearchAgentRequest.t) (db : Db.t)
    (results : list SearchAgentResponse.t) :
  SearchService.search similarity env request db = Ok results ->
  StronglySorted
    (fun r1 r2 => SearchAgentResponse.score r2 <= SearchAgentResponse.score r1)
    results
  /\ ((forall l, SearchAgentRequest.limit request = Some l -> (0 <= l)%Z) ->
      (Z.of_nat (List.length results) <= 10)%Z
      /\ forall l, SearchAgentRequest.limit request = Some l -> (0 < l)%Z ->
                   (Z.of_nat (List.length results) <= l)%Z).
Proof.
  intros Hsearch. unfold SearchService.search in Hsearch.
  destruct (SearchService.validateRequest _) as [_ | e]; [| discriminate].
  destruct (SearchService.fetchAgents _ _ _ db) as [agents | e];
    [| discriminate].
  assert (Hempty :
    StronglySorted
      (fun r1 r2 => SearchAgentResponse.score r2 <= SearchAgentResponse.score r1)
      []
    /\ (Z.of_nat (@List.length SearchAgentResponse.t []) <= 10)%Z
       /\ forall l, SearchAgentRequest.limit request = Some l -> (0 < l)%Z ->
                    (Z.of_nat (@List.length SearchAgentResponse.t []) <= l)%Z).
  { split; [constructor |]. simpl. split; [lia |]. intros; lia. }
  destruct agents as [| a0 agents'];
    [injection Hsearch as <-; tauto |].
  match type of Hsearch with
  | match ?f with [] => _ | _ => _ end = _ => destruct f as [| sc0 rest]
  end.
  { injection Hsearch as <-; tauto. }
  clear Hempty.
  set (sorted := sort_desc AgentWithScore.score (sc0 :: rest)) in Hsearch.
  set (limit := Z.min (SearchService.or_limit (SearchAgentRequest.limit request) 10) 10)
    in Hsearch.
  assert (Hresults : results = map SearchService.toResponse (JS.slice0 sorted limit))
    by congruence.
  clear Hsearch. subst results. split.
  - apply (map_sorted
             (fun a b => AgentWithScore.score b <= AgentWithScore.score a)).
    + intros a b Hab. cbn [SearchService.toResponse SearchAgentResponse.score].
      now apply Math_round_hundredths_le.
    + unfold JS.slice0. destruct (0 <=? limit)%Z;
        apply firstn_sorted, sort_desc_sorted.
  - intros Hlimit. rewrite length_map.
    assert (Hnonneg : (0 <= limit)%Z).
    { unfold limit, SearchService.or_limit.
      destruct (SearchAgentRequest.limit request) as [l |]; [| lia].
      specialize (Hlimit l eq_refl). destruct (l =? 0)%Z; lia. }
    pose proof (length_slice0 sorted limit Hnonneg) as Hlen.
    split; [assert (limit <= 10)%Z by (unfold limit; lia); lia |].
    intros l Hl Hpos.
    assert (limit <= l)%Z; [| lia].
    unfold limit, SearchService.or_limit. rewrite Hl.
    destruct (l =? 0)%Z eqn:Hzero; [apply Z.eqb_eq in Hzero; lia | lia].
Qed.

Lemma search_results_ranked_witness :
  exists r,
    SearchService.search Sample.no_similarity Sample.development
      (Sample.request (Some (IntentString "weather.forecast")) None (Some "usa"))
      Sample.three_agents = Ok [r]
    /\ StronglySorted
         (fun r1 r2 => SearchAgentResponse.score r2 <= SearchAgentResponse.score r1)
         [r]
    /\ (Z.of_nat (List.length [r]) <= 10)%Z.
Proof.
  assert (H : exists r,
             SearchService.search Sample.no_similarity Sample.development
               (Sample.request (Some (IntentString "weather.forecast")) None
                  (Some "usa"))
               Sample.three_agents = Ok [r])
    by (eexists; vm_compute; reflexivity).
  destruct H as [r Hr]. exists r. split; [exact Hr |].
  destruct (search_results_ranked Sample.no_similarity Sample.development
              (Sample.request (Some (IntentString "weather.forecast")) None
                 (Some "usa"))
              Sample.three_agents [r] Hr) as [Hsorted Hlimit].
  split; [exact Hsorted |].
  refine (proj1 (Hlimit _)). intros l Hl. discriminate Hl.
Defined.

(** ** Submissions that are refused before anything is written *)

Lemma submitFeedback_rate_limit
    (Math_log : Q -> Q) (env : Env.t) (now : Z)
    (request : FeedbackRequest.t) (db : Db.t) :
  JS.truthy (FeedbackRequest.agent_id request) = true ->
  JS.trim (FeedbackRequest.agent_id request) <> EmptyString ->
  0 <= FeedbackRequest.latency_ms request ->
  0 <= FeedbackRequest.rating request <= 1 ->
  (60 <= FeedbackRepository.countRecentByConsumer now
            (FeedbackRequest.consumer_id request) 1 db)%Z ->
  FeedbackService.submitFeedback Math_log env now request db
  = (db, Err FeedbackService.rate_limit_message).
Proof.
  intros Hid Htrim Hlatency Hrating Hrate.
  unfold FeedbackService.submitFeedback.
  unfold bind at 1.
  rewrite (validateRequest_ok request db Hid Htrim Hlatency Hrating).
  unfold bind at 1, query at 1.
  apply Z.leb_le in Hrate. rewrite Hrate. reflexivity.
Qed.

(** X8: a consumer with 60 feedback rows or more in the last minute is
    refused with the rate limit error, in production and outside it, and
    nothing is written: no feedback row, no statistics, no fraud entry. *)
Theorem feedback_rate_limited
    (Math_log : Q -> Q) (env : Env.t) (now : Z)
    (request : FeedbackRequest.t) (db : Db.t) :
  JS.truthy (FeedbackRequest.agent_id request) = true ->
  JS.trim (FeedbackRequest.agent_id request) <> EmptyString ->
  0 <= FeedbackRequest.latency_ms request ->
  0 <= FeedbackRequest.rating request <= 1 ->
  (60 <= FeedbackRepository.countRecentByConsumer now
            (FeedbackRequest.consumer_id request) 1 db)%Z ->
  FeedbackService.submitFeedback Math_log env now request db
  = (db, Err FeedbackService.rate_limit_message).
Proof.
  exact (submitFeedback_rate_limit Math_log env now request db).
Qed.

Lemma feedback_rate_limited_witness :
  let busy :=
    Db.with_agent_feedbacks
      (repeat {| AgentFeedback.agent_id := "agent:other";
                 AgentFeedback.consumer_id := "consumer-1";
                 AgentFeedback.success := true;
                 AgentFeedback.latency_ms := 100;
                 AgentFeedback.rating := 1;
                 AgentFeedback.created_at := 59000 |} 60)
      Sample.registry in
  FeedbackService.submitFeedback Sample.flat_log Sample.development 60000
    (Sample.feedback 1) busy
  = (busy, Err FeedbackService.rate_limit_message).
Proof.
  apply (feedback_rate_limited Sample.flat_log Sample.development 60000
           (Sample.feedback 1)).
  - reflexivity.
  - discriminate.
  - discriminate.
  - split; discriminate.
  - vm_compute. discriminate.
Defined.

(** X9: a feedback that names no agent, or a negative latency, or a rating
    outside 0..1, is refused and nothing is written. *)
Theorem feedback_invalid_rejected
    (Math_log : Q -> Q) (env : Env.t) (now : Z)
    (request : FeedbackRequest.t) (db : Db.t) :
  JS.trim (FeedbackRequest.agent_id request) = EmptyString
  \/ FeedbackRequest.latency_ms request < 0
  \/ FeedbackRequest.rating request < 0
  \/ 1 < FeedbackRequest.rating request ->
  exists e,
    FeedbackService.submitFeedback Math_log env now request db = (db, Err e).
Proof.
  intros Hbad.
  unfold FeedbackService.submitFeedback. unfold bind at 1.
  unfold FeedbackService.validateRequest, throw.
  destruct (negb (JS.truthy (FeedbackRequest.agent_id request))
            || (JS.trim (FeedbackRequest.agent_id request) =? "")) eqn:Hid;
    [eexists; reflexivity |].
  apply orb_false_iff in Hid. destruct Hid as [_ Htrim].
  apply String.eqb_neq in Htrim.
  destruct (JS.Qltb (FeedbackRequest.latency_ms request) 0) eqn:Hlatency;
    [eexists; reflexivity |].
  destruct (JS.Qltb (FeedbackRequest.rating request) 0
            || JS.Qltb 1 (FeedbackRequest.rating request)) eqn:Hrating;
    [eexists; reflexivity |].
  apply orb_false_iff in Hrating. destruct Hrating as [Hr0 Hr1].
  exfalso.
  destruct Hbad as [H | [H | [H | H]]].
  - contradiction.
  - apply Qltb_lt in H. congruence.
  - apply Qltb_lt in H. congruence.
  - apply Qltb_lt in H. congruence.
Qed.

Lemma feedback_invalid_rejected_witness :
  exists e,
    FeedbackService.submitFeedback Sample.flat_log Sample.production 0
      (Sample.feedback 1.5) Sample.registry = (Sample.registry, Err e).
Proof.
  apply (feedback_invalid_rejected Sample.flat_log Sample.production 0
           (Sample.feedback 1.5) Sample.registry).
  right. right. right. reflexivity.
Defined.

(** X10: a valid feedback for an agent that is not registered is refused
    with a message that quotes the id, and nothing is written. *)
Theorem feedback_unknown_agent
    (Math_log : Q -> Q) (env : Env.t) (now : Z)
    (request : FeedbackRequest.t) (db : Db.t) :
  JS.truthy (FeedbackRequest.agent_id request) = true ->
  JS.trim (FeedbackRequest.agent_id request) <> EmptyString ->
  0 <= FeedbackRequest.latency_ms request ->
  0 <= FeedbackRequest.rating request <= 1 ->
  (FeedbackRepository.countRecentByConsumer now
     (FeedbackRequest.consumer_id request) 1 db < 60)%Z ->
  AgentRepository.findById (FeedbackRequest.agent_id request) db = None ->
  FeedbackService.submitFeedback Math_log env now request db
  = (db, Err ("Agent with id " ++ JS.dquote
                ++ FeedbackRequest.agent_id request ++ JS.dquote
                ++ " not found")).
Proof.
  intros Hid Htrim Hlatency Hrating Hrate Hagent.
  unfold FeedbackService.submitFeedback.
  unfold bind at 1.
  rewrite (validateRequest_ok request db Hid Htrim Hlatency Hrating).
  unfold bind at 1, query at 1.
  apply Z.ltb_lt in Hrate. rewrite Z.leb_antisym, Hrate. cbn [negb].
  unfold bind at 1, query at 1.
  rewrite Hagent. reflexivity.
Qed.

Lemma feedback_unknown_agent_witness :
  FeedbackService.submitFeedback Sample.flat_log Sample.production 0
    (Sample.feedback 1) Sample.three_agents
  = (Sample.three_agents,
     Err ("Agent with id " ++ JS.dquote ++ "agent:w" ++ JS.dquote
            ++ " not found")).
Proof.
  apply (feedback_unknown_agent Sample.flat_log Sample.production 0
           (Sample.feedback 1) Sample.three_agents).
  - reflexivity.
  - discriminate.
  - discriminate.
  - split; discriminate.
  - reflexivity.
  - reflexivity.
Defined.

(** ** Development mode *)

Lemma feedback_create_log now agentId consumerId succ latencyMs rating db db' res :
  FeedbackRepository.create now agentId consumerId succ latencyMs rating db
  = (db', res) ->
  Db.fraud_detection_log db' = Db.fraud_detection_log db
  /\ Db.callers db' = Db.callers db.
Proof.
  unfold FeedbackRepository.create.
  destruct (Pg.varchar 255 agentId) as [a |],
           (Pg.varchar 255 consumerId) as [c |];
    try (intros H; injection H as <- <-; split; reflexivity).
  destruct (Pg.numeric 10 2 latencyMs) as [l |],
           (Pg.numeric 3 2 rating) as [r |];
    try (intros H; injection H as <- <-; split; reflexivity).
  destruct (_ && _); [destruct (_ && _) |];
    intros H; injection H as <- <-; split; reflexivity.
Qed.

Lemma incrementFeedbackWeighted_log now agentId success latencyMs rating weight
    db db' res :
  StatsRepository.incrementFeedbackWeighted now agentId success latencyMs rating
    weight db = (db', res) ->
  Db.fraud_detection_log db' = Db.fraud_detection_log db
  /\ Db.callers db' = Db.callers db.
Proof.
  unfold StatsRepository.incrementFeedbackWeighted, bind, query.
  destruct (StatsRepository.findByAgentId agentId db).
  - unfold StatsRepository.update.
    destruct (StatsRepository.stored _);
      intros H; injection H as <- <-; split; reflexivity.
  - unfold StatsRepository.create.
    destruct (StatsRepository.stored _);
      intros H; injection H as <- <-; split; reflexivity.
Qed.

(** X11: outside production mode the anti-fraud layer is off: a valid
    feedback below the rate limit for a registered agent is stored and
    counted with weight 1, whatever the consumer sent before, so the
    submission is the insertion of the row followed by the unweighted
    update of the statistics, and the fraud log stays as it was. *)
Theorem feedback_development_mode
    (Math_log : Q -> Q) (env : Env.t) (now : Z)
    (request : FeedbackRequest.t) (db : Db.t) :
  Env.isProductionMode env = false ->
  JS.truthy (FeedbackRequest.agent_id request) = true ->
  JS.trim (FeedbackRequest.agent_id request) <> EmptyString ->
  0 <= FeedbackRequest.latency_ms request ->
  0 <= FeedbackRequest.rating request <= 1 ->
  (FeedbackRepository.countRecentByConsumer now
     (FeedbackRequest.consumer_id request) 1 db < 60)%Z ->
  AgentRepository.findById (FeedbackRequest.agent_id request) db <> None ->
  FeedbackService.submitFeedback Math_log env now request db
  = (FeedbackRepository.create now (FeedbackRequest.agent_id request)
       (FeedbackRequest.consumer_id request) (FeedbackRequest.success request)
       (FeedbackRequest.latency_ms request) (FeedbackRequest.rating request) ;;;
     StatsRepository.incrementFeedback now (FeedbackRequest.agent_id request)
       (FeedbackRequest.success request) (FeedbackRequest.latency_ms request)
       (FeedbackRequest.rating request) ;;;
     ret true)%db db
  /\ Db.fraud_detection_log
       (fst (FeedbackService.submitFeedback Math_log env now request db))
     = Db.fraud_detection_log db.
Proof.
  intros Hdev Hid Htrim Hlatency Hrating Hrate Hagent.
  assert (Heq :
    FeedbackService.submitFeedback Math_log env now request db
    = (FeedbackRepository.create now (FeedbackRequest.agent_id request)
         (FeedbackRequest.consumer_id request) (FeedbackRequest.success request)
         (FeedbackRequest.latency_ms request) (FeedbackRequest.rating request) ;;;
       StatsRepository.incrementFeedback now (FeedbackRequest.agent_id request)
         (FeedbackRequest.success request) (FeedbackRequest.latency_ms request)
         (FeedbackRequest.rating request) ;;;
       ret true)%db db).
  { unfold FeedbackService.submitFeedback.
    unfold bind at 1.
    rewrite (validateRequest_ok request db Hid Htrim Hlatency Hrating).
    unfold bind at 1, query at 1.
    apply Z.ltb_lt in Hrate. rewrite Z.leb_antisym, Hrate. cbn [negb].
    unfold bind at 1, query at 1.
    destruct (AgentRepository.findById _ db) as [agent |]; [| contradiction].
    unfold bind at 1. unfold FraudDetectionService.analyzeFeedback.
    rewrite Hdev. cbn [negb]. unfold ret at 1.
    cbn [FraudDetectionService.Analysis.shouldBlock
           FraudDetectionService.Analysis.totalWeight].
    reflexivity. }
  split; [exact Heq |].
  rewrite Heq. unfold bind at 1.
  destruct (FeedbackRepository.create _ _ _ _ _ _ db) as [db1 r1] eqn:Hcreate.
  apply feedback_create_log in Hcreate. destruct Hcreate as [Hlog1 _].
  destruct r1 as [row | e]; [| exact Hlog1].
  unfold bind at 1.
  destruct (StatsRepository.incrementFeedback _ _ _ _ _ db1) as [db2 r2] eqn:Hinc.
  apply incrementFeedbackWeighted_log in Hinc. destruct Hinc as [Hlog2 _].
  destruct r2; simpl; congruence.
Qed.

Lemma feedback_development_mode_witness :
  Db.fraud_detection_log
    (fst (FeedbackService.submitFeedback Sample.flat_log Sample.development 0
            (Sample.feedback 1) Sample.registry))
  = Db.fraud_detection_log Sample.registry.
Proof.
  apply (feedback_development_mode Sample.flat_log Sample.development 0
           (Sample.feedback 1) Sample.registry).
  - reflexivity.
  - reflexivity.
  - discriminate.
  - discriminate.
  - split; discriminate.
  - reflexivity.
  - discriminate.
Defined.

(** ** The fraud analysis: entries and weights *)

(** The fraud log only grows: what was logged stays logged. *)
Lemma fraud_create_grows now agentId consumerId fraudType sev det db db' res :
  FraudDetectionRepository.create now agentId consumerId fraudType sev det db
  = (db', res) ->
  exists row,
    res = Ok row
    /\ Db.fraud_detection_log db' = (Db.fraud_detection_log db ++ [row])%list
    /\ FraudDetection.agent_id row = agentId
    /\ FraudDetection.fraud_type row = fraudType
    /\ FraudDetection.severity row = sev.
Proof.
  unfold FraudDetectionRepository.create. intros H. injection H as <- <-.
  eexists. repeat split.
Qed.

Lemma detectSpam_grows env now consumerId agentId db db' res :
  FraudDetectionService.detectSpam env now consumerId agentId db = (db', res) ->
  exists more,
    Db.fraud_detection_log db' = (Db.fraud_detection_log db ++ more)%list.
Proof.
  unfold FraudDetectionService.detectSpam, bind, query, ret.
  destruct (negb (Env.isProductionMode env)).
  { intros H. injection H as <- <-. exists []. now rewrite app_nil_r. }
  destruct (10 <? _)%Z.
  2:{ intros H. injection H as <- <-. exists []. now rewrite app_nil_r. }
  destruct (FraudDetectionRepository.create _ _ _ _ _ _ db) as [db1 r] eqn:Hc.
  apply fraud_create_grows in Hc. destruct Hc as [row [-> [Hlog _]]].
  intros H. injection H as <- <-. now exists [row].
Qed.

Lemma detectRatingPatterns_grows env now agentId db db' res :
  FraudDetectionService.detectRatingPatterns env now agentId db = (db', res) ->
  exists more,
    Db.fraud_detection_log db' = (Db.fraud_detection_log db ++ more)%list.
Proof.
  unfold FraudDetectionService.detectRatingPatterns, bind, query, ret.
  destruct (negb (Env.isProductionMode env)).
  { intros H. injection H as <- <-. exists []. now rewrite app_nil_r. }
  destruct (_ && _).
  2:{ intros H. injection H as <- <-. exists []. now rewrite app_nil_r. }
  destruct (FraudDetectionRepository.create _ _ _ _ _ _ db) as [db1 r] eqn:Hc.
  apply fraud_create_grows in Hc. destruct Hc as [row [-> [Hlog _]]].
  intros H. injection H as <- <-. now exists [row].
Qed.

Lemma detectSelfRating_grows env now consumerId agentId db db' res :
  FraudDetectionService.detectSelfRating env now consumerId agentId db
  = (db', res) ->
  exists p more,
    res = Ok p
    /\ Db.fraud_detection_log db' = (Db.fraud_detection_log db ++ more)%list
    /\ (p = (false, 1.0) \/ p = (true, 0.1)).
Proof.
  unfold FraudDetectionService.detectSelfRating, bind, query, ret.
  assert (Hnone : forall db' res,
             (db, Ok (false, 1.0)) = (db', res) ->
             exists p more,
               res = Ok p
               /\ Db.fraud_detection_log db'
                  = (Db.fraud_detection_log db ++ more)%list
               /\ (p = (false, 1.0) \/ p = (true, 0.1))).
  { intros d r H. injection H as <- <-. exists (false, 1.0), [].
    rewrite app_nil_r. auto. }
  destruct (negb (Env.isProductionMode env)); [apply Hnone |].
  destruct (AgentRepository.findById agentId db) as [agent |]; [| apply Hnone].
  destruct (Agent.caller_id agent) as [callerId |]; [| apply Hnone].
  destruct (negb (JS.truthy callerId)); [apply Hnone |].
  destruct (consumerId =? callerId); [| apply Hnone].
  destruct (FraudDetectionRepository.create _ _ _ _ _ _ db) as [db1 r] eqn:Hc.
  apply fraud_create_grows in Hc. destruct Hc as [row [-> [Hlog _]]].
  intros H. injection H as <- <-. exists (true, 0.1), [row]. auto.
Qed.

Lemma calculateFeedbackWeight_range Math_log env consumerId agentId db :
  (forall x, 1 <= x -> 0 <= Math_log x) ->
  exists w,
    FraudDetectionService.calculateFeedbackWeight Math_log env consumerId agentId
      db = (db, Ok w)
    /\ 0.1 <= w <= 1.
Proof.
  intros Hlog.
  unfold FraudDetectionService.calculateFeedbackWeight, bind, query, ret.
  destruct (negb (Env.isProductionMode env));
    [exists 1.0; split; [reflexivity | split; discriminate] |].
  destruct (_ =? 0)%Z eqn:Hzero;
    [exists 1.0; split; [reflexivity | split; discriminate] |].
  eexists. split; [reflexivity |].
  split; [apply Math_max_ge_l |].
  apply Math_max_range with (lo := 0); [split; discriminate |].
  set (n := FeedbackRepository.countByConsumerAndAgent consumerId agentId db).
  assert (Hn : 0 <= inject_Z n).
  { rewrite <- (Zle_Qle 0). apply count_bounds. }
  assert (Hd : 0 <= Math_log (1 + inject_Z n)) by (apply Hlog; lra).
  split.
  - apply Qle_shift_div_l; lra.
  - apply Qle_shift_div_r; lra.
Qed.

(** X12: with a logarithm that is not negative from 1 on, the fraud
    analysis of a feedback always returns: either it blocks the feedback,
    with weight 0, or it lets it pass with a weight between 0.01 and 1; and
    the fraud log it leaves is the one it found with entries added at the
    end. *)
Theorem feedback_weight_range
    (Math_log : Q -> Q) (env : Env.t) (now : Z) (consumerId agentId : string)
    (db : Db.t) :
  (forall x, 1 <= x -> 0 <= Math_log x) ->
  exists db' analysis more,
    FraudDetectionService.analyzeFeedback Math_log env now consumerId agentId db
    = (db', Ok analysis)
    /\ Db.fraud_detection_log db' = (Db.fraud_detection_log db ++ more)%list
    /\ (if FraudDetectionService.Analysis.shouldBlock analysis
        then FraudDetectionService.Analysis.totalWeight analysis = 0
        else 0.01 <= FraudDetectionService.Analysis.totalWeight analysis <= 1).
Proof.
  intros Hlog. unfold FraudDetectionService.analyzeFeedback.
  destruct (negb (Env.isProductionMode env)).
  { do 2 eexists. exists []. split; [reflexivity |].
    rewrite app_nil_r. split; [reflexivity |]. simpl. split; discriminate. }
  unfold bind at 1.
  destruct (FraudDetectionService.detectSelfRating env now consumerId agentId db)
    as [db1 r1] eqn:H1.
  apply detectSelfRating_grows in H1.
  destruct H1 as [selfRating [more1 [-> [Hlog1 Hself]]]].
  unfold bind at 1.
  destruct (FraudDetectionService.detectSpam env now consumerId agentId db1)
    as [db2 r2] eqn:H2.
  pose proof (detectSpam_grows _ _ _ _ _ _ _ H2) as [more2 Hlog2].
  assert (Hr2 : exists spam, r2 = Ok spam).
  { revert H2.
    unfold FraudDetectionService.detectSpam, bind, query, ret.
    destruct (negb (Env.isProductionMode env));
      [intros H; injection H as <- <-; eauto |].
    destruct (10 <? _)%Z; [| intros H; injection H as <- <-; eauto].
    destruct (FraudDetectionRepository.create _ _ _ _ _ _ db1) as [d r] eqn:Hc.
    apply fraud_create_grows in Hc. destruct Hc as [row [-> _]].
    intros H; injection H as <- <-; eauto. }
  destruct Hr2 as [spam ->].
  destruct spam.
  { do 2 eexists. exists (more1 ++ more2)%list. unfold ret.
    split; [reflexivity |].
    split; [now rewrite Hlog2, Hlog1, app_assoc | reflexivity]. }
  unfold bind at 1.
  destruct (calculateFeedbackWeight_range Math_log env consumerId agentId db2 Hlog)
    as [w [-> [Hw0 Hw1]]].
  unfold bind at 1.
  destruct (FraudDetectionService.detectRatingPatterns env now agentId db2)
    as [db3 r3] eqn:H3.
  pose proof (detectRatingPatterns_grows _ _ _ _ _ _ H3) as [more3 Hlog3].
  apply detectRatingPatterns_inv in H3. destruct H3 as [_ [b ->]].
  do 2 eexists. exists ((more1 ++ more2) ++ more3)%list. unfold ret.
  split; [reflexivity |].
  split; [now rewrite Hlog3, Hlog2, Hlog1, !app_assoc |].
  cbn [FraudDetectionService.Analysis.shouldBlock
         FraudDetectionService.Analysis.totalWeight].
  destruct Hself as [-> | ->]; cbn [snd]; split; lra.
Qed.

Lemma feedback_weight_range_witness :
  exists db' analysis more,
    FraudDetectionService.analyzeFeedback Sample.flat_log Sample.production 0
      "consumer-1" "agent:w" Sample.registry
    = (db', Ok analysis)
    /\ Db.fraud_detection_log db'
       = (Db.fraud_detection_log Sample.registry ++ more)%list
    /\ (if FraudDetectionService.Analysis.shouldBlock analysis
        then FraudDetectionService.Analysis.totalWeight analysis = 0
        else 0.01 <= FraudDetectionService.Analysis.totalWeight analysis <= 1).
Proof.
  apply (feedback_weight_range Sample.flat_log Sample.production 0
           "consumer-1" "agent:w" Sample.registry).
  intros x _. discriminate.
Defined.

(** X13: in production, a feedback whose consumer is the owner of the
    agent is marked as fraud: the analysis logs a SELF_RATING entry of
    severity HIGH for the pair, before any other entry, and the feedback
    counts with a weight of at most 0.1, a tenth of what the consumer's
    history allows. *)
Theorem self_rating_detected
    (Math_log : Q -> Q) (env : Env.t) (now : Z) (consumerId agentId : string)
    (db : Db.t) (agent : Agent.t) :
  (forall x, 1 <= x -> 0 <= Math_log x) ->
  Env.isProductionMode env = true ->
  AgentRepository.findById agentId db = Some agent ->
  Agent.caller_id agent = Some consumerId ->
  JS.truthy consumerId = true ->
  exists db' analysis row more,
    FraudDetectionService.analyzeFeedback Math_log env now consumerId agentId db
    = (db', Ok analysis)
    /\ FraudDetectionService.Analysis.fraudDetected analysis = true
    /\ FraudDetectionService.Analysis.totalWeight analysis <= 0.1
    /\ Db.fraud_detection_log db'
       = (Db.fraud_detection_log db ++ row :: more)%list
    /\ FraudDetection.fraud_type row = SELF_RATING
    /\ FraudDetection.severity row = HIGH
    /\ FraudDetection.agent_id row = agentId
    /\ FraudDetection.consumer_id row = Some consumerId.
Proof.
  intros Hlog Hprod Hagent Hcaller Htruthy.
  unfold FraudDetectionService.analyzeFeedback.
  rewrite Hprod. cbn [negb]. unfold bind at 1.
  unfold FraudDetectionService.detectSelfRating.
  rewrite Hprod. cbn [negb]. unfold bind at 1, query at 1.
  rewrite Hagent, Hcaller, Htruthy, String.eqb_refl. cbn [negb].
  unfold bind at 1. unfold FraudDetectionRepository.create at 1.
  rewrite Htruthy. unfold ret at 1.
  match goal with
  | |- context [Db.with_fraud_detection_log (_ ++ [?r])%list db] =>
      set (row := r); set (db1 := Db.with_fraud_detection_log _ db)
  end.
  assert (Hlog1 : Db.fraud_detection_log db1
                  = (Db.fraud_detection_log db ++ [row])%list) by reflexivity.
  unfold bind at 1.
  destruct (FraudDetectionService.detectSpam env now consumerId agentId db1)
    as [db2 r2] eqn:H2.
  pose proof (detectSpam_grows _ _ _ _ _ _ _ H2) as [more2 Hlog2].
  apply (detectSpam_inv _ _ _ _ _ _ _ Hprod) in H2. destruct H2 as [_ ->].
  destruct (10 <? _)%Z.
  { exists db2. eexists. exists row, more2. unfold ret.
    split; [reflexivity |].
    split; [reflexivity |].
    split; [discriminate |].
    split; [now rewrite Hlog2, Hlog1, <- app_assoc |].
    repeat split. }
  unfold bind at 1.
  destruct (calculateFeedbackWeight_range Math_log env consumerId agentId db2 Hlog)
    as [w [-> [Hw0 Hw1]]].
  unfold bind at 1.
  destruct (FraudDetectionService.detectRatingPatterns env now agentId db2)
    as [db3 r3] eqn:H3.
  pose proof (detectRatingPatterns_grows _ _ _ _ _ _ H3) as [more3 Hlog3].
  apply detectRatingPatterns_inv in H3. destruct H3 as [_ [b ->]].
  exists db3. eexists. exists row, (more2 ++ more3)%list. unfold ret.
  split; [reflexivity |].
  cbn [FraudDetectionService.Analysis.fraudDetected
         FraudDetectionService.Analysis.totalWeight fst snd].
  split; [reflexivity |].
  split; [lra |].
  split; [now rewrite Hlog3, Hlog2, Hlog1, <- !app_assoc |].
  repeat split.
Qed.

Lemma self_rating_detected_witness :
  exists db' analysis row more,
    FraudDetectionService.analyzeFeedback Sample.flat_log Sample.production 0
      "provider-1" "agent:w" Sample.registry
    = (db', Ok analysis)
    /\ FraudDetectionService.Analysis.fraudDetected analysis = true
    /\ FraudDetectionService.Analysis.totalWeight analysis <= 0.1
    /\ Db.fraud_detection_log db'
       = (Db.fraud_detection_log Sample.registry ++ row :: more)%list
    /\ FraudDetection.fraud_type row = SELF_RATING
    /\ FraudDetection.severity row = HIGH
    /\ FraudDetection.agent_id row = "agent:w"
    /\ FraudDetection.consumer_id row = Some "provider-1".
Proof.
  apply (self_rating_detected Sample.flat_log Sample.production 0
           "provider-1" "agent:w" Sample.registry
           (Sample.agent "agent:w" "Miami,FL,USA" None)).
  - intros x _. discriminate.
  - reflexivity.
  - reflexivity.
  - reflexivity.
  - reflexivity.
Defined.

(** ** The review: which moves it makes, what it writes, what it counts *)

Lemma verdict_moves (env : Env.t) (agentId : string) (current : AgentStatus)
    (db : Db.t) :
  let next :=
    QuarantineService.status_after
      (QuarantineService.verdict env agentId current db) current in
  (current = banned -> next = banned) /\ (current = active -> next <> banned).
Proof.
  unfold QuarantineService.verdict.
  destruct (QuarantineService.checkAgentHealth env agentId db) as [h |];
    [| split; [auto | intros ->; discriminate]].
  destruct (StatsRepository.findByAgentId agentId db) as [stats |];
    [| split; [auto | intros ->; discriminate]].
  destruct current; cbn zeta.
  - destruct (_ && _); split; intros; discriminate.
  - split; intros; discriminate.
  - split; [reflexivity | intros; discriminate].
Qed.

Lemma count_cons {A} (p : A -> bool) (x : A) (l : list A) :
  count p (x :: l) = ((if p x then 1 else 0) + count p l)%Z.
Proof.
  unfold count. simpl. destruct (p x); simpl List.length; lia.
Qed.

Lemma review_counts env (now : Z) (db0 : Db.t) :
  Env.isProductionMode env = true ->
  forall rest db c,
    QuarantineService.same_but_status db0 db ->
    let verdict_of a :=
      QuarantineService.verdict env (Agent.id a)
        (QuarantineService.status_or_active (Agent.status a)) db0 in
    let counts :=
      snd (fold_left (QuarantineService.reviewAgent env now) rest (db, c)) in
    QuarantineService.Counts.quarantined counts
    = (QuarantineService.Counts.quarantined c
       + count (fun a => match verdict_of a with
                         | QuarantineService.ToQuarantine => true
                         | _ => false
                         end) rest)%Z
    /\ QuarantineService.Counts.reactivated counts
       = (QuarantineService.Counts.reactivated c
          + count (fun a => match verdict_of a with
                            | QuarantineService.ToActive => true
                            | _ => false
                            end) rest)%Z
    /\ QuarantineService.Counts.banned counts
       = (QuarantineService.Counts.banned c
          + count (fun a => match verdict_of a with
                            | QuarantineService.ToBanned => true
                            | _ => false
                            end) rest)%Z.
Proof.
  intros Hprod. cbn zeta.
  induction rest as [| a rest IH]; intros db c Hsame.
  - unfold count. simpl. repeat split; lia.
  - cbn [fold_left]. rewrite !count_cons.
    pose proof (reviewAgent_spec env now db c a Hprod) as Hspec.
    rewrite (verdict_same env _ _ _ _ Hsame) in Hspec.
    destruct (QuarantineService.verdict env (Agent.id a) _ db0).
    + rewrite Hspec.
      destruct (IH db c Hsame) as [-> [-> ->]]. repeat split; lia.
    + destruct Hspec as [reason ->].
      destruct (IH (AgentRepository.update_where_id now (Agent.id a)
                      (Agent.set_status quarantine (Some reason) (Some now)) db)
                  (QuarantineService.count_quarantined c))
        as [-> [-> ->]].
      * apply same_but_status_update; [| exact Hsame].
        intros x. split; reflexivity.
      * cbn [QuarantineService.count_quarantined
               QuarantineService.count_reactivated
               QuarantineService.count_banned
               QuarantineService.Counts.quarantined
               QuarantineService.Counts.reactivated
               QuarantineService.Counts.banned].
        repeat split; lia.
    + rewrite Hspec.
      destruct (IH (AgentRepository.update_where_id now (Agent.id a)
                      (fun a0 => Agent.set_status active None
                                   (Agent.quarantine_at a0) a0) db)
                  (QuarantineService.count_reactivated c))
        as [-> [-> ->]].
      * apply same_but_status_update; [| exact Hsame].
        intros x. split; reflexivity.
      * cbn [QuarantineService.count_quarantined
               QuarantineService.count_reactivated
               QuarantineService.count_banned
               QuarantineService.Counts.quarantined
               QuarantineService.Counts.reactivated
               QuarantineService.Counts.banned].
        repeat split; lia.
    + destruct Hspec as [reason ->].
      destruct (IH (AgentRepository.update_where_id now (Agent.id a)
                      (Agent.set_status banned (Some reason) (Some now)) db)
                  (QuarantineService.count_banned c))
        as [-> [-> ->]].
      * apply same_but_status_update; [| exact Hsame].
        intros x. split; reflexivity.
      * cbn [QuarantineService.count_quarantined
               QuarantineService.count_reactivated
               QuarantineService.count_banned
               QuarantineService.Counts.quarantined
               QuarantineService.Counts.reactivated
               QuarantineService.Counts.banned].
        repeat split; lia.
Qed.

(** X16: in production the three numbers the daily review reports are the
    numbers of agents its thresholds name: those it moves to quarantine,
    those it reactivates and those it bans, each judged on the database as
    the review found it. *)
Theorem auto_review_counts (env : Env.t) (now : Z) (db : Db.t) :
  Env.isProductionMode env = true ->
  let verdict_of a :=
    QuarantineService.verdict env (Agent.id a)
      (QuarantineService.status_or_active (Agent.status a)) db in
  let counts := snd (QuarantineService.autoReviewAgents env now db) in
  QuarantineService.Counts.quarantined counts
  = count (fun a => match verdict_of a with
                    | QuarantineService.ToQuarantine => true
                    | _ => false
                    end) (Db.agents db)
  /\ QuarantineService.Counts.reactivated counts
     = count (fun a => match verdict_of a with
                       | QuarantineService.ToActive => true
                       | _ => false
                       end) (Db.agents db)
  /\ QuarantineService.Counts.banned counts
     = count (fun a => match verdict_of a with
                       | QuarantineService.ToBanned => true
                       | _ => false
                       end) (Db.agents db).
Proof.
  intros Hprod verdict_of counts.
  unfold counts, QuarantineService.autoReviewAgents,
    QuarantineService.autoReviewAgents_of.
  rewrite Hprod. cbn [negb].
  destruct (review_counts env now db Hprod (AgentRepository.findAll db) db
              {| QuarantineService.Counts.quarantined := 0%Z;
                 QuarantineService.Counts.reactivated := 0%Z;
                 QuarantineService.Counts.banned := 0%Z |}
              (same_but_status_refl db)) as [Hq [Hr Hb]].
  unfold AgentRepository.findAll in *. cbn zeta in Hq, Hr, Hb.
  rewrite Hq, Hr, Hb.
  cbn [QuarantineService.Counts.quarantined
         QuarantineService.Counts.reactivated QuarantineService.Counts.banned].
  repeat split.
Qed.

Lemma auto_review_counts_witness :
  QuarantineService.Counts.quarantined
    (snd (QuarantineService.autoReviewAgents Sample.production 0 Sample.failing))
  = count (fun a =>
             match QuarantineService.verdict Sample.production (Agent.id a)
                     (QuarantineService.status_or_active (Agent.status a))
                     Sample.failing with
             | QuarantineService.ToQuarantine => true
             | _ => false
             end) (Db.agents Sample.failing).
Proof.
  apply (auto_review_counts Sample.production 0 Sample.failing).
  reflexivity.
Defined.

(** ** The health report *)

Lemma flag_levels (cond : bool) (warning : string) (risk : QuarantineRisk)
    (acc : list string * QuarantineRisk) :
  QuarantineService.at_risk risk = true ->
  (snd acc <> risk_medium /\ (fst acc = [] <-> snd acc = risk_low)) ->
  snd (QuarantineService.flag cond warning risk acc) <> risk_medium
  /\ (fst (QuarantineService.flag cond warning risk acc) = []
      <-> snd (QuarantineService.flag cond warning risk acc) = risk_low).
Proof.
  intros Hrisk Hacc. unfold QuarantineService.flag.
  destruct cond; [| exact Hacc]. cbn [fst snd].
  split; [intros ->; discriminate |].
  split.
  - intros H. apply app_eq_nil in H. destruct H as [_ H]. discriminate.
  - intros ->. discriminate.
Qed.

(** X17: a health report never carries the risk level medium, and its
    risk is low exactly when it lists no warning. *)
Theorem health_risk_levels (env : Env.t) (agentId : string) (db : Db.t)
    (h : AgentHealthMetrics.t) :
  QuarantineService.checkAgentHealth env agentId db = Some h ->
  AgentHealthMetrics.quarantine_risk h <> risk_medium
  /\ (AgentHealthMetrics.warnings h = []
      <-> AgentHealthMetrics.quarantine_risk h = risk_low).
Proof.
  unfold QuarantineService.checkAgentHealth.
  destruct (AgentRepository.findById agentId db) as [agent |]; [| discriminate].
  destruct (StatsRepository.findByAgentId agentId db) as [stats |].
  2:{ intros H. injection H as <-. simpl.
      split; [discriminate | split; reflexivity]. }
  match goal with
  | |- (let '(warnings, quarantineRisk) := ?chain in _) = _ -> _ =>
      assert (Hchain : snd chain <> risk_medium
                       /\ (fst chain = [] <-> snd chain = risk_low));
        [| destruct chain as [warnings risk]]
  end.
  { do 8 (apply flag_levels; [reflexivity |]).
    simpl. split; [discriminate | split; reflexivity]. }
  intros H. injection H as <-.
  cbn [AgentHealthMetrics.quarantine_risk AgentHealthMetrics.warnings].
  exact Hchain.
Qed.

Lemma health_risk_levels_witness :
  exists h,
    QuarantineService.checkAgentHealth Sample.production "agent:w" Sample.failing
    = Some h
    /\ AgentHealthMetrics.quarantine_risk h <> risk_medium
    /\ (AgentHealthMetrics.warnings h = []
        <-> AgentHealthMetrics.quarantine_risk h = risk_low).
Proof.
  assert (H : exists h,
             QuarantineService.checkAgentHealth Sample.production "agent:w"
               Sample.failing = Some h)
    by (eexists; vm_compute; reflexivity).
  destruct H as [h Hh]. exists h. split; [exact Hh |].
  exact (health_risk_levels Sample.production "agent:w" Sample.failing h Hh).
Defined.

Lemma or_default_0_range (lo hi v : Q) :
  lo <= 0 <= hi -> lo <= v <= hi -> lo <= JS.or_default v 0 <= hi.
Proof.
  intros H0 Hv. unfold JS.or_default. now destruct (Qeq_bool v 0).
Qed.

Lemma Math_round_unit (x : Q) :
  0 <= x <= 1 -> 0 <= JS.Math_round (x * 100) / 100 <= 1.
Proof.
  intros [H0 H1]. split.
  - apply Qle_trans with (inject_Z 0 / 100); [discriminate |].
    apply Math_round_hundredths_ge.
    apply Qle_trans with 0; [discriminate | exact H0].
  - apply Qle_trans with (JS.Math_round (1 * 100) / 100);
      [now apply Math_round_hundredths_le | discriminate].
Qed.

(** X18: the health score of an agent whose statistics count no more
    successes than calls and hold an average rating between 0 and 1 and an
    average latency that is not negative is between 0 and 1. *)
Theorem health_score_range (env : Env.t) (agentId : string) (db : Db.t)
    (h : AgentHealthMetrics.t) :
  (forall stats,
     StatsRepository.findByAgentId agentId db = Some stats ->
     (0 <= AgentStats.calls_success stats <= AgentStats.calls_total stats)%Z
     /\ 0 <= AgentStats.avg_rating stats <= 1
     /\ 0 <= AgentStats.avg_latency_ms stats) ->
  QuarantineService.checkAgentHealth env agentId db = Some h ->
  0 <= AgentHealthMetrics.health_score h <= 1.
Proof.
  intros Hstats. unfold QuarantineService.checkAgentHealth.
  destruct (AgentRepository.findById agentId db) as [agent |]; [| discriminate].
  destruct (StatsRepository.findByAgentId agentId db) as [stats |].
  2:{ intros H. injection H as <-. simpl. split; discriminate. }
  destruct (Hstats stats eq_refl) as [Hcounts [Hrating Hlatency]].
  match goal with
  | |- (let '(warnings, quarantineRisk) := ?chain in _) = _ -> _ =>
      destruct chain as [warnings risk]
  end.
  intros H. injection H as <-. cbn [AgentHealthMetrics.health_score].
  apply Math_round_unit. unfold QuarantineService.healthScore.
  assert (Hsuccess : 0 <= QuarantineService.successRateOf 0 stats <= 1).
  { unfold QuarantineService.successRateOf.
    destruct (0 <? AgentStats.calls_total stats)%Z eqn:Htotal;
      [| split; discriminate].
    apply Z.ltb_lt in Htotal. now apply ratio_range. }
  assert (Hr : 0 <= JS.or_default (AgentStats.avg_rating stats) 0 <= 1).
  { apply or_default_0_range; [split; discriminate | exact Hrating]. }
  assert (Hl : 0 <= JS.Math_min
                      (JS.or_default (AgentStats.avg_latency_ms stats) 0 / 10000)
                      1 <= 1).
  { split; [| apply Math_min_le_r].
    apply Math_min_ge; [| discriminate].
    apply Qle_shift_div_l; [reflexivity |].
    unfold JS.or_default.
    destruct (Qeq_bool _ 0); [discriminate | lra]. }
  pose proof (calculateFraudPercentage_range env agentId db) as Hfraud.
  assert (Hf : 0 <= FraudDetectionService.calculateFraudPercentage env agentId db
                    / 100 <= 1).
  { destruct Hfraud. split.
    - apply Qle_shift_div_l; [reflexivity | lra].
    - apply Qle_shift_div_r; [reflexivity | lra]. }
  destruct Hsuccess, Hr, Hl, Hf. split; lra.
Qed.

Lemma health_score_range_witness :
  exists h,
    QuarantineService.checkAgentHealth Sample.production "agent:w" Sample.failing
    = Some h
    /\ 0 <= AgentHealthMetrics.health_score h <= 1.
Proof.
  assert (H : exists h,
             QuarantineService.checkAgentHealth Sample.production "agent:w"
               Sample.failing = Some h)
    by (eexists; vm_compute; reflexivity).
  destruct H as [h Hh]. exists h. split; [exact Hh |].
  apply (health_score_range Sample.production "agent:w" Sample.failing h);
    [| exact Hh].
  intros stats Hs. injection Hs as <-.
  split; [cbn; lia |]. split; [split; discriminate | discriminate].
Defined.

(** ** The statistics after an update *)

Lemma stored_fields (s row : AgentStats.t) :
  StatsRepository.stored s = Ok row ->
  AgentStats.agent_id row = AgentStats.agent_id s
  /\ AgentStats.calls_total row = AgentStats.calls_total s
  /\ AgentStats.calls_success row = AgentStats.calls_success s
  /\ AgentStats.last_feedback_at row = AgentStats.last_feedback_at s.
Proof.
  unfold StatsRepository.stored, Pg.integer.
  destruct (_ && _); [| discriminate].
  destruct (_ && _); [| discriminate].
  destruct (Pg.numeric 10 2 _); [| discriminate].
  destruct (Pg.numeric 3 2 _); [| discriminate].
  intros H. injection H as <-. repeat split.
Qed.

Lemma find_other_replaced (agentId other : string) (row : AgentStats.t)
    (l : list AgentStats.t) :
  AgentStats.agent_id row = agentId -> other <> agentId ->
  find (fun s => AgentStats.agent_id s =? other)
    (map (fun s => if AgentStats.agent_id s =? agentId then row else s) l)
  = find (fun s => AgentStats.agent_id s =? other) l.
Proof.
  intros Hrow Hother. apply String.eqb_neq in Hother.
  induction l as [| s l IH]; [reflexivity |]. simpl.
  destruct (AgentStats.agent_id s =? agentId) eqn:Hs.
  - apply String.eqb_eq in Hs. rewrite Hrow, Hs.
    rewrite String.eqb_sym, Hother. exact IH.
  - rewrite IH. reflexivity.
Qed.

Lemma find_other_appended (agentId other : string) (row : AgentStats.t)
    (l : list AgentStats.t) :
  AgentStats.agent_id row = agentId -> other <> agentId ->
  find (fun s => AgentStats.agent_id s =? other) (l ++ [row])
  = find (fun s => AgentStats.agent_id s =? other) l.
Proof.
  intros Hrow Hother. apply String.eqb_neq in Hother.
  induction l as [| s l IH]; simpl.
  - now rewrite Hrow, String.eqb_sym, Hother.
  - now rewrite IH.
Qed.

Lemma increment_lookup_other now agentId success latencyMs rating weight
    db db' res :
  StatsRepository.incrementFeedbackWeighted now agentId success latencyMs rating
    weight db = (db', res) ->
  forall other, other <> agentId ->
    StatsRepository.findByAgentId other db'
    = StatsRepository.findByAgentId other db.
Proof.
  unfold StatsRepository.incrementFeedbackWeighted, bind, query.
  destruct (StatsRepository.findByAgentId agentId db) as [existing |] eqn:Hfind.
  - unfold StatsRepository.update.
    match goal with
    | |- context [StatsRepository.stored ?s] =>
        destruct (StatsRepository.stored s) as [row' | e] eqn:Hstored
    end; intros H; injection H as <- <-; [| reflexivity].
    apply stored_fields in Hstored. destruct Hstored as [Hid _].
    intros other Hother. unfold StatsRepository.findByAgentId. simpl.
    now apply (find_other_replaced agentId).
  - unfold StatsRepository.create.
    match goal with
    | |- context [StatsRepository.stored ?s] =>
        destruct (StatsRepository.stored s) as [row' | e] eqn:Hstored
    end; intros H; injection H as <- <-; [| reflexivity].
    apply stored_fields in Hstored. destruct Hstored as [Hid _].
    intros other Hother. unfold StatsRepository.findByAgentId. simpl.
    now apply (find_other_appended agentId).
Qed.

(** X19: after an update of the statistics that succeeds, the row of the
    agent is the row returned: it counts one call more than before, one
    success more when the call succeeded, and it holds the time of the
    feedback; the statistics of every other agent are as they were. *)
Theorem increment_lookup
    (now : Z) (agentId : string) (success : bool) (latencyMs rating weight : Q)
    (db db' : Db.t) (row : AgentStats.t) :
  StatsRepository.incrementFeedbackWeighted now agentId success latencyMs rating
    weight db = (db', Ok row) ->
  StatsRepository.findByAgentId agentId db' = Some row
  /\ AgentStats.agent_id row = agentId
  /\ AgentStats.calls_total row
     = (match StatsRepository.findByAgentId agentId db with
        | Some existing => AgentStats.calls_total existing
        | None => 0
        end + 1)%Z
  /\ AgentStats.calls_success row
     = (match StatsRepository.findByAgentId agentId db with
        | Some existing => AgentStats.calls_success existing
        | None => 0
        end + (if success then 1 else 0))%Z
  /\ AgentStats.last_feedback_at row = Some now
  /\ (forall other, other <> agentId ->
        StatsRepository.findByAgentId other db'
        = StatsRepository.findByAgentId other db).
Proof.
  unfold StatsRepository.incrementFeedbackWeighted, bind, query.
  destruct (StatsRepository.findByAgentId agentId db) as [existing |] eqn:Hfind.
  - unfold StatsRepository.update.
    match goal with
    | |- context [StatsRepository.stored ?s] =>
        destruct (StatsRepository.stored s) as [row' | e] eqn:Hstored
    end; [| discriminate].
    apply stored_fields in Hstored.
    cbn [AgentStats.agent_id AgentStats.calls_total AgentStats.calls_success
           AgentStats.last_feedback_at] in *.
    destruct Hstored as [Hid [Htotal [Hsuccess Hlast]]].
    intros H. injection H as <- <-.
    split.
    { unfold StatsRepository.findByAgentId. simpl.
      apply (find_map_replace (fun s => AgentStats.agent_id s =? agentId)
               (Db.agent_stats db) existing row' Hfind).
      rewrite Hid. apply String.eqb_refl. }
    repeat (split; [assumption |]).
    intros other Hother. unfold StatsRepository.findByAgentId. simpl.
    now apply (find_other_replaced agentId).
  - unfold StatsRepository.create.
    match goal with
    | |- context [StatsRepository.stored ?s] =>
        destruct (StatsRepository.stored s) as [row' | e] eqn:Hstored
    end; [| discriminate].
    apply stored_fields in Hstored.
    cbn [AgentStats.agent_id AgentStats.calls_total AgentStats.calls_success
           AgentStats.last_feedback_at] in *.
    destruct Hstored as [Hid [Htotal [Hsuccess Hlast]]].
    intros H. injection H as <- <-.
    split.
    { unfold StatsRepository.findByAgentId. simpl.
      apply find_app_none; [exact Hfind |].
      rewrite Hid. apply String.eqb_refl. }
    repeat (split; [assumption |]).
    intros other Hother. unfold StatsRepository.findByAgentId. simpl.
    now apply (find_other_appended agentId).
Qed.

Lemma increment_lookup_witness :
  exists db' row,
    StatsRepository.incrementFeedbackWeighted 1000 "agent:w" true 250 1 1
      Sample.failing = (db', Ok row)
    /\ StatsRepository.findByAgentId "agent:w" db' = Some row
    /\ AgentStats.calls_total row = 26%Z
    /\ AgentStats.calls_success row = 6%Z.
Proof.
  assert (H : exists db' row,
             StatsRepository.incrementFeedbackWeighted 1000 "agent:w" true 250
               1 1 Sample.failing = (db', Ok row))
    by (do 2 eexists; vm_compute; reflexivity).
  destruct H as [db' [row H]]. exists db', row. split; [exact H |].
  destruct (increment_lookup 1000 "agent:w" true 250 1 1 Sample.failing db' row H)
    as [Hfind [_ [Htotal [Hsuccess _]]]].
  split; [exact Hfind |]. split; [exact Htotal | exact Hsuccess].
Defined.

(** ** What a submission may write *)

Lemma analyzeFeedback_footprint Math_log env now consumerId agentId db db' res :
  FraudDetectionService.analyzeFeedback Math_log env now consumerId agentId db
  = (db', res) ->
  FeedbackService.same_but_frauds db db'
  /\ exists more,
       Db.fraud_detection_log db' = (Db.fraud_detection_log db ++ more)%list.
Proof.
  unfold FraudDetectionService.analyzeFeedback.
  destruct (Env.isProductionMode env) eqn:Hprod; cbn [negb].
  2:{ intros H. injection H as <- <-.
      split; [apply same_but_frauds_refl | exists []; now rewrite app_nil_r]. }
  unfold bind at 1.
  destruct (FraudDetectionService.detectSelfRating env now consumerId agentId db)
    as [db1 r1] eqn:H1.
  pose proof (detectSelfRating_grows _ _ _ _ _ _ _ H1)
    as [selfRating [more1 [-> [Hlog1 _]]]].
  apply detectSelfRating_inv in H1. destruct H1 as [Hsame1 _].
  unfold bind at 1.
  destruct (FraudDetectionService.detectSpam env now consumerId agentId db1)
    as [db2 r2] eqn:H2.
  pose proof (detectSpam_grows _ _ _ _ _ _ _ H2) as [more2 Hlog2].
  apply (detectSpam_inv _ _ _ _ _ _ _ Hprod) in H2. destruct H2 as [Hsame2 ->].
  pose proof (same_but_frauds_trans _ _ _ Hsame1 Hsame2) as Hsame12.
  destruct (10 <? _)%Z.
  { intros H. injection H as <- <-. split; [exact Hsame12 |].
    exists (more1 ++ more2)%list. now rewrite Hlog2, Hlog1, app_assoc. }
  unfold bind at 1.
  destruct (FraudDetectionService.calculateFeedbackWeight Math_log env consumerId
              agentId db2) as [db2' r] eqn:Hw.
  apply calculateFeedbackWeight_inv in Hw. destruct Hw as [-> [w ->]].
  unfold bind at 1.
  destruct (FraudDetectionService.detectRatingPatterns env now agentId db2)
    as [db3 r3] eqn:H3.
  pose proof (detectRatingPatterns_grows _ _ _ _ _ _ H3) as [more3 Hlog3].
  apply detectRatingPatterns_inv in H3. destruct H3 as [Hsame3 [b ->]].
  intros H. injection H as <- <-.
  split; [exact (same_but_frauds_trans _ _ _ Hsame12 Hsame3) |].
  exists ((more1 ++ more2) ++ more3)%list.
  now rewrite Hlog3, Hlog2, Hlog1, !app_assoc.
Qed.

(** X20: whatever its outcome and whatever the mode, a submission leaves
    the agents and the callers as they were, adds at most one feedback row
    at the end of the table, only adds entries to the fraud log, and
    touches the statistics of no other agent. *)
Theorem feedback_footprint
    (Math_log : Q -> Q) (env : Env.t) (now : Z)
    (request : FeedbackRequest.t) (db : Db.t) :
  let db' := fst (FeedbackService.submitFeedback Math_log env now request db) in
  Db.agents db' = Db.agents db
  /\ Db.callers db' = Db.callers db
  /\ (exists rows,
        Db.agent_feedbacks db' = (Db.agent_feedbacks db ++ rows)%list
        /\ (List.length rows <= 1)%nat)
  /\ (exists entries,
        Db.fraud_detection_log db'
        = (Db.fraud_detection_log db ++ entries)%list)
  /\ (forall other, other <> FeedbackRequest.agent_id request ->
        StatsRepository.findByAgentId other db'
        = StatsRepository.findByAgentId other db).
Proof.
  cbn zeta.
  destruct (FeedbackService.submitFeedback Math_log env now request db)
    as [db' out] eqn:Hsubmit.
  cbn [fst].
  assert (Hnothing : forall out',
    (db, out') = (db', out) ->
    Db.agents db' = Db.agents db
    /\ Db.callers db' = Db.callers db
    /\ (exists rows,
          Db.agent_feedbacks db' = (Db.agent_feedbacks db ++ rows)%list
          /\ (List.length rows <= 1)%nat)
    /\ (exists entries,
          Db.fraud_detection_log db'
          = (Db.fraud_detection_log db ++ entries)%list)
    /\ (forall other, other <> FeedbackRequest.agent_id request ->
          StatsRepository.findByAgentId other db'
          = StatsRepository.findByAgentId other db)).
  { intros out' H. injection H as <- _.
    repeat split; try (exists []; rewrite app_nil_r; simpl; auto). }
  revert Hsubmit. unfold FeedbackService.submitFeedback.
  unfold bind at 1.
  destruct (FeedbackService.validateRequest request db) as [db0 r0] eqn:H0.
  apply validateRequest_inv in H0. destruct H0 as [-> [-> | [e [-> _]]]];
    [| apply Hnothing].
  unfold bind at 1, query at 1.
  destruct (60 <=? _)%Z; [apply Hnothing |].
  unfold bind at 1, query at 1.
  destruct (AgentRepository.findById _ db) as [agent |]; [| apply Hnothing].
  clear Hnothing.
  unfold bind at 1.
  destruct (FraudDetectionService.analyzeFeedback _ _ _ _ _ db) as [db1 r1] eqn:H1.
  apply analyzeFeedback_footprint in H1.
  destruct H1 as [[Hagents1 [Hstats1 [Hfeedbacks1 Hcallers1]]] [more Hlog1]].
  assert (Hfraud : forall out',
    (db1, out') = (db', out) ->
    Db.agents db' = Db.agents db
    /\ Db.callers db' = Db.callers db
    /\ (exists rows,
          Db.agent_feedbacks db' = (Db.agent_feedbacks db ++ rows)%list
          /\ (List.length rows <= 1)%nat)
    /\ (exists entries,
          Db.fraud_detection_log db'
          = (Db.fraud_detection_log db ++ entries)%list)
    /\ (forall other, other <> FeedbackRequest.agent_id request ->
          StatsRepository.findByAgentId other db'
          = StatsRepository.findByAgentId other db)).
  { intros out' H. injection H as <- _.
    split; [exact Hagents1 |]. split; [exact Hcallers1 |].
    split; [exists []; rewrite app_nil_r; simpl; auto |].
    split; [now exists more |].
    intros other _. unfold StatsRepository.findByAgentId. now rewrite Hstats1. }
  destruct r1 as [analysis | e]; [| apply Hfraud].
  destruct (FraudDetectionService.Analysis.shouldBlock analysis);
    [apply Hfraud |].
  unfold bind at 1.
  destruct (FeedbackRepository.create _ _ _ _ _ _ db1) as [db2 r2] eqn:H2.
  pose proof (feedback_create_log _ _ _ _ _ _ _ _ _ H2) as [Hlog2 Hcallers2].
  apply feedback_create_inv in H2. destruct H2 as [Hagents2 [Hstats2 Hrow]].
  destruct Hrow as [[row [-> [Hfeedbacks2 _]]] | [-> [e [-> _]]]];
    [| apply Hfraud].
  clear Hfraud.
  unfold bind at 1.
  destruct (StatsRepository.incrementFeedbackWeighted _ _ _ _ _ _ db2)
    as [db3 r3] eqn:H3.
  pose proof (incrementFeedbackWeighted_log _ _ _ _ _ _ _ _ _ H3)
    as [Hlog3 Hcallers3].
  pose proof (increment_lookup_other _ _ _ _ _ _ _ _ _ H3) as Hother.
  apply incrementFeedbackWeighted_inv in H3.
  destruct H3 as [Hagents3 [Hfeedbacks3 _]].
  assert (Hall : forall out',
    (db3, out') = (db', out) ->
    Db.agents db' = Db.agents db
    /\ Db.callers db' = Db.callers db
    /\ (exists rows,
          Db.agent_feedbacks db' = (Db.agent_feedbacks db ++ rows)%list
          /\ (List.length rows <= 1)%nat)
    /\ (exists entries,
          Db.fraud_detection_log db'
          = (Db.fraud_detection_log db ++ entries)%list)
    /\ (forall other, other <> FeedbackRequest.agent_id request ->
          StatsRepository.findByAgentId other db'
          = StatsRepository.findByAgentId other db)).
  { intros out' H. injection H as <- _.
    split; [congruence |]. split; [congruence |].
    split; [exists [row]; split; [congruence | simpl; auto] |].
    split; [exists more; congruence |].
    intros other Hne. rewrite (Hother other Hne).
    unfold StatsRepository.findByAgentId. now rewrite Hstats2, Hstats1. }
  destruct r3; apply Hall.
Qed.

(** ** Registration *)

Lemma prefix_app (a b s : string) :
  prefix (a ++ b) s = true -> prefix a s = true.
Proof.
  revert s. induction a as [| c a IH]; intros s; [now destruct s |].
  destruct s as [| d s]; simpl; [discriminate |].
  destruct (Ascii.ascii_dec c d); [apply IH | discriminate].
Qed.

Lemma register_validateRequest_inv (request : RegisterAgentRequest.t) :
  (forall db, RegisterService.validateRequest request db = (db, Ok tt))
  \/ exists e,
       forall db, RegisterService.validateRequest request db = (db, Err e).
Proof.
  unfold RegisterService.validateRequest, throw, ret.
  repeat match goal with
         | |- context [if ?c then _ else _] =>
             destruct c; [right; eexists; intros; reflexivity |]
         end.
  left. intros. reflexivity.
Qed.

Lemma validateEndpoint_inv env URL_parses (endpoint : string) :
  ((forall db,
      RegisterService.validateEndpoint env URL_parses endpoint db = (db, Ok tt))
   /\ URL_parses endpoint = true
   /\ (if Env.isProductionMode env then prefix "https://" endpoint
       else prefix "https://" endpoint
            || prefix "http://localhost:" endpoint
            || prefix "http://127.0.0.1:" endpoint) = true)
  \/ exists e,
       forall db,
         RegisterService.validateEndpoint env URL_parses endpoint db
         = (db, Err e).
Proof.
  unfold RegisterService.validateEndpoint.
  destruct (Env.isProductionMode env).
  - destruct (prefix "https://" endpoint) eqn:Hhttps; cbn [negb].
    + unfold bind, ret, throw.
      destruct (URL_parses endpoint);
        [left; auto | right; eexists; intros; reflexivity].
    + right. eexists. intros. reflexivity.
  - cbn zeta.
    pose proof (prefix_app "https://" "localhost:" endpoint) as Hsl'.
    pose proof (prefix_app "https://" "127.0.0.1:" endpoint) as Hs127'.
    cbn [append] in Hsl', Hs127'.
    destruct (prefix "http://localhost:" endpoint);
      destruct (prefix "http://127.0.0.1:" endpoint);
      destruct (prefix "https://localhost:" endpoint);
      destruct (prefix "https://127.0.0.1:" endpoint);
      destruct (prefix "https://" endpoint);
      destruct (prefix "http://" endpoint);
      cbn [negb andb orb];
      try (specialize (Hsl' eq_refl); discriminate Hsl');
      try (specialize (Hs127' eq_refl); discriminate Hs127');
      try (right; eexists; intros; reflexivity);
      unfold bind, ret, throw;
      (destruct (URL_parses endpoint);
       [left; auto | right; eexists; intros; reflexivity]).
Qed.

(** What a registration that succeeds has checked and written. *)
Lemma register_inv env URL_parses jsonb now (request : RegisterAgentRequest.t)
    (db db' : Db.t) (res : result string) :
  RegisterService.register env URL_parses jsonb now request db = (db', res) ->
  (exists e, res = Err e /\ db' = db)
  \/ (res = Ok (RegisterAgentRequest.id request)
      /\ (forall d, RegisterService.validateRequest request d = (d, Ok tt))
      /\ (forall d,
            RegisterService.validateEndpoint env URL_parses
              (RegisterAgentRequest.endpoint request) d = (d, Ok tt))
      /\ URL_parses (RegisterAgentRequest.endpoint request) = true
      /\ (if Env.isProductionMode env
          then prefix "https://" (RegisterAgentRequest.endpoint request)
          else prefix "https://" (RegisterAgentRequest.endpoint request)
               || prefix "http://localhost:" (RegisterAgentRequest.endpoint request)
               || prefix "http://127.0.0.1:" (RegisterAgentRequest.endpoint request))
         = true
      /\ Db.agent_feedbacks db' = Db.agent_feedbacks db
      /\ Db.fraud_detection_log db' = Db.fraud_detection_log db
      /\ Db.callers db' = Db.callers db
      /\ (exists values,
            AgentRepository.columns jsonb (RegisterService.agent_of request)
            = Some values
            /\ match AgentRepository.findById (RegisterAgentRequest.id request) db
               with
               | Some _ =>
                   Db.agents db'
                   = map (fun a =>
                            if Agent.id a =? RegisterAgentRequest.id request
                            then Agent.set_updated_at now
                                   (AgentRepository.set_columns values a)
                            else a)
                         (Db.agents db)
               | None =>
                   exists id,
                     Pg.varchar 255 (RegisterAgentRequest.id request) = Some id
                     /\ existsb (fun a => Agent.id a =? id) (Db.agents db) = false
                     /\ Db.agents db'
                        = (Db.agents db
                           ++ [AgentRepository.set_columns values
                                 (AgentRepository.default_row now id)])%list
               end)
      /\ Db.agent_stats db'
         = match StatsRepository.findByAgentId (RegisterAgentRequest.id request) db
           with
           | Some _ => Db.agent_stats db
           | None =>
               (Db.agent_stats db
                ++ [{| AgentStats.agent_id := RegisterAgentRequest.id request;
                       AgentStats.calls_total := 0;
                       AgentStats.calls_success := 0;
                       AgentStats.avg_latency_ms := 0 # 100;
                       AgentStats.avg_rating := 0 # 100;
                       AgentStats.last_feedback_at := None |}])%list
           end).
Proof.
  unfold RegisterService.register. unfold bind at 1.
  destruct (register_validateRequest_inv request) as [Hvalid | [e He]];
    [rewrite Hvalid
    | rewrite He; intros H; injection H as <- <-; left; eauto].
  unfold bind at 1.
  destruct (validateEndpoint_inv env URL_parses
              (RegisterAgentRequest.endpoint request))
    as [[Hendpoint [Hurl Hscheme]] | [e He]];
    [rewrite Hendpoint
    | rewrite He; intros H; injection H as <- <-; left; eauto].
  cbn zeta. unfold bind at 1.
  unfold AgentRepository.upsert at 1. unfold bind at 1, query at 1.
  change (Agent.id (RegisterService.agent_of request))
    with (RegisterAgentRequest.id request).
  destruct (AgentRepository.findById (RegisterAgentRequest.id request) db)
    as [old |] eqn:Hfind.
  - unfold AgentRepository.update.
    destruct (AgentRepository.columns jsonb (RegisterService.agent_of request))
      as [values |] eqn:Hcolumns;
      [| intros H; injection H as <- <-; left; eauto].
    change (Agent.id (RegisterService.agent_of request))
      with (RegisterAgentRequest.id request).
    unfold bind at 1, query at 1.
    match goal with
    | |- context [StatsRepository.findByAgentId ?i ?d] =>
        change (StatsRepository.findByAgentId i d)
          with (StatsRepository.findByAgentId i db)
    end.
    destruct (StatsRepository.findByAgentId (RegisterAgentRequest.id request) db)
      as [stats |].
    + unfold ret. intros H. injection H as <- <-. right.
      repeat (split; [first [reflexivity | assumption] |]).
      split; [| reflexivity].
      exists values. split; reflexivity.
    + unfold bind at 1, StatsRepository.create.
      cbn [StatsRepository.stored Pg.integer AgentStats.calls_total
             AgentStats.calls_success Z.leb Z.compare andb].
      unfold ret. intros H. injection H as <- <-. right.
      repeat (split; [first [reflexivity | assumption] |]).
      split; [| reflexivity].
      exists values. split; reflexivity.
  - unfold bind at 1. unfold AgentRepository.create.
    change (Agent.id (RegisterService.agent_of request))
      with (RegisterAgentRequest.id request).
    destruct (Pg.varchar 255 (RegisterAgentRequest.id request)) as [id |] eqn:Hid;
      [| intros H; injection H as <- <-; left; eauto].
    destruct (AgentRepository.columns jsonb (RegisterService.agent_of request))
      as [values |] eqn:Hcolumns;
      [| intros H; injection H as <- <-; left; eauto].
    destruct (existsb (fun a => Agent.id a =? id) (Db.agents db)) eqn:Hdup;
      [intros H; injection H as <- <-; left; eauto |].
    unfold ret at 1. unfold bind at 1, query at 1.
    match goal with
    | |- context [StatsRepository.findByAgentId ?i ?d] =>
        change (StatsRepository.findByAgentId i d)
          with (StatsRepository.findByAgentId i db)
    end.
    destruct (StatsRepository.findByAgentId (RegisterAgentRequest.id request) db)
      as [stats |].
    + unfold ret. intros H. injection H as <- <-. right.
      repeat (split; [first [reflexivity | assumption] |]).
      split; [| reflexivity].
      exists values. split; [reflexivity |]. exists id. auto.
    + unfold bind at 1, StatsRepository.create.
      cbn [StatsRepository.stored Pg.integer AgentStats.calls_total
             AgentStats.calls_success Z.leb Z.compare andb].
      unfold ret. intros H. injection H as <- <-. right.
      repeat (split; [first [reflexivity | assumption] |]).
      split; [| reflexivity].
      exists values. split; [reflexivity |]. exists id. auto.
Qed.

Lemma varchar_short (n : nat) (s : string) :
  (String.length s <= n)%nat -> Pg.varchar n s = Some s.
Proof.
  intros H. unfold Pg.varchar. apply Nat.leb_le in H. now rewrite H.
Qed.

Lemma columns_inv jsonb (agent values : Agent.t) :
  AgentRepository.columns jsonb agent = Some values ->
  Pg.varchar 255 (Agent.name agent) = Some (Agent.name values)
  /\ Pg.varchar 512 (Agent.endpoint agent) = Some (Agent.endpoint values)
  /\ Pg.varchar 512 (Agent.location_scope agent)
     = Some (Agent.location_scope values)
  /\ Agent.description values = Agent.description agent
  /\ Agent.intents values = Agent.intents agent
  /\ Agent.tasks values = Agent.tasks agent
  /\ Agent.tags values = Agent.tags agent
  /\ Agent.categories values = Agent.categories agent
  /\ Agent.languages values = Agent.languages agent
  /\ match Agent.caller_id agent with
     | Some c =>
         if JS.truthy c
         then option_map Some (Pg.varchar 255 c) = Some (Agent.caller_id values)
         else Agent.caller_id values = None
     | None => Agent.caller_id values = None
     end.
Proof.
  unfold AgentRepository.columns.
  destruct (Pg.varchar 255 (Agent.name agent)); [| discriminate].
  destruct (Pg.varchar 512 (Agent.endpoint agent)); [| discriminate].
  destruct (Pg.varchar 512 (Agent.location_scope agent)); [| discriminate].
  destruct (Pg.varchar 50 (Agent.version agent)); [| discriminate].
  destruct (jsonb (Agent.meta agent)); [| discriminate].
  destruct (match Agent.input_schema agent with
            | Some schema => option_map Some (jsonb schema)
            | None => Some None
            end); [| discriminate].
  destruct (Agent.caller_id agent) as [c |].
  - destruct (JS.truthy c).
    + destruct (Pg.varchar 255 c); [| discriminate].
      intros H. injection H as <-. simpl. repeat split.
    + intros H. injection H as <-. simpl. repeat split.
  - intros H. injection H as <-. simpl. repeat split.
Qed.

Lemma find_map_set (x : string) (f : Agent.t -> Agent.t) (l : list Agent.t) :
  (forall a, Agent.id (f a) = Agent.id a) ->
  find (fun a => Agent.id a =? x)
    (map (fun a => if Agent.id a =? x then f a else a) l)
  = option_map f (find (fun a => Agent.id a =? x) l).
Proof.
  intros Hf. induction l as [| a l IH]; [reflexivity |]. simpl.
  destruct (Agent.id a =? x) eqn:Ha.
  - now rewrite Hf, Ha.
  - now rewrite Ha.
Qed.

(** X21: a registration that succeeds was asked with an id, a name, an
    endpoint and a description that are not blank and with at least one
    intent, one category and one language, for an endpoint that parses as
    a URL and that, in production, starts with https://, and outside
    production with https://, http://localhost: or http://127.0.0.1:. *)
Theorem register_accepts_only_valid
    (env : Env.t) (URL_parses : string -> bool) (jsonb : string -> option string)
    (now : Z) (request : RegisterAgentRequest.t) (db db' : Db.t) (id : string) :
  RegisterService.register env URL_parses jsonb now request db = (db', Ok id) ->
  id = RegisterAgentRequest.id request
  /\ RegisterService.blank (RegisterAgentRequest.id request) = false
  /\ RegisterService.blank (RegisterAgentRequest.name request) = false
  /\ RegisterService.blank (RegisterAgentRequest.endpoint request) = false
  /\ RegisterService.blank (RegisterAgentRequest.description request) = false
  /\ RegisterAgentRequest.intents request <> []
  /\ RegisterAgentRequest.categories request <> []
  /\ RegisterAgentRequest.languages request <> []
  /\ URL_parses (RegisterAgentRequest.endpoint request) = true
  /\ (if Env.isProductionMode env
      then prefix "https://" (RegisterAgentRequest.endpoint request)
      else prefix "https://" (RegisterAgentRequest.endpoint request)
           || prefix "http://localhost:" (RegisterAgentRequest.endpoint request)
           || prefix "http://127.0.0.1:" (RegisterAgentRequest.endpoint request))
     = true.
Proof.
  intros H. apply register_inv in H.
  destruct H as [[e [H _]] | [Hid [Hvalid [_ [Hurl [Hscheme _]]]]]];
    [discriminate |].
  injection Hid as ->. split; [reflexivity |].
  specialize (Hvalid db).
  revert Hvalid. unfold RegisterService.validateRequest, throw, ret.
  destruct (RegisterService.blank (RegisterAgentRequest.id request));
    [discriminate |].
  destruct (RegisterService.blank (RegisterAgentRequest.name request));
    [discriminate |].
  destruct (RegisterService.blank (RegisterAgentRequest.endpoint request));
    [discriminate |].
  destruct (RegisterService.blank (RegisterAgentRequest.description request));
    [discriminate |].
  destruct (RegisterAgentRequest.intents request); [discriminate |].
  destruct (RegisterAgentRequest.categories request); [discriminate |].
  destruct (RegisterAgentRequest.languages request); [discriminate |].
  intros _. repeat split; try discriminate; assumption.
Qed.

Lemma register_accepts_only_valid_witness :
  prefix "https://" "https://w.example" = true.
Proof.
  assert (H : exists db',
             RegisterService.register Sample.production Sample.URL_parses
               Sample.jsonb 0 (Sample.registration "agent:new" "https://w.example")
               Sample.registry = (db', Ok "agent:new"))
    by (eexists; vm_compute; reflexivity).
  destruct H as [db' H].
  apply (register_accepts_only_valid Sample.production Sample.URL_parses
           Sample.jsonb 0 (Sample.registration "agent:new" "https://w.example")
           Sample.registry db' "agent:new" H).
Defined.

(** X22: a failed registration writes nothing: the database is as it
    was. *)
Theorem register_atomic
    (env : Env.t) (URL_parses : string -> bool) (jsonb : string -> option string)
    (now : Z) (request : RegisterAgentRequest.t) (db db' : Db.t) (e : string) :
  RegisterService.register env URL_parses jsonb now request db = (db', Err e) ->
  db' = db.
Proof.
  intros H. apply register_inv in H.
  destruct H as [[e' [_ H]] | [H _]]; [exact H | discriminate].
Qed.

Lemma register_atomic_witness :
  fst (RegisterService.register Sample.production Sample.URL_parses Sample.jsonb 0
         (Sample.registration "agent:new" "http://localhost:3000")
         Sample.registry)
  = Sample.registry.
Proof.
  destruct (RegisterService.register Sample.production Sample.URL_parses
              Sample.jsonb 0
              (Sample.registration "agent:new" "http://localhost:3000")
              Sample.registry) as [db' [id | e]] eqn:H.
  - vm_compute in H. discriminate H.
  - exact (register_atomic _ _ _ _ _ _ _ _ H).
Defined.

(** X23: registering again an agent that exists rewrites its description
    columns and nothing else: the agent keeps its status, its quarantine
    reason and date, and its statistics, so a banned agent stays banned. *)
Theorem register_keeps_reputation
    (env : Env.t) (URL_parses : string -> bool) (jsonb : string -> option string)
    (now : Z) (request : RegisterAgentRequest.t) (db db' : Db.t) (id : string)
    (old : Agent.t) :
  AgentRepository.findById (RegisterAgentRequest.id request) db = Some old ->
  RegisterService.register env URL_parses jsonb now request db = (db', Ok id) ->
  (exists a,
     AgentRepository.findById (RegisterAgentRequest.id request) db' = Some a
     /\ Agent.status a = Agent.status old
     /\ Agent.quarantine_reason a = Agent.quarantine_reason old
     /\ Agent.quarantine_at a = Agent.quarantine_at old
     /\ Agent.description a = RegisterAgentRequest.description request
     /\ Agent.intents a = RegisterAgentRequest.intents request)
  /\ (forall stats,
        StatsRepository.findByAgentId (RegisterAgentRequest.id request) db
        = Some stats ->
        StatsRepository.findByAgentId (RegisterAgentRequest.id request) db'
        = Some stats)
  /\ List.length (Db.agents db') = List.length (Db.agents db).
Proof.
  intros Hold H. apply register_inv in H.
  destruct H as [[e [H _]] | [_ [_ [_ [_ [_ [_ [_ [_ [Hagents Hstats]]]]]]]]]];
    [discriminate |].
  destruct Hagents as [values [Hcolumns Hagents]].
  rewrite Hold in Hagents.
  apply columns_inv in Hcolumns.
  destruct Hcolumns as [_ [_ [_ [Hdescription [Hintents _]]]]].
  split; [| split].
  - exists (Agent.set_updated_at now (AgentRepository.set_columns values old)).
    unfold AgentRepository.findById in *. rewrite Hagents.
    rewrite (find_map_set _
               (fun a => Agent.set_updated_at now
                           (AgentRepository.set_columns values a)))
      by reflexivity.
    rewrite Hold. cbn [option_map].
    split; [reflexivity |].
    cbn [Agent.set_updated_at AgentRepository.set_columns Agent.status
           Agent.quarantine_reason Agent.quarantine_at Agent.description
           Agent.intents].
    rewrite Hdescription, Hintents. repeat split.
  - intros stats Hs. rewrite Hs in Hstats.
    unfold StatsRepository.findByAgentId in *. now rewrite Hstats.
  - rewrite Hagents. apply length_map.
Qed.

Lemma register_keeps_reputation_witness :
  exists db' a,
    RegisterService.register Sample.production Sample.URL_parses Sample.jsonb 0
      (Sample.registration "agent:banned" "https://w.example")
      Sample.three_agents = (db', Ok "agent:banned")
    /\ AgentRepository.findById "agent:banned" db' = Some a
    /\ Agent.status a = Some banned.
Proof.
  assert (H : exists db',
             RegisterService.register Sample.production Sample.URL_parses
               Sample.jsonb 0
               (Sample.registration "agent:banned" "https://w.example")
               Sample.three_agents = (db', Ok "agent:banned"))
    by (eexists; vm_compute; reflexivity).
  destruct H as [db' H]. exists db'.
  destruct (register_keeps_reputation Sample.production Sample.URL_parses
              Sample.jsonb 0
              (Sample.registration "agent:banned" "https://w.example")
              Sample.three_agents db' "agent:banned"
              (Sample.agent "agent:banned" "Miami,FL,USA" (Some banned))
              eq_refl H) as [[a [Ha [Hstatus _]]] _].
  exists a. split; [exact H |]. split; [exact Ha | exact Hstatus].
Defined.

(** X24: the first registration of an agent, with an id of at most 255
    characters, adds it with the status active, without a quarantine
    reason or date, with the description, the intents, the categories and
    the languages of the request, with the location Global when the
    request gives none, and with statistics that count no call when it had
    none. *)
Theorem register_new_agent
    (env : Env.t) (URL_parses : string -> bool) (jsonb : string -> option string)
    (now : Z) (request : RegisterAgentRequest.t) (db db' : Db.t) (id : string) :
  AgentRepository.findById (RegisterAgentRequest.id request) db = None ->
  (String.length (RegisterAgentRequest.id request) <= 255)%nat ->
  RegisterService.register env URL_parses jsonb now request db = (db', Ok id) ->
  (exists a,
     AgentRepository.findById (RegisterAgentRequest.id request) db' = Some a
     /\ Agent.status a = Some active
     /\ Agent.quarantine_reason a = None
     /\ Agent.quarantine_at a = None
     /\ Agent.description a = RegisterAgentRequest.description request
     /\ Agent.intents a = RegisterAgentRequest.intents request
     /\ Agent.categories a = RegisterAgentRequest.categories request
     /\ Agent.languages a = RegisterAgentRequest.languages request
     /\ (RegisterAgentRequest.location_scope request = EmptyString ->
         Agent.location_scope a = "Global"))
  /\ (StatsRepository.findByAgentId (RegisterAgentRequest.id request) db = None ->
      exists stats,
        StatsRepository.findByAgentId (RegisterAgentRequest.id request) db'
        = Some stats
        /\ AgentStats.calls_total stats = 0%Z
        /\ AgentStats.calls_success stats = 0%Z
        /\ AgentStats.avg_rating stats == 0
        /\ AgentStats.avg_latency_ms stats == 0).
Proof.
  intros Hnew Hlength H. apply register_inv in H.
  destruct H as [[e [H _]] | [_ [_ [_ [_ [_ [_ [_ [_ [Hagents Hstats]]]]]]]]]];
    [discriminate |].
  destruct Hagents as [values [Hcolumns Hagents]].
  rewrite Hnew in Hagents. destruct Hagents as [id' [Hid [_ Hagents]]].
  rewrite (varchar_short 255 _ Hlength) in Hid. injection Hid as <-.
  apply columns_inv in Hcolumns.
  destruct Hcolumns
    as [_ [_ [Hlocation [Hdescription [Hintents [_ [_ [Hcategories
          [Hlanguages _]]]]]]]]].
  split.
  - eexists. split.
    + unfold AgentRepository.findById in *. rewrite Hagents.
      apply find_app_none; [exact Hnew |]. apply String.eqb_refl.
    + cbn [AgentRepository.set_columns AgentRepository.default_row
             Agent.status Agent.quarantine_reason Agent.quarantine_at
             Agent.description Agent.intents Agent.categories Agent.languages
             Agent.location_scope].
      rewrite Hdescription, Hintents, Hcategories, Hlanguages.
      repeat (split; [reflexivity |]).
      intros Hnone.
      cbn [RegisterService.agent_of Agent.location_scope] in Hlocation.
      rewrite Hnone in Hlocation.
      change (Pg.varchar 512 (if JS.truthy EmptyString then EmptyString
                              else "Global"))
        with (Some "Global") in Hlocation.
      now injection Hlocation as <-.
  - intros Hnone. rewrite Hnone in Hstats. eexists. split.
    + unfold StatsRepository.findByAgentId in *. rewrite Hstats.
      apply find_app_none; [exact Hnone |]. apply String.eqb_refl.
    + repeat split.
Qed.

Lemma register_new_agent_witness :
  exists db' a,
    RegisterService.register Sample.production Sample.URL_parses Sample.jsonb 0
      (Sample.registration "agent:new" "https://w.example") Sample.registry
    = (db', Ok "agent:new")
    /\ AgentRepository.findById "agent:new" db' = Some a
    /\ Agent.status a = Some active
    /\ Agent.location_scope a = "Global".
Proof.
  assert (H : exists db',
             RegisterService.register Sample.production Sample.URL_parses
               Sample.jsonb 0 (Sample.registration "agent:new" "https://w.example")
               Sample.registry = (db', Ok "agent:new"))
    by (eexists; vm_compute; reflexivity).
  destruct H as [db' H]. exists db'.
  assert (Hlength : (String.length "agent:new" <= 255)%nat)
    by (apply Nat.leb_le; reflexivity).
  destruct (register_new_agent Sample.production Sample.URL_parses Sample.jsonb 0
              (Sample.registration "agent:new" "https://w.example")
              Sample.registry db' "agent:new" eq_refl Hlength H)
    as [[a [Ha [Hstatus [_ [_ [_ [_ [_ [_ Hglobal]]]]]]]]] _].
  exists a. split; [exact H |]. split; [exact Ha |].
  split; [exact Hstatus | exact (Hglobal eq_refl)].
Defined.

Lemma find_map_other (x i : string) (f : Agent.t -> Agent.t) (l : list Agent.t) :
  (forall a, Agent.id (f a) = Agent.id a) ->
  i <> x ->
  find (fun a => Agent.id a =? i)
    (map (fun a => if Agent.id a =? x then f a else a) l)
  = find (fun a => Agent.id a =? i) l.
Proof.
  intros Hf Hne. induction l as [| a l IH]; [reflexivity |]. simpl.
  destruct (Agent.id a =? x) eqn:Ha.
  - rewrite Hf. apply String.eqb_eq in Ha. rewrite Ha.
    apply not_eq_sym in Hne. apply String.eqb_neq in Hne. now rewrite Hne.
  - now rewrite IH.
Qed.

(** The row that a registration leaves for the agent holds the columns of
    the request: writing them again changes nothing. *)
Lemma registered_row env URL_parses jsonb now (request : RegisterAgentRequest.t)
    (db db1 : Db.t) (id : string) (values : Agent.t) :
  (String.length (RegisterAgentRequest.id request) <= 255)%nat ->
  RegisterService.register env URL_parses jsonb now request db = (db1, Ok id) ->
  AgentRepository.columns jsonb (RegisterService.agent_of request)
  = Some values ->
  exists row,
    AgentRepository.findById (RegisterAgentRequest.id request) db1 = Some row
    /\ AgentRepository.set_columns values row = row
    /\ StatsRepository.findByAgentId (RegisterAgentRequest.id request) db1
       <> None.
Proof.
  intros Hlength H Hcolumns. apply register_inv in H.
  destruct H as [[e [H _]] | [_ [_ [_ [_ [_ [_ [_ [_ [Hagents Hstats]]]]]]]]]];
    [discriminate |].
  destruct Hagents as [values' [Hcolumns' Hagents]].
  rewrite Hcolumns in Hcolumns'. injection Hcolumns' as <-.
  assert (Hstats1 : StatsRepository.findByAgentId
                      (RegisterAgentRequest.id request) db1 <> None).
  { unfold StatsRepository.findByAgentId in *. rewrite Hstats.
    destruct (find _ (Db.agent_stats db)) as [stats |] eqn:Hs;
      [rewrite Hs; discriminate |].
    erewrite find_app_none;
      [discriminate | exact Hs | apply String.eqb_refl]. }
  destruct (AgentRepository.findById (RegisterAgentRequest.id request) db)
    as [old |] eqn:Hold.
  - exists (Agent.set_updated_at now (AgentRepository.set_columns values old)).
    split; [| split; [reflexivity | exact Hstats1]].
    unfold AgentRepository.findById in *. rewrite Hagents.
    rewrite (find_map_set _
               (fun a => Agent.set_updated_at now
                           (AgentRepository.set_columns values a)))
      by reflexivity.
    now rewrite Hold.
  - destruct Hagents as [id' [Hid' [Hdup Hagents]]].
    rewrite (varchar_short 255 _ Hlength) in Hid'. injection Hid' as <-.
    eexists. split; [| split; [| exact Hstats1]].
    + unfold AgentRepository.findById in *. rewrite Hagents.
      apply find_app_none; [exact Hold | apply String.eqb_refl].
    + reflexivity.
Qed.

(** X25: registering the same agent twice is registering it once, but for
    the date of the last change: after a registration that succeeded, with
    an id of at most 255 characters, the same request succeeds again,
    leaves the statistics, the feedbacks, the fraud log and the callers as
    they were, leaves every other agent as it was, and leaves the row of
    the agent as it was except for updated_at, which the trigger sets to
    the time of the second registration. *)
Theorem register_idempotent
    (env : Env.t) (URL_parses : string -> bool) (jsonb : string -> option string)
    (now now' : Z) (request : RegisterAgentRequest.t) (db db1 : Db.t)
    (id : string) :
  (String.length (RegisterAgentRequest.id request) <= 255)%nat ->
  RegisterService.register env URL_parses jsonb now request db = (db1, Ok id) ->
  exists db2 row,
    RegisterService.register env URL_parses jsonb now' request db1
    = (db2, Ok id)
    /\ Db.agent_stats db2 = Db.agent_stats db1
    /\ Db.agent_feedbacks db2 = Db.agent_feedbacks db1
    /\ Db.fraud_detection_log db2 = Db.fraud_detection_log db1
    /\ Db.callers db2 = Db.callers db1
    /\ AgentRepository.findById id db1 = Some row
    /\ AgentRepository.findById id db2 = Some (Agent.set_updated_at now' row)
    /\ (forall other, other <> id ->
          AgentRepository.findById other db2
          = AgentRepository.findById other db1)
    /\ List.length (Db.agents db2) = List.length (Db.agents db1).
Proof.
  intros Hlength H. pose proof H as H1. apply register_inv in H.
  destruct H as [[e [H _]] | [Hid [Hvalid [Hendpoint [_ [_ [_ [_ [_ [Hagents
                                 _]]]]]]]]]];
    [discriminate |].
  injection Hid as ->.
  destruct Hagents as [values [Hcolumns _]].
  destruct (registered_row _ _ _ _ _ _ _ _ _ Hlength H1 Hcolumns)
    as [row [Hrow [Hsame Hstats1]]].
  exists (Db.with_agents
            (map (fun a =>
                    if Agent.id a =? RegisterAgentRequest.id request
                    then Agent.set_updated_at now'
                           (AgentRepository.set_columns values a)
                    else a)
                 (Db.agents db1)) db1), row.
  split.
  { unfold RegisterService.register. unfold bind at 1.
    rewrite (Hvalid db1). unfold bind at 1. rewrite (Hendpoint db1).
    cbn zeta. unfold bind at 1.
    unfold AgentRepository.upsert at 1. unfold bind at 1, query at 1.
    change (Agent.id (RegisterService.agent_of request))
      with (RegisterAgentRequest.id request).
    rewrite Hrow.
    unfold AgentRepository.update. rewrite Hcolumns.
    change (Agent.id (RegisterService.agent_of request))
      with (RegisterAgentRequest.id request).
    unfold bind at 1, query at 1.
    match goal with
    | |- context [StatsRepository.findByAgentId ?i ?d] =>
        change (StatsRepository.findByAgentId i d)
          with (StatsRepository.findByAgentId i db1)
    end.
    destruct (StatsRepository.findByAgentId (RegisterAgentRequest.id request)
                db1) as [stats |]; [reflexivity | contradiction]. }
  repeat (split; [reflexivity |]).
  split; [exact Hrow |].
  unfold AgentRepository.findById in *.
  cbn [Db.agents Db.with_agents].
  split; [| split].
  - rewrite (find_map_set _
               (fun a => Agent.set_updated_at now'
                           (AgentRepository.set_columns values a)))
      by reflexivity.
    rewrite Hrow. cbn [option_map]. now rewrite Hsame.
  - intros other Hne.
    apply (find_map_other _ _
             (fun a => Agent.set_updated_at now'
                         (AgentRepository.set_columns values a)));
      [reflexivity | exact Hne].
  - apply length_map.
Qed.

Lemma register_idempotent_witness :
  exists db1 db2 row,
    RegisterService.register Sample.production Sample.URL_parses Sample.jsonb
      1000 (Sample.registration "agent:new" "https://w.example")
      Sample.registry
    = (db1, Ok "agent:new")
    /\ RegisterService.register Sample.production Sample.URL_parses
         Sample.jsonb 86400000
         (Sample.registration "agent:new" "https://w.example") db1
       = (db2, Ok "agent:new")
    /\ AgentRepository.findById "agent:new" db1 = Some row
    /\ Agent.updated_at row = Some 1000%Z
    /\ AgentRepository.findById "agent:new" db2
       = Some (Agent.set_updated_at 86400000 row)
    /\ AgentRepository.findById "agent:w" db2
       = AgentRepository.findById "agent:w" db1.
Proof.
  assert (H : exists db1,
             RegisterService.register Sample.production Sample.URL_parses
               Sample.jsonb 1000
               (Sample.registration "agent:new" "https://w.example")
               Sample.registry = (db1, Ok "agent:new"))
    by (eexists; vm_compute; reflexivity).
  destruct H as [db1 H]. exists db1.
  assert (Hlength : (String.length "agent:new" <= 255)%nat)
    by (apply Nat.leb_le; reflexivity).
  destruct (register_idempotent Sample.production Sample.URL_parses
              Sample.jsonb 1000 86400000
              (Sample.registration "agent:new" "https://w.example")
              Sample.registry db1 "agent:new" Hlength H)
    as [db2 [row [H2 [_ [_ [_ [_ [Hrow [Hrow2 [Hother _]]]]]]]]]].
  exists db2, row.
  split; [exact H |]. split; [exact H2 |]. split; [exact Hrow |].
  split; [| split; [exact Hrow2 | apply Hother; discriminate]].
  injection H as <-. vm_compute in Hrow. injection Hrow as <-. reflexivity.
Defined.


(** ** The review, row by row, in whatever order the rows are fetched *)

Lemma find_In_NoDup (l : list Agent.t) (a : Agent.t) :
  NoDup (map Agent.id l) -> In a l ->
  find (fun x => Agent.id x =? Agent.id a) l = Some a.
Proof.
  induction l as [| y l IH]; simpl; [contradiction |].
  intros Hnd Ha. inversion Hnd as [| ? ? Hnotin Hnd']; subst.
  destruct Ha as [-> | Ha].
  - now rewrite String.eqb_refl.
  - destruct (Agent.id y =? Agent.id a) eqn:Hy; [| auto].
    apply String.eqb_eq in Hy. exfalso. apply Hnotin.
    rewrite Hy. now apply in_map.
Qed.

Lemma find_id (l : list Agent.t) (i : string) (a : Agent.t) :
  find (fun x => Agent.id x =? i) l = Some a -> In a l /\ Agent.id a = i.
Proof.
  intros H. apply find_some in H. destruct H as [Hin Hid].
  split; [exact Hin | now apply String.eqb_eq].
Qed.

Lemma find_none_id (l : list Agent.t) (i : string) :
  find (fun x => Agent.id x =? i) l = None -> ~ In i (map Agent.id l).
Proof.
  intros Hnone Hin. apply in_map_iff in Hin. destruct Hin as [a [Hid Ha]].
  apply (find_none _ _ Hnone) in Ha. rewrite Hid, String.eqb_refl in Ha.
  discriminate.
Qed.

(** One step of the review rewrites the rows of the agent's id as the
    verdict over the database before the review says. *)
Lemma reviewAgent_rewrites env (now : Z) (db0 db : Db.t) c (a : Agent.t) :
  Env.isProductionMode env = true ->
  QuarantineService.same_but_status db0 db ->
  exists g,
    fst (QuarantineService.reviewAgent env now (db, c) a)
    = AgentRepository.rewrite_where_id (Agent.id a) g db
    /\ (forall x, QuarantineService.same_owner x (g x))
    /\ QuarantineService.rewritten env now db0 a (g a).
Proof.
  intros Hprod Hsame.
  pose proof (reviewAgent_spec env now db c a Hprod) as Hspec.
  rewrite (verdict_same env _ _ _ _ Hsame) in Hspec.
  unfold QuarantineService.rewritten.
  destruct (QuarantineService.verdict env (Agent.id a) _ db0).
  - exists (fun x => x). rewrite Hspec, rewrite_where_id_same.
    repeat split; reflexivity.
  - destruct Hspec as [reason ->]. eexists. split; [reflexivity |].
    split; [intros x; split; reflexivity | eexists; reflexivity].
  - rewrite Hspec. eexists. split; [reflexivity |].
    split; [intros x; split; reflexivity | reflexivity].
  - destruct Hspec as [reason ->]. eexists. split; [reflexivity |].
    split; [intros x; split; reflexivity | eexists; reflexivity].
Qed.

(** The loop of the review over rows fetched in any order: the row of
    every agent visited is rewritten as its verdict over the database
    before the review says, the other rows stay. *)
Lemma review_rows env (now : Z) (db0 : Db.t) :
  Env.isProductionMode env = true ->
  forall fetched db c,
    NoDup (map Agent.id fetched) ->
    QuarantineService.same_but_status db0 db ->
    (forall x, In x fetched ->
               AgentRepository.findById (Agent.id x) db = Some x) ->
    QuarantineService.same_but_status db0
      (fst (fold_left (QuarantineService.reviewAgent env now) fetched (db, c)))
    /\ (forall i, ~ In i (map Agent.id fetched) ->
          AgentRepository.findById i
            (fst (fold_left (QuarantineService.reviewAgent env now) fetched
                    (db, c)))
          = AgentRepository.findById i db)
    /\ (forall x, In x fetched ->
          exists x',
            AgentRepository.findById (Agent.id x)
              (fst (fold_left (QuarantineService.reviewAgent env now) fetched
                      (db, c)))
            = Some x'
            /\ QuarantineService.rewritten env now db0 x x').
Proof.
  intros Hprod.
  induction fetched as [| a rest IH]; intros db c Hnodup Hsame Hrows.
  - cbn. split; [exact Hsame |]. split; [reflexivity | contradiction].
  - cbn [fold_left].
    destruct (reviewAgent_rewrites env now db0 db c a Hprod Hsame)
      as [g [Hstep [Hg Hrewritten]]].
    destruct (QuarantineService.reviewAgent env now (db, c) a) as [db2 c2].
    cbn [fst] in Hstep. subst db2.
    cbn [map] in Hnodup. inversion Hnodup as [| ? ? Hnotin Hnodup']; subst.
    assert (Hother : forall i, i <> Agent.id a ->
               AgentRepository.findById i
                 (AgentRepository.rewrite_where_id (Agent.id a) g db)
               = AgentRepository.findById i db).
    { intros i Hi. unfold AgentRepository.findById,
        AgentRepository.rewrite_where_id.
      cbn [Db.agents Db.with_agents].
      apply find_map_other; [| exact Hi]. intros x. apply Hg. }
    assert (Hself : AgentRepository.findById (Agent.id a)
                      (AgentRepository.rewrite_where_id (Agent.id a) g db)
                    = Some (g a)).
    { unfold AgentRepository.findById, AgentRepository.rewrite_where_id.
      cbn [Db.agents Db.with_agents].
      rewrite find_map_set by (intros x; apply Hg).
      pose proof (Hrows a (or_introl eq_refl)) as Ha.
      unfold AgentRepository.findById in Ha. now rewrite Ha. }
    destruct (IH (AgentRepository.rewrite_where_id (Agent.id a) g db) c2
                Hnodup')
      as [Hsame' [Hkept Hvisited]].
    + now apply same_but_status_update.
    + intros x Hx. rewrite Hother; [apply Hrows; now right |].
      intros Heq. apply Hnotin. rewrite <- Heq. now apply in_map.
    + split; [exact Hsame' |]. split.
      * intros i Hi. cbn [map In] in Hi.
        rewrite Hkept by tauto. apply Hother.
        intros Heq. apply Hi. left. now symmetry.
      * intros x [<- | Hx]; [| now apply Hvisited].
        exists (g a). split; [| exact Hrewritten].
        rewrite Hkept by exact Hnotin. exact Hself.
Qed.

(** The review as a whole, for rows fetched in any order. *)
Lemma autoReviewAgents_rows (env : Env.t) (now : Z) (db : Db.t)
    (fetched : list Agent.t) :
  NoDup (map Agent.id (Db.agents db)) ->
  Permutation fetched (Db.agents db) ->
  let db' := fst (QuarantineService.autoReviewAgents_of env fetched now db) in
  QuarantineService.same_but_status db db'
  /\ (forall id a,
        AgentRepository.findById id db = Some a ->
        exists a',
          AgentRepository.findById id db' = Some a'
          /\ if Env.isProductionMode env
             then QuarantineService.rewritten env now db a a'
             else a' = a)
  /\ (forall id,
        AgentRepository.findById id db = None ->
        AgentRepository.findById id db' = None).
Proof.
  intros Hnodup Hperm db'. unfold db', QuarantineService.autoReviewAgents_of.
  destruct (Env.isProductionMode env) eqn:Hprod; cbn [negb fst].
  2:{ split; [apply same_but_status_refl |].
      split; [intros id a Ha; exists a; auto | auto]. }
  destruct (review_rows env now db Hprod fetched db
              {| QuarantineService.Counts.quarantined := 0%Z;
                 QuarantineService.Counts.reactivated := 0%Z;
                 QuarantineService.Counts.banned := 0%Z |})
    as [Hsame [Hkept Hvisited]].
  - apply (Permutation_NoDup (l := map Agent.id (Db.agents db)));
      [| exact Hnodup].
    apply Permutation_map. now apply Permutation_sym.
  - apply same_but_status_refl.
  - intros x Hx. unfold AgentRepository.findById.
    apply find_In_NoDup; [exact Hnodup |].
    now apply (Permutation_in _ Hperm).
  - split; [exact Hsame |]. split.
    + intros id a Ha. unfold AgentRepository.findById in Ha.
      apply find_id in Ha. destruct Ha as [Hin <-].
      apply Hvisited.
      apply (Permutation_in _ (Permutation_sym Hperm)). exact Hin.
    + intros id Hnone. rewrite Hkept; [exact Hnone |].
      unfold AgentRepository.findById in Hnone.
      apply find_none_id in Hnone. intros Hin. apply Hnone.
      apply (Permutation_in _ (Permutation_map Agent.id Hperm)). exact Hin.
Qed.

(** X14: whatever the mode and whatever the order in which the rows of
    the agents are fetched, the daily review moves an agent one step at a
    time: looked up by its id, an agent that was banned is banned after
    the review, an agent that was active is not banned after it, and no
    agent is added or removed (agent ids unique). *)
Theorem auto_review_moves (env : Env.t) (now : Z) (db : Db.t)
    (fetched : list Agent.t) :
  NoDup (map Agent.id (Db.agents db)) ->
  Permutation fetched (AgentRepository.findAll db) ->
  let db' := fst (QuarantineService.autoReviewAgents_of env fetched now db) in
  (forall id a,
     AgentRepository.findById id db = Some a ->
     exists a',
       AgentRepository.findById id db' = Some a'
       /\ let before := QuarantineService.status_or_active (Agent.status a) in
          let after := QuarantineService.status_or_active (Agent.status a') in
          (before = banned -> after = banned)
          /\ (before = active -> after <> banned))
  /\ (forall id,
        AgentRepository.findById id db = None ->
        AgentRepository.findById id db' = None).
Proof.
  intros Hnodup Hperm db'.
  destruct (autoReviewAgents_rows env now db fetched Hnodup Hperm)
    as [_ [Hrows Hnone]].
  fold db' in Hrows, Hnone.
  split; [| exact Hnone].
  intros id a Ha. destruct (Hrows id a Ha) as [a' [Ha' Hrow]].
  exists a'. split; [exact Ha' |]. cbn zeta.
  destruct (Env.isProductionMode env).
  - unfold QuarantineService.rewritten in Hrow.
    pose proof (verdict_moves env (Agent.id a)
                  (QuarantineService.status_or_active (Agent.status a)) db)
      as Hmoves.
    cbn zeta in Hmoves.
    destruct (QuarantineService.verdict env (Agent.id a) _ db).
    + subst a'. exact Hmoves.
    + destruct Hrow as [reason ->]. exact Hmoves.
    + subst a'. exact Hmoves.
    + destruct Hrow as [reason ->]. exact Hmoves.
  - subst a'. split; [auto | intros ->; discriminate].
Qed.

Lemma auto_review_moves_witness :
  exists w h q,
    let db' :=
      fst (QuarantineService.autoReviewAgents_of Sample.production
             (rev (Db.agents Sample.portfolio)) 86400000 Sample.portfolio) in
    AgentRepository.findById "agent:w" db' = Some w
    /\ Agent.status w = Some quarantine
    /\ AgentRepository.findById "agent:h" db' = Some h
    /\ Agent.status h = Some active
    /\ AgentRepository.findById "agent:q" db' = Some q
    /\ Agent.status q = Some banned.
Proof.
  assert (Hnodup : NoDup (map Agent.id (Db.agents Sample.portfolio))).
  { repeat constructor; simpl; intuition discriminate. }
  assert (Hperm : Permutation (rev (Db.agents Sample.portfolio))
                    (AgentRepository.findAll Sample.portfolio)).
  { apply Permutation_sym, Permutation_rev. }
  destruct (auto_review_moves Sample.production 86400000 Sample.portfolio
              (rev (Db.agents Sample.portfolio)) Hnodup Hperm)
    as [Hrows _].
  destruct (Hrows "agent:w" _ eq_refl) as [w [Hw _]].
  destruct (Hrows "agent:h" _ eq_refl) as [h [Hh _]].
  destruct (Hrows "agent:q" _ eq_refl) as [q [Hq _]].
  exists w, h, q. cbv zeta.
  split; [exact Hw |].
  split; [vm_compute in Hw; injection Hw as <-; reflexivity |].
  split; [exact Hh |].
  split; [vm_compute in Hh; injection Hh as <-; reflexivity |].
  split; [exact Hq |].
  vm_compute in Hq; injection Hq as <-; reflexivity.
Defined.

(** X15: whatever the mode and whatever the order in which the rows of
    the agents are fetched, the daily review writes nothing but the status
    columns of the agents: the statistics, the feedback rows, the fraud
    log and the callers are as they were, no agent is added or removed,
    and every agent, looked up by its id, is the row it was or that row
    with another status, quarantine reason and quarantine date, and with
    the time of the review in updated_at, which the trigger writes (agent
    ids unique). *)
Theorem auto_review_writes_status_only (env : Env.t) (now : Z) (db : Db.t)
    (fetched : list Agent.t) :
  NoDup (map Agent.id (Db.agents db)) ->
  Permutation fetched (AgentRepository.findAll db) ->
  let db' := fst (QuarantineService.autoReviewAgents_of env fetched now db) in
  Db.agent_stats db' = Db.agent_stats db
  /\ Db.agent_feedbacks db' = Db.agent_feedbacks db
  /\ Db.fraud_detection_log db' = Db.fraud_detection_log db
  /\ Db.callers db' = Db.callers db
  /\ (forall id a,
        AgentRepository.findById id db = Some a ->
        exists a',
          AgentRepository.findById id db' = Some a'
          /\ (a' = a
              \/ exists status reason date,
                   a' = Agent.set_updated_at now
                          (Agent.set_status status reason date a)))
  /\ (forall id,
        AgentRepository.findById id db = None ->
        AgentRepository.findById id db' = None)
  /\ Permutation (map Agent.id (Db.agents db')) (map Agent.id (Db.agents db)).
Proof.
  intros Hnodup Hperm db'.
  destruct (autoReviewAgents_rows env now db fetched Hnodup Hperm)
    as [[Hstats [Hfeedbacks [Hlog [Hcallers Hagents]]]] [Hrows Hnone]].
  fold db' in Hstats, Hfeedbacks, Hlog, Hcallers, Hagents, Hrows, Hnone.
  repeat (split; [assumption |]).
  split; [| split; [exact Hnone |]].
  - intros id a Ha. destruct (Hrows id a Ha) as [a' [Ha' Hrow]].
    exists a'. split; [exact Ha' |].
    destruct (Env.isProductionMode env); [| now left].
    unfold QuarantineService.rewritten in Hrow.
    destruct (QuarantineService.verdict env (Agent.id a) _ db).
    + now left.
    + destruct Hrow as [reason ->]. right. eauto.
    + subst a'. right. eauto.
    + destruct Hrow as [reason ->]. right. eauto.
  - rewrite (same_owner_ids _ _ Hagents). apply Permutation_refl.
Qed.

Lemma auto_review_writes_status_only_witness :
  exists w,
    let db' :=
      fst (QuarantineService.autoReviewAgents_of Sample.production
             (rev (Db.agents Sample.portfolio)) 86400000 Sample.portfolio) in
    Db.agent_stats db' = Db.agent_stats Sample.portfolio
    /\ Db.agent_feedbacks db' = Db.agent_feedbacks Sample.portfolio
    /\ Db.fraud_detection_log db' = Db.fraud_detection_log Sample.portfolio
    /\ Db.callers db' = Db.callers Sample.portfolio
    /\ AgentRepository.findById "agent:w" db' = Some w
    /\ w = Agent.set_updated_at 86400000
             (Agent.set_status quarantine (Some "Success rate < 40%: 20.0%")
                (Some 86400000%Z)
                (Sample.agent "agent:w" "Global" (Some active)))
    /\ AgentRepository.findById "agent:h" db'
       = AgentRepository.findById "agent:h" Sample.portfolio
    /\ AgentRepository.findById "agent:x" db' = None.
Proof.
  assert (Hnodup : NoDup (map Agent.id (Db.agents Sample.portfolio))).
  { repeat constructor; simpl; intuition discriminate. }
  assert (Hperm : Permutation (rev (Db.agents Sample.portfolio))
                    (AgentRepository.findAll Sample.portfolio)).
  { apply Permutation_sym, Permutation_rev. }
  destruct (auto_review_writes_status_only Sample.production 86400000
              Sample.portfolio (rev (Db.agents Sample.portfolio)) Hnodup Hperm)
    as [Hstats [Hfeedbacks [Hlog [Hcallers [Hrows [Hnone _]]]]]].
  destruct (Hrows "agent:w" _ eq_refl) as [w [Hw _]].
  exists w. cbv zeta.
  repeat (split; [assumption |]).
  split; [vm_compute in Hw; injection Hw as <-; vm_compute; reflexivity |].
  split; [vm_compute; reflexivity | exact (Hnone "agent:x" eq_refl)].
Defined.



(** ** Feedbacks that the tables take *)












(** ** A series of submissions of one consumer to one agent *)




(** ** The spam block *)







(** ** Callers and tokens *)

Lemma or_string_truthy (a : option string) (b : string) :
  JS.truthy b = true -> JS.truthy (AuthService.or_string a b) = true.
Proof.
  intros Hb. unfold AuthService.or_string.
  destruct a as [s |]; [| exact Hb].
  destruct (JS.truthy s) eqn:Hs; [exact Hs | exact Hb].
Qed.

(** X26: the identifier drawn from a request is never empty: it is the
    address of the caller, or the client id, a bar and the address, where
    the address is the first entry of x-forwarded-for when that is not
    empty after trimming, then x-real-ip, then the address of the
    connection, then the word unknown. *)
Theorem identifier_never_empty (request : AuthService.HttpRequest.t) :
  exists ip,
    JS.truthy ip = true
    /\ AuthService.extractIdentifier request
       = match AuthService.HttpRequest.x_client_id request with
         | Some c => if JS.truthy c then c ++ "|" ++ ip else ip
         | None => ip
         end
    /\ JS.truthy (AuthService.extractIdentifier request) = true
    /\ (forall f,
          AuthService.HttpRequest.x_forwarded_for request = Some f ->
          JS.truthy (JS.trim (hd EmptyString (JS.split AuthService.is_comma f)))
          = true ->
          ip = JS.trim (hd EmptyString (JS.split AuthService.is_comma f))).
Proof.
  unfold AuthService.extractIdentifier. cbn zeta.
  match goal with
  | |- context [AuthService.or_string ?a ?b] =>
      match b with
      | AuthService.or_string _ _ => set (first := a); set (others := b)
      end
  end.
  exists (AuthService.or_string first others).
  assert (Hip : JS.truthy (AuthService.or_string first others) = true).
  { apply or_string_truthy. unfold others.
    do 3 apply or_string_truthy. reflexivity. }
  split; [exact Hip |]. split; [reflexivity |]. split.
  - destruct (AuthService.HttpRequest.x_client_id request) as [c |];
      [| exact Hip].
    destruct (JS.truthy c) eqn:Hc; [| exact Hip].
    destruct c; [discriminate | reflexivity].
  - intros f Hf Htrim. unfold first. rewrite Hf.
    destruct (JS.truthy f) eqn:Htruthy.
    + unfold AuthService.or_string. now rewrite Htrim.
    + destruct f; [vm_compute in Htrim; discriminate Htrim
                  | discriminate Htruthy].
Qed.

Lemma split_nonempty (sep : ascii -> bool) (s : string) : JS.split sep s <> [].
Proof.
  destruct s as [| c s]; simpl; [discriminate |].
  destruct (sep c); [discriminate |].
  unfold JS.push_char. destruct (JS.split sep s); discriminate.
Qed.

Lemma includes_cons_false (c : ascii) (s : string) (d : ascii) :
  JS.includes (String c s) (String d EmptyString) = false ->
  c <> d /\ JS.includes s (String d EmptyString) = false.
Proof.
  simpl. intros H. apply orb_false_iff in H. destruct H as [Hprefix Hrest].
  split; [| exact Hrest].
  intros ->. destruct (Ascii.ascii_dec d d); [| contradiction].
  destruct s; discriminate.
Qed.

(** The first part of an identifier that starts with a client id. *)
Lemma split_client_id (cid rest : string) :
  JS.includes cid "|" = false ->
  hd EmptyString (JS.split AuthService.is_bar (cid ++ "|" ++ rest)) = cid.
Proof.
  induction cid as [| c cid IH]; intros Hbar; [reflexivity |].
  apply includes_cons_false in Hbar. destruct Hbar as [Hc Hbar].
  cbn [append JS.split]. unfold AuthService.is_bar at 1.
  apply Ascii.eqb_neq in Hc. rewrite Hc.
  specialize (IH Hbar).
  pose proof (split_nonempty AuthService.is_bar (cid ++ "|" ++ rest)) as Hne.
  cbn [append] in IH, Hne.
  destruct (JS.split AuthService.is_bar (cid ++ String "|" rest)) as [| w ws];
    [contradiction |].
  cbn [hd] in IH. subst w. reflexivity.
Qed.

Lemma append_longer (s t : string) (c : ascii) : (s =? s ++ String c t) = false.
Proof.
  induction s as [| a s IH]; [reflexivity |].
  simpl. now rewrite Ascii.eqb_refl, IH.
Qed.

Lemma like_any (s : string) : Pg.like "%" s = true.
Proof.
  induction s as [| c s IH]; [reflexivity |].
  simpl in *. exact IH.
Qed.

Lemma like_percent (p s : string) :
  Pg.like p s = true -> Pg.like (String "%" p) s = true.
Proof.
  intros H. destruct s; simpl; now rewrite H.
Qed.

Lemma like_percent_skip (p s : string) (c : ascii) :
  Pg.like (String "%" p) s = true -> Pg.like (String "%" p) (String c s) = true.
Proof.
  intros H. simpl in *. rewrite H. apply orb_true_r.
Qed.

Lemma like_client_id (cid rest : string) :
  JS.includes cid "\" = false ->
  Pg.like (cid ++ "|%") (cid ++ "|" ++ rest) = true.
Proof.
  induction cid as [| c cid IH]; intros Hescape.
  - cbn [append]. change (Pg.like "|%" (String "|" rest))
      with (Ascii.eqb "|" "|" && Pg.like "%" rest).
    now rewrite like_any.
  - apply includes_cons_false in Hescape. destruct Hescape as [Hc Hescape].
    specialize (IH Hescape). cbn [append].
    destruct (Ascii.eqb_spec c "%") as [-> | Hpercent].
    { apply like_percent_skip, like_percent, IH. }
    destruct (Ascii.eqb_spec c "_") as [-> | Hunderscore].
    { exact IH. }
    destruct c as [[] [] [] [] [] [] [] []];
      try (exfalso; apply Hc; reflexivity);
      try (exfalso; apply Hpercent; reflexivity);
      try (exfalso; apply Hunderscore; reflexivity);
      cbn [Pg.like]; rewrite Ascii.eqb_refl; exact IH.
Qed.

Lemma getOrCreateToken_mismatch
    (env : Env.t) (sha256_hex : string -> string)
    (jwt_sign : AuthService.JWTPayload.t -> string -> Z -> string)
    (encryptSecret : string -> string -> string)
    (now : Z) (iv : string) (type : CallerType)
    (cid address other : string) (providerSecret : option string)
    (db : Db.t) (row : Caller.t) :
  JS.truthy cid = true ->
  JS.includes cid "|" = false ->
  JS.includes cid "\" = false ->
  In row (Db.callers db) ->
  AuthService.same_type (Caller.type row) type = true ->
  Caller.identifier row = cid ++ "|" ++ other ->
  (forall c, In c (Db.callers db) ->
             AuthService.same_type (Caller.type c) type = true ->
             Caller.identifier c <> cid ++ "|" ++ address) ->
  type = consumer
  \/ (JS.truthy_opt providerSecret = true
      /\ JS.trim (AuthService.or_string providerSecret EmptyString)
         <> EmptyString) ->
  AuthService.getOrCreateToken env sha256_hex jwt_sign encryptSecret now iv type
    (cid ++ "|" ++ address) providerSecret db
  = (db, Err "Identifier/IP mismatch for this client_id").
Proof.
  intros Hcid Hbar Hescape Hrow Htype Hidentifier Hnone Hsecret.
  unfold AuthService.getOrCreateToken.
  assert (Hfirst : AuthService.same_type type provider
                   && (negb (JS.truthy_opt providerSecret)
                       || (JS.trim (AuthService.or_string providerSecret
                                      EmptyString) =? EmptyString)) = false).
  { destruct Hsecret as [-> | [Htruthy Htrim]]; [reflexivity |].
    rewrite Htruthy. apply String.eqb_neq in Htrim. rewrite Htrim.
    apply andb_false_r. }
  rewrite Hfirst. unfold bind at 1, query at 1. unfold bind at 1.
  rewrite (split_client_id cid address Hbar), Hcid.
  change (cid ++ "|" ++ address) with (cid ++ String "|" address).
  rewrite (append_longer cid address "|"). cbn [negb andb].
  unfold bind at 1, query at 1.
  set (matching := fun c : Caller.t =>
         AuthService.same_type (Caller.type c) type
         && Pg.like (cid ++ "|%") (Caller.identifier c)).
  assert (Hin : In row (filter matching (Db.callers db))).
  { apply filter_In. split; [exact Hrow |]. unfold matching.
    rewrite Htype, Hidentifier. apply like_client_id, Hescape. }
  destruct (filter matching (Db.callers db)) as [| first others] eqn:Hfilter;
    [contradiction |].
  assert (Hhead : In first (filter matching (Db.callers db)))
    by (rewrite Hfilter; now left).
  apply filter_In in Hhead. destruct Hhead as [Hfirst_in Hfirst_matching].
  apply andb_true_iff in Hfirst_matching. destruct Hfirst_matching as [Hsame _].
  pose proof (Hnone first Hfirst_in Hsame) as Hdiffers.
  apply String.eqb_neq in Hdiffers.
  change (cid ++ "|" ++ address) with (cid ++ String "|" address) in Hdiffers.
  rewrite Hdiffers. reflexivity.
Qed.

Lemma same_type_eq (a b : CallerType) :
  AuthService.same_type a b = true -> a = b.
Proof.
  destruct a, b; simpl; congruence.
Qed.

Lemma find_updated_caller (f : Caller.t -> Caller.t) (caller : Caller.t)
    (l : list Caller.t) :
  (forall c, Caller.caller_id (f c) = Caller.caller_id c) ->
  NoDup (map Caller.caller_id l) -> In caller l ->
  find (fun c => Caller.caller_id c =? Caller.caller_id caller)
    (map (fun c => if Caller.caller_id c =? Caller.caller_id caller
                   then f c else c) l)
  = Some (f caller).
Proof.
  intros Hf. induction l as [| c l IH]; intros Hnodup Hin; [contradiction |].
  simpl. destruct (Caller.caller_id c =? Caller.caller_id caller) eqn:Hc.
  - rewrite Hf, Hc. f_equal. f_equal.
    apply String.eqb_eq in Hc.
    apply (NoDup_map_inj Caller.caller_id (c :: l)); auto. now left.
  - rewrite Hc. inversion Hnodup; subst.
    destruct Hin as [-> | Hin]; [rewrite String.eqb_refl in Hc; discriminate |].
    now apply IH.
Qed.

Lemma existsb_find_none {A} (p : A -> bool) (l : list A) :
  existsb p l = false -> find p l = None.
Proof.
  induction l as [| x l IH]; [reflexivity |]. simpl.
  destruct (p x); [discriminate | exact IH].
Qed.

(** X28: the secret a provider brings when it asks for a token is the
    secret the registry recovers for it afterwards, the one that signs the
    execution keys of its agents: after a request that succeeds, the
    callers hold the row the token was signed for, it is a provider, and
    its stored secret decrypts to the one given. The cipher decrypts what
    it encrypts, and caller ids are unique. *)
Theorem provider_secret_recovered
    (env : Env.t) (sha256_hex : string -> string)
    (jwt_sign : AuthService.JWTPayload.t -> string -> Z -> string)
    (encryptSecret : string -> string -> string)
    (decryptSecret : string -> option string)
    (now : Z) (iv identifier secret : string) (db db' : Db.t) (token : string) :
  (forall iv s, decryptSecret (encryptSecret iv s) = Some s) ->
  (forall iv s, JS.truthy (encryptSecret iv s) = true) ->
  NoDup (map Caller.caller_id (Db.callers db)) ->
  AuthService.getOrCreateToken env sha256_hex jwt_sign encryptSecret now iv
    provider identifier (Some secret) db = (db', Ok token) ->
  exists caller,
    In caller (Db.callers db')
    /\ Caller.type caller = provider
    /\ token
       = jwt_sign
           {| AuthService.JWTPayload.caller_id := Caller.caller_id caller;
              AuthService.JWTPayload.type := provider;
              AuthService.JWTPayload.identifier := Caller.identifier caller |}
           (Env.JWT_SECRET env) now
    /\ AuthService.getProviderSecret decryptSecret (Caller.caller_id caller) db'
       = Some secret.
Proof.
  intros Hcipher Htruthy Hnodup.
  unfold AuthService.getOrCreateToken.
  cbn [AuthService.same_type JS.truthy_opt AuthService.or_string andb].
  destruct (JS.truthy secret) eqn:Hsecret; cbn [negb orb];
    [| discriminate].
  destruct (JS.trim secret =? EmptyString); [discriminate |].
  unfold bind at 1, query at 1. unfold bind at 1.
  match goal with
  | |- context [if ?c then ?m else ret tt] =>
      assert (Hpure : exists r, (if c then m else ret tt) db = (db, r));
        [| destruct Hpure as [r Hpure]; rewrite Hpure; clear Hpure]
  end.
  { destruct (_ && _); [| eexists; reflexivity].
    unfold bind, query.
    destruct (filter _ (Db.callers db)) as [| first others];
      [eexists; reflexivity |].
    destruct (negb _); eexists; reflexivity. }
  destruct r as [[] | e]; [| discriminate].
  set (existing := filter _ (Db.callers db)).
  destruct existing as [| caller others] eqn:Hexisting.
  - unfold bind at 1. unfold AuthService.insert_caller.
    destruct (Pg.varchar 255 _) as [callerId |]; [| discriminate].
    destruct (Pg.varchar 512 identifier) as [stored |]; [| discriminate].
    destruct (existsb (fun c => Caller.caller_id c =? callerId) (Db.callers db))
      eqn:Hfresh; [discriminate |].
    cbn [orb].
    destruct (existsb
                (fun c => AuthService.same_type (Caller.type c) provider
                          && (Caller.identifier c =? stored))
                (Db.callers db)); [discriminate |].
    unfold bind at 1, ret at 1. unfold ret.
    cbn [Caller.caller_id Caller.type Caller.identifier].
    intros H. injection H as <- <-.
    eexists. split; [apply in_or_app; right; left; reflexivity |].
    cbn [Caller.caller_id Caller.type Caller.identifier].
    split; [reflexivity |]. split; [reflexivity |].
    unfold AuthService.getProviderSecret. cbn [Db.with_callers Db.callers].
    erewrite find_app_none;
      [| apply existsb_find_none; exact Hfresh | apply String.eqb_refl].
    cbn [Caller.type Caller.jwt_token]. now rewrite Htruthy, Hcipher.
  - assert (Hcaller : In caller (Db.callers db)
                      /\ Caller.type caller = provider).
    { assert (Hin : In caller existing) by (rewrite Hexisting; now left).
      unfold existing in Hin. apply filter_In in Hin.
      destruct Hin as [Hin Hmatch]. split; [exact Hin |].
      apply andb_true_iff in Hmatch. destruct Hmatch as [Hsame _].
      now apply same_type_eq. }
    destruct Hcaller as [Hin Hprovider].
    unfold bind at 1. unfold bind at 1.
    unfold AuthService.update_jwt_token at 1. unfold ret at 1.
    unfold bind at 1, ret at 1. unfold ret.
    cbn [AuthService.set_jwt_token Caller.caller_id Caller.type
           Caller.identifier].
    intros H. injection H as <- <-.
    exists (AuthService.set_jwt_token (Some (encryptSecret iv secret)) caller).
    cbn [AuthService.set_jwt_token Caller.caller_id Caller.type
           Caller.identifier Db.with_callers Db.callers].
    split.
    { apply in_map_iff. exists caller. now rewrite String.eqb_refl. }
    split; [exact Hprovider |].
    split; [now rewrite Hprovider |].
    unfold AuthService.getProviderSecret. cbn [Db.with_callers Db.callers].
    rewrite (find_updated_caller
               (AuthService.set_jwt_token (Some (encryptSecret iv secret)))
               caller (Db.callers db) (fun c => eq_refl) Hnodup Hin).
    cbn [AuthService.set_jwt_token Caller.type Caller.jwt_token].
    now rewrite Hprovider, Htruthy, Hcipher.
Qed.

Lemma provider_secret_recovered_witness :
  exists db' token caller,
    AuthService.getOrCreateToken Sample.production Sample.sha256_hex
      Sample.jwt_sign Sample.encryptSecret 0 "iv" provider "203.0.113.9"
      (Some "s3cret") Sample.known_client = (db', Ok token)
    /\ In caller (Db.callers db')
    /\ AuthService.getProviderSecret Sample.decrypt (Caller.caller_id caller) db'
       = Some "s3cret".
Proof.
  assert (H : exists db' token,
             AuthService.getOrCreateToken Sample.production Sample.sha256_hex
               Sample.jwt_sign Sample.encryptSecret 0 "iv" provider
               "203.0.113.9" (Some "s3cret") Sample.known_client
             = (db', Ok token))
    by (do 2 eexists; vm_compute; reflexivity).
  destruct H as [db' [token H]].
  assert (Hcipher : forall iv s,
             Sample.decrypt (Sample.encryptSecret iv s) = Some s).
  { assert (Hprefix : forall t, prefix EmptyString t = true)
      by (intros []; reflexivity).
    assert (Hwhole : forall t, substring 0 (String.length t) t = t)
      by (induction t; simpl; congruence).
    intros iv s. unfold Sample.decrypt, Sample.encryptSecret. simpl.
    now rewrite Hprefix, Nat.sub_0_r, Hwhole. }
  assert (Htruthy : forall iv s, JS.truthy (Sample.encryptSecret iv s) = true)
    by reflexivity.
  assert (Hnodup : NoDup (map Caller.caller_id (Db.callers Sample.known_client))).
  { repeat constructor. simpl. tauto. }
  destruct (provider_secret_recovered Sample.production Sample.sha256_hex
              Sample.jwt_sign Sample.encryptSecret Sample.decrypt 0 "iv"
              "203.0.113.9" "s3cret" Sample.known_client db' token
              Hcipher Htruthy Hnodup H)
    as [caller [Hin [_ [_ Hsecret]]]].
  exists db', token, caller. auto.
Defined.

(** ** The routes *)

(** X27: a client id is bound to the address it was first seen with: when
    the callers hold a row of the asked type whose identifier is the
    client id of the request, a bar and an address, and none for that
    client id at the address of this request, POST /auth/token answers 500
    and nothing is written. The client id is not empty and holds no bar
    and no backslash; a provider brings its secret. *)
Theorem spoofed_client_id_refused
    (env : Env.t) (sha256_hex : string -> string)
    (jwt_sign : AuthService.JWTPayload.t -> string -> Z -> string)
    (encryptSecret : string -> string -> string)
    (now : Z) (iv : string) (request : AuthService.HttpRequest.t)
    (typeName cid other : string) (type : CallerType)
    (db : Db.t) (row : Caller.t) :
  Routes.caller_type_of (Some typeName) = Some type ->
  AuthService.HttpRequest.x_client_id request = Some cid ->
  JS.truthy cid = true ->
  JS.includes cid "|" = false ->
  JS.includes cid "\" = false ->
  In row (Db.callers db) ->
  AuthService.same_type (Caller.type row) type = true ->
  Caller.identifier row = cid ++ "|" ++ other ->
  (forall c, In c (Db.callers db) ->
             AuthService.same_type (Caller.type c) type = true ->
             Caller.identifier c <> AuthService.extractIdentifier request) ->
  type = consumer
  \/ (JS.truthy_opt (AuthService.HttpRequest.x_provider_secret request) = true
      /\ JS.trim (AuthService.or_string
                    (AuthService.HttpRequest.x_provider_secret request)
                    EmptyString) <> EmptyString) ->
  Routes.postAuthToken env sha256_hex jwt_sign encryptSecret now iv request
    (Some typeName) db
  = (db, Routes.Failed 500 "Failed to generate token").
Proof.
  intros Htype Hclient Hcid Hbar Hescape Hrow Hsame Hidentifier Hnone Hsecret.
  unfold Routes.postAuthToken. rewrite Htype.
  assert (Hshape : exists address,
             AuthService.extractIdentifier request = cid ++ "|" ++ address).
  { unfold AuthService.extractIdentifier. rewrite Hclient, Hcid.
    eexists. reflexivity. }
  destruct Hshape as [address Hshape]. rewrite Hshape in *.
  now rewrite (getOrCreateToken_mismatch env sha256_hex jwt_sign encryptSecret
                 now iv type cid address other _ db row
                 Hcid Hbar Hescape Hrow Hsame Hidentifier Hnone Hsecret).
Qed.

Lemma spoofed_client_id_refused_witness :
  Routes.postAuthToken Sample.production Sample.sha256_hex Sample.jwt_sign
    Sample.encryptSecret 0 "iv"
    (Sample.http None (Some "client-7") (Some "198.51.100.9"))
    (Some "consumer") Sample.known_client
  = (Sample.known_client, Routes.Failed 500 "Failed to generate token").
Proof.
  apply (spoofed_client_id_refused Sample.production Sample.sha256_hex
           Sample.jwt_sign Sample.encryptSecret 0 "iv"
           (Sample.http None (Some "client-7") (Some "198.51.100.9"))
           "consumer" "client-7" "198.51.100.4" consumer Sample.known_client
           {| Caller.caller_id := "consumer-5f2bconsumer:cli";
              Caller.type := consumer;
              Caller.identifier := "client-7|198.51.100.4";
              Caller.jwt_token := None; Caller.is_active := true |}).
  - reflexivity.
  - reflexivity.
  - reflexivity.
  - reflexivity.
  - reflexivity.
  - left. reflexivity.
  - reflexivity.
  - reflexivity.
  - intros c [<- | []] _. discriminate.
  - left. reflexivity.
Defined.

Lemma preHandler_refused env jwt_verify (now : Z) (required : CallerType)
    (request : AuthService.HttpRequest.t) :
  (forall caller,
     jwt_verify (AuthService.or_string (Routes.bearer request) EmptyString)
       (Env.JWT_SECRET env) now = Ok caller ->
     AuthService.JWTPayload.type caller <> required) ->
  exists code error,
    Routes.preHandler env jwt_verify now required request
    = Routes.Refused code error
    /\ (code = 401 \/ code = 403)%Z.
Proof.
  intros Hrole. unfold Routes.preHandler, AuthService.verifyToken.
  destruct (negb (JS.truthy_opt (Routes.bearer request)));
    [do 2 eexists; split; [reflexivity | now left] |].
  destruct (jwt_verify _ (Env.JWT_SECRET env) now) as [payload | e] eqn:Hverify;
    [| do 2 eexists; split; [reflexivity | now right]].
  destruct (AuthService.same_type _ required) eqn:Hsame;
    [| do 2 eexists; split; [reflexivity | now right]].
  exfalso. apply (Hrole payload eq_refl). now apply same_type_eq.
Qed.

(** X29: the routes that write are guarded: when the request carries no
    token that verifies as a consumer's, POST /feedback answers 401 or 403
    and writes nothing, and so does POST /register when it carries no
    token that verifies as a provider's. *)
Theorem routes_guarded
    (Math_log : Q -> Q) (env : Env.t) (URL_parses : string -> bool)
    (jsonb : string -> option string)
    (jwt_verify : string -> string -> Z -> result AuthService.JWTPayload.t)
    (now : Z) (request : AuthService.HttpRequest.t) (required : CallerType)
    (feedback : FeedbackRequest.t) (registration : RegisterAgentRequest.t)
    (db : Db.t) :
  (forall caller,
     jwt_verify (AuthService.or_string (Routes.bearer request) EmptyString)
       (Env.JWT_SECRET env) now = Ok caller ->
     AuthService.JWTPayload.type caller <> required) ->
  exists code error,
    (code = 401 \/ code = 403)%Z
    /\ match required with
       | consumer =>
           Routes.postFeedback Math_log env jwt_verify now request feedback db
           = (db, Routes.Failed code error)
       | provider =>
           Routes.postRegister env URL_parses jsonb jwt_verify now request
             registration db
           = (db, Routes.Failed code error)
       end.
Proof.
  intros Hrole.
  destruct (preHandler_refused env jwt_verify now required request Hrole)
    as [code [error [Hrefused Hcode]]].
  exists code, error. split; [exact Hcode |].
  destruct required.
  - unfold Routes.postFeedback. now rewrite Hrefused.
  - unfold Routes.postRegister. now rewrite Hrefused.
Qed.

Lemma routes_guarded_witness :
  exists code error,
    (code = 401 \/ code = 403)%Z
    /\ Routes.postFeedback Sample.flat_log Sample.production Sample.jwt_verify 0
         (Sample.http (Some "Bearer jwt:provider-1") None None)
         (Sample.feedback 1) Sample.registry
       = (Sample.registry, Routes.Failed code error).
Proof.
  apply (routes_guarded Sample.flat_log Sample.production Sample.URL_parses
           Sample.jsonb Sample.jwt_verify 0
           (Sample.http (Some "Bearer jwt:provider-1") None None) consumer
           (Sample.feedback 1)
           (Sample.registration "agent:new" "https://w.example")
           Sample.registry).
  intros caller H. vm_compute in H. injection H as <-. discriminate.
Defined.

(** X30: what POST /feedback answers to a consumer: the feedback is filed
    under the caller id of the token, whatever the body says; a consumer
    at the rate limit gets 429 and nothing is written; in production a
    consumer with more than 10 feedbacks for the agent in the last hour
    gets 400 with the spam message. *)
Theorem feedback_route_replies
    (Math_log : Q -> Q) (env : Env.t)
    (jwt_verify : string -> string -> Z -> result AuthService.JWTPayload.t)
    (now : Z) (request : AuthService.HttpRequest.t) (body : FeedbackRequest.t)
    (caller : AuthService.JWTPayload.t) (db : Db.t) :
  Routes.preHandler env jwt_verify now consumer request = Routes.Granted caller ->
  JS.truthy (FeedbackRequest.agent_id body) = true ->
  JS.trim (FeedbackRequest.agent_id body) <> EmptyString ->
  0 <= FeedbackRequest.latency_ms body ->
  0 <= FeedbackRequest.rating body <= 1 ->
  let consumerId := AuthService.JWTPayload.caller_id caller in
  ((60 <= FeedbackRepository.countRecentByConsumer now consumerId 1 db)%Z ->
   Routes.postFeedback Math_log env jwt_verify now request body db
   = (db, Routes.Failed 429 FeedbackService.rate_limit_message))
  /\ (Env.isProductionMode env = true ->
      (FeedbackRepository.countRecentByConsumer now consumerId 1 db < 60)%Z ->
      AgentRepository.findById (FeedbackRequest.agent_id body) db <> None ->
      (10 < FeedbackRepository.countRecentByConsumerAndAgent now consumerId
              (FeedbackRequest.agent_id body) 1 db)%Z ->
      snd (Routes.postFeedback Math_log env jwt_verify now request body db)
      = Routes.Failed 400 FeedbackService.spam_message).
Proof.
  intros Hgranted Hid Htrim Hlatency Hrating consumerId.
  unfold Routes.postFeedback. rewrite Hgranted. fold consumerId.
  set (feedbackData :=
         {| FeedbackRequest.agent_id := FeedbackRequest.agent_id body;
            FeedbackRequest.success := FeedbackRequest.success body;
            FeedbackRequest.latency_ms := FeedbackRequest.latency_ms body;
            FeedbackRequest.rating := FeedbackRequest.rating body;
            FeedbackRequest.consumer_id := consumerId |}).
  split.
  - intros Hrate.
    rewrite (submitFeedback_rate_limit Math_log env now feedbackData db
               Hid Htrim Hlatency Hrating Hrate).
    reflexivity.
  - intros Hprod Hrate Hagent Hspam.
    pose proof (submitFeedback_spam Math_log env now feedbackData db
                  Hprod Hid Htrim Hlatency Hrating Hrate Hagent Hspam) as Hblocked.
    destruct (FeedbackService.submitFeedback Math_log env now feedbackData db)
      as [db' out].
    cbn [snd] in Hblocked. rewrite Hblocked. reflexivity.
Qed.

Lemma feedback_route_replies_witness :
  let busy :=
    Db.with_agent_feedbacks
      (repeat {| AgentFeedback.agent_id := "agent:other";
                 AgentFeedback.consumer_id := "consumer-1";
                 AgentFeedback.success := true;
                 AgentFeedback.latency_ms := 100;
                 AgentFeedback.rating := 1;
                 AgentFeedback.created_at := 59000 |} 60)
      Sample.registry in
  Routes.postFeedback Sample.flat_log Sample.production Sample.jwt_verify 60000
    (Sample.http (Some "Bearer jwt:consumer-1") None None)
    (Sample.feedback 1) busy
  = (busy, Routes.Failed 429 FeedbackService.rate_limit_message).
Proof.
  intros busy.
  refine (proj1 (feedback_route_replies Sample.flat_log Sample.production
                   Sample.jwt_verify 60000
                   (Sample.http (Some "Bearer jwt:consumer-1") None None)
                   (Sample.feedback 1)
                   {| AuthService.JWTPayload.caller_id := "consumer-1";
                      AuthService.JWTPayload.type := consumer;
                      AuthService.JWTPayload.identifier := "198.51.100.4" |}
                   busy _ _ _ _ _) _).
  - reflexivity.
  - reflexivity.
  - discriminate.
  - discriminate.
  - split; discriminate.
  - vm_compute. discriminate.
Defined.
